(** * NutriBot: privacy gate, provider fallback and assessment lifecycle

    A shallow embedding of the orchestration core of the NutriBot server:
    - [src/middleware/privacyMiddleware.js]  (module [Privacy]),
    - [src/services/localLLMService.js]      (module [LocalLLM]),
    - [src/services/chatbotService.js] and the chatbot routes
                                             (module [Chatbot]).

    JavaScript objects used as dictionaries are finite maps, exceptions are
    the left injection of a sum, the database table of assessments is a
    finite map from primary key to row, and external collaborators
    (consent validation, the anonymizer, the HTTP clients of the inference
    providers) are section variables. *)

From stdpp Require Import gmap strings pretty list fin_maps.
From Stdlib Require Import ZArith Lia.

Set Warnings "-register-all".

Local Open Scope string_scope.
Local Open Scope Z_scope.

(** ** JavaScript values and strings *)

(** JSON-shaped values as they arrive in request bodies.  Numbers are kept
    integral: the code below only ever tests a number for being zero. *)
Inductive JsValue : Type :=
| JUndefined
| JNull
| JBool (b : bool)
| JNum (n : Z)
| JStr (s : string)
| JArr (items : list JsValue)
| JObj (fields : list (string * JsValue)).

(** ToBoolean: [undefined], [null], [false], [0] and [''] are falsy,
    everything else (all arrays and objects included) is truthy. *)
Definition truthy (v : JsValue) : bool :=
  match v with
  | JUndefined | JNull => false
  | JBool b => b
  | JNum n => negb (n =? 0)
  | JStr s => negb (String.eqb s "")
  | JArr _ | JObj _ => true
  end.

(** A thrown [Error], identified by its message. *)
Definition Err : Type := string.

(** [String.prototype.includes]: [includes needle hay] is [hay.includes(needle)]. *)
Fixpoint includes (needle hay : string) : bool :=
  String.prefix needle hay ||
  match hay with
  | EmptyString => false
  | String _ rest => includes needle rest
  end.

(** [Array.prototype.includes] on an array of strings. *)
Definition arr_includes (l : list string) (x : string) : bool :=
  bool_decide (x ∈ l).

(** A string in a boolean position: the empty string is falsy. *)
Definition str_truthy (s : string) : bool := negb (String.eqb s "").

(** [a || b] on possibly missing strings. *)
Definition str_or (a b : option string) : option string :=
  match a with
  | Some s => if str_truthy s then Some s else b
  | None => b
  end.

(** ToString, as applied by a template literal [`${v}`]: an array joins
    its elements with commas, [null] and [undefined] elements giving the
    empty string; an object gives ["[object Object]"]. *)
Fixpoint jsToString (v : JsValue) : string :=
  match v with
  | JUndefined => "undefined"
  | JNull => "null"
  | JBool true => "true"
  | JBool false => "false"
  | JNum n => pretty n
  | JStr s => s
  | JArr items =>
      (fix join (l : list JsValue) : string :=
         match l with
         | [] => ""
         | x :: rest =>
             let elem := match x with
                         | JUndefined | JNull => ""
                         | _ => jsToString x
                         end in
             match rest with
             | [] => elem
             | _ :: _ => elem +:+ "," +:+ join rest
             end
         end) items
  | JObj _ => "[object Object]"
  end.

(** [process.env.NAME === 'true'] *)
Definition env_flag (env : gmap string string) (name : string) : bool :=
  bool_decide (env !! name = Some "true").

(** ** The per-request privacy context

    The object assigned to [req.privacyContext].  The middleware sets the
    first eight fields; [anonymizationLevel] and [includeHealthData] are
    read by the services and are absent ([None], [false]) unless a caller
    adds them. *)

Record PrivacyContext : Type := {
  timestamp : string;
  ipAddress : option string;
  userAgent : option string;
  consentValid : bool;
  dataMinimization : bool;
  anonymization : bool;
  gdprCompliance : bool;
  lopdgddCompliance : bool;
  anonymizationLevel : option string;
  includeHealthData : bool
}.

Definition set_consentValid (b : bool) (c : PrivacyContext) : PrivacyContext :=
  {| timestamp := timestamp c; ipAddress := ipAddress c;
     userAgent := userAgent c; consentValid := b;
     dataMinimization := dataMinimization c;
     anonymization := anonymization c;
     gdprCompliance := gdprCompliance c;
     lopdgddCompliance := lopdgddCompliance c;
     anonymizationLevel := anonymizationLevel c;
     includeHealthData := includeHealthData c |}.

(** ** src/middleware/privacyMiddleware.js *)

Module Privacy.

(** The part of an express request the middleware reads and writes.
    [cookies] is absent when no cookie parser ran ([req.cookies?.x]);
    [body] is absent when the request has none. *)
Record Request : Type := {
  path : string;
  ip : option string;
  headers : gmap string string;
  cookies : option (gmap string string);
  body : option (gmap string JsValue);
  privacyContext : option PrivacyContext
}.

Definition set_privacyContext (c : PrivacyContext) (r : Request) : Request :=
  {| path := path r; ip := ip r; headers := headers r; cookies := cookies r;
     body := body r; privacyContext := Some c |}.

Definition set_body (b : gmap string JsValue) (r : Request) : Request :=
  {| path := path r; ip := ip r; headers := headers r; cookies := cookies r;
     body := Some b; privacyContext := privacyContext r |}.

(** The error envelope sent by [res.status(..).json(..)]. *)
Record ErrorBody : Type := {
  error : string;
  code : string;
  missingConsents : list string;
  errTimestamp : string
}.

Record Response : Type := {
  resHeaders : gmap string string;
  statusCode : option Z;
  sent : option ErrorBody
}.

Definition res_set (hs : list (string * string)) (res : Response) : Response :=
  {| resHeaders := foldl (λ m kv, <[kv.1 := kv.2]> m) (resHeaders res) hs;
     statusCode := statusCode res; sent := sent res |}.

Definition res_status_json (st : Z) (b : ErrorBody) (res : Response) : Response :=
  {| resHeaders := resHeaders res; statusCode := Some st; sent := Some b |}.

(** What a middleware did with the request: called [next()], called
    [next(err)], or answered itself without calling [next]. *)
Inductive Outcome : Type :=
| Next (req : Request) (res : Response)
| NextErr (e : Err) (req : Request) (res : Response)
| Responded (req : Request) (res : Response).

(** The response object as the middleware left it. *)
Definition outcomeResponse (o : Outcome) : Response :=
  match o with
  | Next _ res | NextErr _ _ res | Responded _ res => res
  end.

(** The request object as the middleware left it. *)
Definition outcomeRequest (o : Outcome) : Request :=
  match o with
  | Next req _ | NextErr _ req _ | Responded req _ => req
  end.

(** *** minimizeData *)

Definition allowedFields : list string :=
  ["message"; "healthData"; "dietaryPreferences"; "allergies";
   "medicalConditions"; "goals"; "age"; "weight"; "height"].

Definition personalIdentifiers : list string :=
  ["email"; "phone"; "address"; "socialSecurityNumber";
   "passportNumber"; "driverLicense"; "creditCard"].

(** [if (minimized[identifier]) delete minimized[identifier]] *)
Definition strip_identifier (minimized : gmap string JsValue) (identifier : string)
  : gmap string JsValue :=
  match minimized !! identifier with
  | Some v => if truthy v then delete identifier minimized else minimized
  | None => minimized
  end.

Definition minimizeData (data : gmap string JsValue) (path : string)
  : gmap string JsValue :=
  let minimized := data in
  let minimized :=
    if includes "/chatbot/" path
    then filter (λ kv : string * JsValue, arr_includes allowedFields kv.1 = true) minimized
    else minimized in
  foldl strip_identifier minimized personalIdentifiers.

Section Middleware.

(** External collaborators: [utils/consentValidator] and
    [utils/dataAnonymizer] (which may throw), the process environment and
    the clock read by [new Date().toISOString()]. *)
Variable validateConsent : string → bool.
Variable anonymizeData : gmap string JsValue → string → Err + gmap string JsValue.
Variable env : gmap string string.
Variable now : string.

Definition securityHeaders : list (string * string) :=
  [("X-Content-Type-Options", "nosniff");
   ("X-Frame-Options", "DENY");
   ("X-XSS-Protection", "1; mode=block");
   ("Referrer-Policy", "strict-origin-when-cross-origin");
   ("Permissions-Policy", "geolocation=(), microphone=(), camera=()")].

(** [req.headers['x-consent-token'] || req.cookies?.consentToken] *)
Definition consentToken (req : Request) : option string :=
  str_or (headers req !! "x-consent-token")
         (cookies req ≫= λ c, c !! "consentToken").

(** The context assigned to [req.privacyContext], before the token is looked at. *)
Definition initialContext (req : Request) : PrivacyContext :=
  {| timestamp := now;
     ipAddress := ip req;
     userAgent := headers req !! "user-agent";
     consentValid := false;
     dataMinimization := env_flag env "DATA_MINIMIZATION_ENABLED";
     anonymization := env_flag env "ANONYMIZATION_ENABLED";
     gdprCompliance := env_flag env "GDPR_COMPLIANCE_ENABLED";
     lopdgddCompliance := env_flag env "LOPDGDD_COMPLIANCE_ENABLED";
     anonymizationLevel := None;
     includeHealthData := false |}.

(** The context once the consent token, if any, has been validated. *)
Definition buildContext (req : Request) : PrivacyContext :=
  let ctx := initialContext req in
  match consentToken req with
  | Some tok =>
      if str_truthy tok then set_consentValid (validateConsent tok) ctx else ctx
  | None => ctx
  end.

(** The [try] block of [privacyMiddleware] up to the call of [next]: the
    request and response as they are handed to [next()], or the error
    handed to [next(error)] by the [catch]. *)
Definition privacySteps (req : Request) (res : Response)
  : Err * Request * Response + Request * Response :=
  let res := res_set securityHeaders res in
  let ctx := buildContext req in
  let req := set_privacyContext ctx req in
  let req :=
    match body req with
    | Some b => if dataMinimization ctx then set_body (minimizeData b (path req)) req else req
    | None => req
    end in
  match body req with
  | Some b =>
      if anonymization ctx then
        match anonymizeData b (path req) with
        | inr b' => inr (set_body b' req, res)
        | inl e => inl (e, req, res)
        end
      else inr (req, res)
  | None => inr (req, res)
  end.

(** The body as the [try] block leaves it when nothing throws. *)
Definition processedBody (req : Request) : option (gmap string JsValue) :=
  match body req with
  | None => None
  | Some b =>
      let b1 := if env_flag env "DATA_MINIMIZATION_ENABLED"
                then minimizeData b (path req) else b in
      if env_flag env "ANONYMIZATION_ENABLED" then
        match anonymizeData b1 (path req) with
        | inr b2 => Some b2
        | inl _ => Some b1
        end
      else Some b1
  end.

Definition privacyMiddleware (req : Request) (res : Response) : Outcome :=
  match privacySteps req res with
  | inr (req', res') => Next req' res'
  | inl (e, req', res') => NextErr e req' res'
  end.

Definition isHealthPath (p : string) : bool :=
  includes "/health" p || includes "/medical" p.

Definition healthConsentRequired : ErrorBody :=
  {| error := "Explicit consent required for health data processing";
     code := "HEALTH_CONSENT_REQUIRED";
     missingConsents := [];
     errTimestamp := now |}.

Definition ctx_consentValid (req : Request) : bool :=
  match privacyContext req with
  | Some c => consentValid c
  | None => false
  end.

(** [privacyMiddleware(req, res, (err) => { ... })] *)
Definition enhancedPrivacyMiddleware (req : Request) (res : Response) : Outcome :=
  match privacySteps req res with
  | inl (e, req', res') => NextErr e req' res'
  | inr (req', res') =>
      if isHealthPath (path req') then
        if negb (ctx_consentValid req') then
          Responded req' (res_status_json 403 healthConsentRequired res')
        else
          Next req' (res_set [("X-Health-Data-Protected", "true");
                              ("X-Data-Category", "health")] res')
      else Next req' res'
  end.

(** *** consentValidationMiddleware *)

Definition consentMap : list (string * list string) :=
  [("/api/chatbot/health-assessment", ["health_data_processing"; "ai_analysis"]);
   ("/api/chatbot/personalized-advice",
      ["health_data_processing"; "ai_analysis"; "personalization"]);
   ("/api/nutritionist/share-data", ["health_data_sharing"; "nutritionist_access"]);
   ("/api/analytics/health-trends", ["analytics"; "health_data_processing"]);
   ("/api/user/export-data", ["data_portability"])].

Definition getRequiredConsents (p : string) : list string :=
  match list_find (λ kv : string * list string, kv.1 = p) consentMap with
  | Some (_, (_, cs)) => cs
  | None => []
  end.

(** [req.headers['x-user-consents'] || []]: a header is a string, so
    [userConsents.includes] is substring containment; without the header
    nothing is contained in the empty array. *)
Definition userConsentsInclude (req : Request) (consent : string) : bool :=
  match headers req !! "x-user-consents" with
  | Some h => if str_truthy h then includes consent h else false
  | None => false
  end.

Definition consentValidationMiddleware (req : Request) (res : Response) : Outcome :=
  let requiredConsents := getRequiredConsents (path req) in
  let missing :=
    List.filter (λ c, negb (userConsentsInclude req c)) requiredConsents in
  if bool_decide (0 < length requiredConsents)%nat
     && bool_decide (0 < length missing)%nat
  then Responded req
         (res_status_json 403
            {| error := "Missing required consents"; code := "MISSING_CONSENTS";
               missingConsents := missing; errTimestamp := now |} res)
  else Next req res.

(** *** The chatbot router: [router.use(enhancedPrivacyMiddleware)] and
    [router.use(consentValidationMiddleware)] in front of the route
    handlers.  A handler answers the request and makes some number of calls
    to the inference providers; it runs only when every middleware in front
    of it called [next()] without an error.  The application's error
    handler answers [next(err)]. *)
Variable handler : Request → Response → Response * nat.
Variable errorHandler : Err → Request → Response → Response.

Definition chatbotRouter (req : Request) (res : Response) : Response * nat :=
  match enhancedPrivacyMiddleware req res with
  | Next req1 res1 =>
      match consentValidationMiddleware req1 res1 with
      | Next req2 res2 => handler req2 res2
      | NextErr e req2 res2 => (errorHandler e req2 res2, 0%nat)
      | Responded _ res2 => (res2, 0%nat)
      end
  | NextErr e req1 res1 => (errorHandler e req1 res1, 0%nat)
  | Responded _ res1 => (res1, 0%nat)
  end.

End Middleware.

End Privacy.

(** ** src/services/localLLMService.js *)

(** [String.prototype.toLowerCase] on UTF-8 text, for the letters of Basic
    Latin and of the Latin-1 Supplement (the alphabet of the response
    table below): [A-Z] and the two-byte sequences [C3 80 .. C3 9E] other
    than the multiplication sign [C3 97]. *)
Definition lower_byte (c : Ascii.ascii) : Ascii.ascii :=
  let n := Ascii.nat_of_ascii c in
  if ((65 <=? n) && (n <=? 90))%nat then Ascii.ascii_of_nat (n + 32) else c.

Definition lower_latin1 (d : Ascii.ascii) : Ascii.ascii :=
  let n := Ascii.nat_of_ascii d in
  if ((128 <=? n) && (n <=? 158) && negb (n =? 151))%nat
  then Ascii.ascii_of_nat (n + 32) else d.

Fixpoint toLowerCase (s : string) : string :=
  match s with
  | EmptyString => EmptyString
  | String c rest =>
      if (Ascii.nat_of_ascii c =? 195)%nat then
        match rest with
        | String d rest' => String c (String (lower_latin1 d) (toLowerCase rest'))
        | EmptyString => String c EmptyString
        end
      else String (lower_byte c) (toLowerCase rest)
  end.

(** The options object handed to [anonymizeData] by [anonymizePrompt]. *)
Record AnonOptions : Type := {
  removeNames : bool;
  removeLocations : bool;
  removeDates : bool;
  removePersonalInfo : bool
}.

(** The object every generation path returns. *)
Record LLMResponse : Type := {
  success : bool;
  response : string;
  model : string;
  privacyCompliant : bool;
  processingTime : Z
}.

(** The [context] argument of the prompt builders: only these three
    properties are read; a missing or empty one is [None]. *)
Record LLMContext : Type := {
  userProfile : option string;
  dietaryRestrictions : option string;
  healthGoals : option string
}.

Definition emptyContext : LLMContext :=
  {| userProfile := None; dietaryRestrictions := None; healthGoals := None |}.

(** [${x ? `label${x}` : dflt}] *)
Definition interp (x : option string) (label dflt : string) : string :=
  match x with
  | Some v => if str_truthy v then label +:+ v else dflt
  | None => dflt
  end.

Module LocalLLM.

Definition highOptions : AnonOptions :=
  {| removeNames := true; removeLocations := true;
     removeDates := true; removePersonalInfo := true |}.

Definition mediumOptions : AnonOptions :=
  {| removeNames := true; removeLocations := false;
     removeDates := false; removePersonalInfo := false |}.

(** [privacyContext.anonymizationLevel || 'medium'] *)
Definition levelOf (level : option string) : string :=
  match str_or level (Some "medium") with
  | Some l => l
  | None => "medium"
  end.

(** [anonymizePrompt]: the prompt is passed through untouched, so the
    function is stated for any payload type [P]; an exception of
    [anonymizeData] is caught and the original prompt returned. *)
Definition anonymizePrompt {P : Type}
    (anonymizeData : P → AnonOptions → Err + P)
    (prompt : P) (level : option string) : P :=
  let anonymizationLevel := levelOf level in
  if String.eqb anonymizationLevel "high" then
    match anonymizeData prompt highOptions with
    | inr p => p
    | inl _ => prompt
    end
  else if String.eqb anonymizationLevel "medium" then
    match anonymizeData prompt mediumOptions with
    | inr p => p
    | inl _ => prompt
    end
  else prompt.

Definition buildSystemPrompt (context : LLMContext) : string :=
  "Eres NutriBot, un asistente de nutrición especializado que cumple con las leyes de privacidad españolas (GDPR y LOPDGDD). 

INSTRUCCIONES IMPORTANTES:
- Proporciona consejos nutricionales basados en evidencia científica
- Siempre menciona que no eres un sustituto de un profesional de la salud
- Respeta la privacidad del usuario y no solicites información personal innecesaria
- Usa un tono profesional pero amigable
- Responde en español
- Mantén las respuestas concisas pero informativas

CONTEXTO DEL USUARIO:
" +:+ interp (userProfile context) "Perfil: " "Perfil no disponible" +:+ "
" +:+ interp (dietaryRestrictions context) "Restricciones: " "" +:+ "
" +:+ interp (healthGoals context) "Objetivos: " "" +:+ "

Ahora responde a la siguiente consulta del usuario:".

Definition fallbackResponses : list (string * string) :=
  [("hola", "¡Hola! Soy NutriBot, tu asistente de nutrición. ¿En qué puedo ayudarte hoy?");
   ("nutrición", "Puedo ayudarte con consejos nutricionales, planes de comidas y evaluaciones de salud. ¿Qué te interesa específicamente?");
   ("evaluación", "Te ayudo a realizar una evaluación de salud personalizada. ¿Estás listo para comenzar?");
   ("plan", "Puedo crear un plan de comidas adaptado a tus necesidades. ¿Tienes alguna preferencia o restricción alimentaria?");
   ("peso", "Para ayudarte con objetivos de peso, necesitaría conocer tu situación actual. ¿Te gustaría hacer una evaluación completa?");
   ("energía", "Los alimentos ricos en nutrientes como frutas, verduras, proteínas magras y granos enteros pueden ayudarte a mantener niveles de energía estables.");
   ("ejercicio", "La nutrición y el ejercicio van de la mano. ¿Te gustaría consejos sobre qué comer antes, durante o después del ejercicio?");
   ("vegetariano", "Una dieta vegetariana bien planificada puede ser muy saludable. ¿Te gustaría consejos sobre cómo asegurar una nutrición completa?");
   ("vegano", "Las dietas veganas requieren atención especial a ciertos nutrientes como B12, hierro y calcio. ¿Te gustaría más información?");
   ("gluten", "Si tienes sensibilidad al gluten, hay muchas alternativas deliciosas disponibles. ¿Te gustaría sugerencias de alimentos?");
   ("diabetes", "La gestión de la diabetes requiere atención especial a los carbohidratos y el control del azúcar en sangre. Siempre consulta con tu médico.");
   ("colesterol", "Una dieta baja en grasas saturadas y rica en fibra puede ayudar a controlar el colesterol. ¿Te gustaría consejos específicos?");
   ("presión", "Reducir el sodio y aumentar el potasio puede ayudar con la presión arterial. ¿Te gustaría más información?");
   ("digestión", "Los alimentos ricos en fibra, probióticos y una buena hidratación pueden mejorar la digestión.");
   ("sueño", "Evitar comidas pesadas antes de dormir y alimentos con cafeína puede mejorar la calidad del sueño.");
   ("estrés", "Alimentos ricos en omega-3, vitaminas B y magnesio pueden ayudar a manejar el estrés.");
   ("privacidad", "Tu privacidad es nuestra prioridad. Todos los datos están encriptados y anonimizados según las leyes españolas de protección de datos.");
   ("ayuda", "Puedo ayudarte con: evaluaciones de salud, consejos nutricionales, planes de comidas, y seguimiento de progreso. ¿Qué necesitas?")].

Definition defaultResponse : string :=
  "Gracias por tu consulta. Soy NutriBot y estoy aquí para ayudarte con nutrición y salud. ¿Puedes ser más específico sobre lo que necesitas?".

(** The [for .. of Object.entries(fallbackResponses)] loop: the first
    entry, in insertion order, whose key the lower-cased prompt contains. *)
Definition getFallbackResponse (prompt : string) : LLMResponse :=
  let lowerPrompt := toLowerCase prompt in
  match list_find (λ kv : string * string, includes kv.1 lowerPrompt = true)
                  fallbackResponses with
  | Some (_, (_, resp)) =>
      {| success := true; response := resp; model := "fallback-rule-based";
         privacyCompliant := true; processingTime := 0 |}
  | None =>
      {| success := true; response := defaultResponse; model := "fallback-default";
         privacyCompliant := true; processingTime := 0 |}
  end.

(** The service object built by the constructor. *)
Record Service : Type := {
  baseURL : string;
  modelName : string
}.

(** [process.env.OLLAMA_BASE_URL || 'http://localhost:11434'] and
    [process.env.LOCAL_MODEL || 'mistral:7b']. *)
Definition new (env : gmap string string) : Service :=
  {| baseURL := default "http://localhost:11434"
                  (str_or (env !! "OLLAMA_BASE_URL") None);
     modelName := default "mistral:7b" (str_or (env !! "LOCAL_MODEL") None) |}.

(** The body posted to [/api/generate] (the sampling options are
    constants of the configuration) and the [data] of the reply. *)
Record GenerateRequest : Type := {
  reqModel : string;
  reqPrompt : string;
  reqStream : bool
}.

Record GenerateData : Type := {
  dataResponse : option string;
  evalDuration : option Z
}.

Section Generate.

(** [utils/dataAnonymizer] on prompts, and [axios.post] with its 30 s
    timeout: a network error, a timeout and a non-2xx status all throw;
    a reply may lack [data]. *)
Variable anonymizeData : string → AnonOptions → Err + string.
Variable axios_post : string → GenerateRequest → Err + option GenerateData.

Definition generateResponse (svc : Service) (prompt : string)
    (context : LLMContext) (privacyContext : PrivacyContext) : LLMResponse :=
  let anonymizedPrompt :=
    anonymizePrompt anonymizeData prompt (anonymizationLevel privacyContext) in
  let requestData :=
    {| reqModel := modelName svc;
       reqPrompt := buildSystemPrompt context +:+ anonymizedPrompt;
       reqStream := false |} in
  match axios_post (baseURL svc +:+ "/api/generate") requestData with
  | inr (Some d) =>
      match dataResponse d with
      | Some generatedText =>
          if str_truthy generatedText then
            {| success := true; response := generatedText;
               model := modelName svc; privacyCompliant := true;
               processingTime := default 0 (evalDuration d) |}
          else getFallbackResponse prompt
      | None => getFallbackResponse prompt
      end
  | inr None => getFallbackResponse prompt
  | inl _ => getFallbackResponse prompt
  end.

End Generate.

(** The reply of [GET /api/tags], reduced to [data.models]. *)
Record TagsData : Type := {
  models : option (list JsValue)
}.

(** The object [healthCheck] returns, for both services; a property a
    branch does not set is [None]. *)
Record Health : Type := {
  healthStatus : string;
  available : bool;
  healthModels : option (list JsValue);
  healthBaseURL : option string;
  healthError : option string;
  fallbackAvailable : option bool;
  healthService : option string;
  healthModel : option string
}.

Section Probe.

(** [axios.get], with its timeout. *)
Variable axios_get : string → Err + TagsData.

Definition healthCheck (svc : Service) : Health :=
  match axios_get (baseURL svc +:+ "/api/tags") with
  | inr d =>
      {| healthStatus := "healthy"; available := true;
         healthModels := Some (default [] (models d));
         healthBaseURL := Some (baseURL svc);
         healthError := None; fallbackAvailable := None;
         healthService := None; healthModel := None |}
  | inl e =>
      {| healthStatus := "unavailable"; available := false;
         healthModels := None; healthBaseURL := None;
         healthError := Some e; fallbackAvailable := Some true;
         healthService := None; healthModel := None |}
  end.

Definition listAvailableModels (svc : Service) : list JsValue :=
  match axios_get (baseURL svc +:+ "/api/tags") with
  | inr d => default [] (models d)
  | inl _ => []
  end.

End Probe.

End LocalLLM.

(** ** src/services/chatbotService.js *)

Module Chatbot.

(** The values of the [status] column. *)
Inductive Status : Type := in_progress | completed.

(** An element of the [answers] array. *)
Record Answer : Type := {
  questionId : string;
  answer : string;
  confidence : JsValue;
  answeredAt : string
}.

(** A row of the [Assessment] table.  The encrypted columns
    ([encryptData(JSON.stringify(x))], read back with
    [JSON.parse(decryptData(..))]) hold the value [x] itself; a column that
    was never written is [None]. *)
Record Assessment : Type := {
  id : string;
  userId : string;
  status : Status;
  healthData : JsValue;
  anonymizedData : JsValue;
  progress : Z;
  currentQuestion : JsValue;
  totalQuestions : Z;
  answers : option (list Answer);
  recommendations : option string;
  nextQuestion : option string;
  createdAt : string;
  updatedAt : string;
  completedAt : option string
}.

(** The table, keyed by its primary key [id]. *)
Abbreviation Store := (gmap string Assessment).

(** [Assessment.findOne({ where: { id, userId } })] *)
Definition findOne (st : Store) (assessmentId uid : string) : option Assessment :=
  match st !! assessmentId with
  | Some a => if String.eqb (userId a) uid then Some a else None
  | None => None
  end.

(** [Assessment.create(row)]: the primary key must be fresh. *)
Definition create (row : Assessment) (st : Store) : Err + Store :=
  match st !! id row with
  | Some _ => inl "SequelizeUniqueConstraintError"
  | None => inr (<[id row := row]> st)
  end.

(** [assessment.update(..)] writes the row back; [assessment.destroy()]
    removes it. *)
Definition save (row : Assessment) (st : Store) : Store := <[id row := row]> st.
Definition destroy (row : Assessment) (st : Store) : Store := delete (id row) st.

(** [Math.round((n / total) * 100)]: rounding to the nearest integer, a
    half going up.  With [total = 15], the only value the code creates,
    the quotient is a whole number or a third away from one, so the
    double-precision result is the exact one. *)
Definition roundPercent (n total : Z) : Z := (200 * n + total) / (2 * total).

Definition calculateEstimatedCompletion (total : Z) : Z :=
  let avgTimePerQuestion := 2 in total * avgTimePerQuestion.

(** The service object built by the constructor: [localLLM] is set only
    when [useLocalLLM] holds, the OpenAI client and model only otherwise. *)
Record Service : Type := {
  useLocalLLM : bool;
  localLLM : option LocalLLM.Service;
  openaiModel : option string
}.

Definition new (env : gmap string string) : Service :=
  let useLocal :=
    env_flag env "USE_LOCAL_LLM"
    || negb (match env !! "OPENAI_API_KEY" with
             | Some k => str_truthy k
             | None => false
             end) in
  if useLocal then
    {| useLocalLLM := true; localLLM := Some (LocalLLM.new env); openaiModel := None |}
  else
    {| useLocalLLM := false; localLLM := None;
       openaiModel := Some (default "gpt-4" (str_or (env !! "OPENAI_MODEL") None)) |}.

(** Calling [this.name(x)]: a method the class does not define is
    [undefined], and calling it throws a [TypeError]. *)
Definition call_method {A B : Type} (m : option (A → B)) (name : string) (x : A)
  : Err + B :=
  match m with
  | Some f => inr (f x)
  | None => inl ("TypeError: this." +:+ name +:+ " is not a function")
  end.

(** [ChatbotService] defines [getSystemPrompt] but no [buildSystemPrompt]
    (that one belongs to [LocalLLMService]). *)
Definition this_buildSystemPrompt : option (LLMContext → string) := None.

Definition getSystemPrompt (context : LLMContext) : string :=
  "Eres NutriBot, un asistente de nutrición especializado que cumple con las leyes de privacidad españolas (GDPR y LOPDGDD).

INSTRUCCIONES IMPORTANTES:
- Proporciona consejos nutricionales basados en evidencia científica
- Siempre menciona que no eres un sustituto de un profesional de la salud
- Respeta la privacidad del usuario y no solicites información personal innecesaria
- Usa un tono profesional pero amigable
- Responde en español
- Mantén las respuestas concisas pero informativas

CONTEXTO DEL USUARIO:
" +:+ interp (userProfile context) "Perfil: " "Perfil no disponible" +:+ "
" +:+ interp (dietaryRestrictions context) "Restricciones: " "" +:+ "
" +:+ interp (healthGoals context) "Objetivos: " "".

Definition buildAdvicePrompt (query : string) (userContext : LLMContext)
    (additionalContext : string) : string :=
  getSystemPrompt userContext +:+ "

CONSULTA DEL USUARIO: " +:+ query +:+ "

" +:+ additionalContext +:+ "

Proporciona consejos nutricionales específicos y útiles:".

Definition answerJs (a : Answer) : JsValue :=
  JObj [("questionId", JStr (questionId a)); ("answer", JStr (answer a));
        ("confidence", confidence a); ("timestamp", JStr (answeredAt a))].

(** The request and the reply of [openai.chat.completions.create]; the
    reply is reduced to [choices[0].message.content] ([None] when there is
    no such string) and [usage?.total_tokens]. *)
Record ChatRequest : Type := {
  chatModel : string;
  systemContent : string;
  userContent : string
}.

Record ChatReply : Type := {
  content : option string;
  totalTokens : option Z
}.

(** The three [assessment.update({..})] calls: after the first question
    was generated, after an answer short of the last, after the last. *)
Definition updateFirstQuestion (now : string) (a : Assessment)
    (firstQuestion : string) : Assessment :=
  {| id := id a; userId := userId a; status := status a;
     healthData := healthData a; anonymizedData := anonymizedData a;
     progress := progress a;
     currentQuestion := JStr firstQuestion;
     totalQuestions := totalQuestions a;
     answers := answers a; recommendations := recommendations a;
     nextQuestion := Some firstQuestion;
     createdAt := createdAt a; updatedAt := now;
     completedAt := completedAt a |}.

Definition updateInProgress (now : string) (a : Assessment)
    (answers1 : list Answer) (progress1 : Z) (question : string) : Assessment :=
  {| id := id a; userId := userId a; status := status a;
     healthData := healthData a; anonymizedData := anonymizedData a;
     progress := progress1;
     currentQuestion := JNum (Z.of_nat (length answers1) + 1);
     totalQuestions := totalQuestions a;
     answers := Some answers1; recommendations := recommendations a;
     nextQuestion := Some question;
     createdAt := createdAt a; updatedAt := now;
     completedAt := completedAt a |}.

Definition updateCompleted (now : string) (a : Assessment)
    (answers1 : list Answer) (recs : string) : Assessment :=
  {| id := id a; userId := userId a; status := completed;
     healthData := healthData a; anonymizedData := anonymizedData a;
     progress := 100;
     currentQuestion := currentQuestion a;
     totalQuestions := totalQuestions a;
     answers := Some answers1; recommendations := Some recs;
     nextQuestion := nextQuestion a;
     createdAt := createdAt a; updatedAt := now;
     completedAt := Some now |}.

(** [answers.push({ questionId, answer, confidence, timestamp })] on the
    decrypted array, or on [[]] when the column is empty. *)
Definition pushAnswer (now : string) (a : Assessment) (qid ans : string)
    (conf : JsValue) : list Answer :=
  (default [] (answers a) ++
   [{| questionId := qid; answer := ans; confidence := conf;
       answeredAt := now |}])%list.

(** [answers.length] of the stored array. *)
Definition answerCount (a : Assessment) : Z :=
  Z.of_nat (length (default [] (answers a))).

(** Every row is stored under its own [id]. *)
Definition keyed (st : gmap string Assessment) : Prop :=
  ∀ k a, st !! k = Some a → id a = k.

(** The shape of a row over its life: fifteen questions; in progress with
    fewer than fifteen answers and the rounded percentage, or completed
    with at least fifteen answers and 100. *)
Definition lifecycleInvariant (a : Assessment) : Prop :=
  totalQuestions a = 15
  ∧ (status a = in_progress ∧ answerCount a < 15
     ∧ progress a = roundPercent (answerCount a) 15
     ∨ status a = completed ∧ 15 ≤ answerCount a ∧ progress a = 100).

Definition wellFormed (st : gmap string Assessment) : Prop :=
  keyed st ∧ map_Forall (λ _ a, lifecycleInvariant a) st.

(** What a row holds besides its progress: in progress, no
    recommendations and no completion date; completed, a non-empty
    recommendations text, a completion date and at least one answer. *)
Definition outcomeInvariant (a : Assessment) : Prop :=
  status a = in_progress ∧ recommendations a = None ∧ completedAt a = None
  ∨ status a = completed
    ∧ (∃ recs, recommendations a = Some recs ∧ recs ≠ "")
    ∧ is_Some (completedAt a) ∧ is_Some (answers a).

Section Service.

(** External collaborators: [JSON.stringify(x, null, 2)], the three uses
    of [utils/dataAnonymizer] (with an options object on prompts, with a
    tag on prompts, with a tag on health data), the HTTP client of the
    local provider, the OpenAI client, and the clock. *)
Variable stringify : JsValue → string.
Variable anonymizeData : string → AnonOptions → Err + string.
Variable anonymizeText : string → string → Err + string.
Variable anonymizeObject : JsValue → string → Err + JsValue.
Variable axios_post : string → LocalLLM.GenerateRequest → Err + option LocalLLM.GenerateData.
Variable openai_create : ChatRequest → Err + ChatReply.
Variable now : string.

Variable svc : Service.

Definition buildQuestionPrompt (questionNumber : Z) (hd : JsValue)
    (previousAnswers : list Answer) : string :=
  getSystemPrompt emptyContext +:+ "

EVALUACIÓN DE SALUD - PREGUNTA " +:+ pretty questionNumber +:+ "

DATOS DE SALUD DEL USUARIO:
" +:+ stringify hd +:+ "

RESPUESTAS PREVIAS:
" +:+ stringify (JArr (answerJs <$> previousAnswers)) +:+ "

Genera la siguiente pregunta de la evaluación de salud, considerando las respuestas previas:".

Definition buildRecommendationsPrompt (hd : JsValue) (ans : list Answer) : string :=
  getSystemPrompt emptyContext +:+ "

RECOMENDACIONES FINALES

DATOS DE SALUD:
" +:+ stringify hd +:+ "

RESPUESTAS DE LA EVALUACIÓN:
" +:+ stringify (JArr (answerJs <$> ans)) +:+ "

Genera recomendaciones nutricionales personalizadas basadas en la evaluación:".

(** [generateOpenAIResponse]: every exception is logged and rethrown. *)
Definition generateOpenAIResponse (prompt : string) (context : LLMContext)
    (privacyContext : PrivacyContext) : Err + LLMResponse :=
  match (if anonymization privacyContext
         then anonymizeText prompt "openai_request" else inr prompt) with
  | inl e => inl e
  | inr anonymizedPrompt =>
      match call_method this_buildSystemPrompt "buildSystemPrompt" context with
      | inl e => inl e
      | inr systemPrompt =>
          match openai_create {| chatModel := default "gpt-4" (openaiModel svc);
                                 systemContent := systemPrompt;
                                 userContent := anonymizedPrompt |} with
          | inl e => inl e
          | inr reply =>
              match content reply with
              | None => inl "TypeError: Cannot read properties of undefined"
              | Some generatedText =>
                  inr {| success := true; response := generatedText;
                         model := default "gpt-4" (openaiModel svc);
                         privacyCompliant := true;
                         processingTime := default 0 (totalTokens reply) |}
              end
          end
      end
  end.

(** [this.localLLM.generateResponse(..)]; [this.localLLM] may be undefined. *)
Definition localGenerate (prompt : string) (context : LLMContext)
    (privacyContext : PrivacyContext) : Err + LLMResponse :=
  match localLLM svc with
  | Some l =>
      inr (LocalLLM.generateResponse anonymizeData axios_post l prompt context
             privacyContext)
  | None => inl "TypeError: Cannot read properties of undefined"
  end.

Definition generateLLMResponse (prompt : string) (context : LLMContext)
    (privacyContext : PrivacyContext) : Err + LLMResponse :=
  match (if useLocalLLM svc
         then localGenerate prompt context privacyContext
         else generateOpenAIResponse prompt context privacyContext) with
  | inr r => inr r
  | inl error =>
      if negb (useLocalLLM svc) && bool_decide (is_Some (localLLM svc))
      then localGenerate prompt context privacyContext
      else inl error
  end.

Definition generateAssessmentQuestion (questionNumber : Z) (hd : JsValue)
    (previousAnswers : list Answer) (privacyContext : PrivacyContext)
  : Err + string :=
  let prompt := buildQuestionPrompt questionNumber hd previousAnswers in
  match generateLLMResponse prompt emptyContext privacyContext with
  | inr r => inr (response r)
  | inl e => inl e
  end.

Definition generateFinalRecommendations (hd : JsValue) (ans : list Answer)
    (privacyContext : PrivacyContext) : Err + string :=
  let prompt := buildRecommendationsPrompt hd ans in
  match generateLLMResponse prompt emptyContext privacyContext with
  | inr r => inr (response r)
  | inl e => inl e
  end.

(** *** startHealthAssessment *)

Record StartResult : Type := {
  startId : string;
  startStatus : Status;
  startNextQuestion : string;
  startProgress : Z;
  startEstimatedCompletion : Z
}.

(** [newId] is the value of [uuidv4()]. *)
Definition startHealthAssessment (newId uid : string) (hd : JsValue)
    (privacyContext : PrivacyContext) (st : Store) : (Err + StartResult) * Store :=
  let failed : Err + StartResult := inl "Failed to start health assessment" in
  match (if anonymization privacyContext
         then anonymizeObject hd "health_assessment" else inr hd) with
  | inl _ => (failed, st)
  | inr anonymized =>
      let assessment :=
        {| id := newId; userId := uid; status := in_progress;
           healthData := hd; anonymizedData := anonymized;
           progress := 0; currentQuestion := JNum 1; totalQuestions := 15;
           answers := None; recommendations := None; nextQuestion := None;
           createdAt := now; updatedAt := now; completedAt := None |} in
      match create assessment st with
      | inl _ => (failed, st)
      | inr st1 =>
          match generateAssessmentQuestion 1 anonymized [] privacyContext with
          | inl _ => (failed, st1)
          | inr firstQuestion =>
              let assessment' := updateFirstQuestion now assessment firstQuestion in
              (inr {| startId := id assessment';
                      startStatus := status assessment';
                      startNextQuestion := firstQuestion;
                      startProgress := progress assessment';
                      startEstimatedCompletion :=
                        calculateEstimatedCompletion (totalQuestions assessment') |},
               save assessment' st1)
          end
      end
  end.

(** *** processAnswer *)

Record AnswerResult : Type := {
  resStatus : Status;
  resNextQuestion : option string;
  resRecommendations : option string;
  resProgress : Z;
  resEstimatedCompletion : option Z
}.

Definition processAnswer (uid assessmentId qid ans : string) (conf : JsValue)
    (privacyContext : PrivacyContext) (st : Store) : (Err + AnswerResult) * Store :=
  let failed : Err + AnswerResult := inl "Failed to process answer" in
  match findOne st assessmentId uid with
  | None => (failed, st)
  | Some assessment =>
      let hd := healthData assessment in
      let answers1 := pushAnswer now assessment qid ans conf in
      let progress1 := roundPercent (Z.of_nat (length answers1))
                                    (totalQuestions assessment) in
      if Z.of_nat (length answers1) >=? totalQuestions assessment then
        match generateFinalRecommendations hd answers1 privacyContext with
        | inl _ => (failed, st)
        | inr recs =>
            (inr {| resStatus := completed; resNextQuestion := None;
                    resRecommendations := Some recs; resProgress := 100;
                    resEstimatedCompletion := None |},
             save (updateCompleted now assessment answers1 recs) st)
        end
      else
        match generateAssessmentQuestion (Z.of_nat (length answers1) + 1) hd
                answers1 privacyContext with
        | inl _ => (failed, st)
        | inr question =>
            (inr {| resStatus := status assessment;
                    resNextQuestion := Some question;
                    resRecommendations := None; resProgress := progress1;
                    resEstimatedCompletion :=
                      Some (calculateEstimatedCompletion (totalQuestions assessment)) |},
             save (updateInProgress now assessment answers1 progress1 question) st)
        end
  end.

(** *** getPersonalizedAdvice *)

Record Advice : Type := {
  advice : string;
  adviceModel : string;
  advicePrivacyCompliant : bool;
  adviceProcessingTime : Z
}.

Definition getPersonalizedAdvice (query : string) (context : LLMContext)
    (privacyContext : PrivacyContext) : Err + Advice :=
  let prompt := buildAdvicePrompt query context "" in
  match generateLLMResponse prompt context privacyContext with
  | inr r =>
      inr {| advice := response r; adviceModel := model r;
             advicePrivacyCompliant := privacyCompliant r;
             adviceProcessingTime := processingTime r |}
  | inl _ => inl "Failed to generate personalized advice"
  end.

(** *** generateMealPlan and trackProgress *)

(** [buildMealPlanPrompt(userData, duration, preferences, restrictions)];
    [userData] is not used by the template. *)
Definition buildMealPlanPrompt (userData duration preferences restrictions : JsValue)
  : string :=
  getSystemPrompt emptyContext +:+ "

PLAN DE COMIDAS

DURACIÓN: " +:+ jsToString duration +:+ " días
PREFERENCIAS: " +:+ (if truthy preferences then jsToString preferences
                     else "Ninguna especificada") +:+ "
RESTRICCIONES: " +:+ (if truthy restrictions then jsToString restrictions
                      else "Ninguna especificada") +:+ "

Genera un plan de comidas detallado y personalizado:".

Definition buildInsightsPrompt (metrics : JsValue) (date : string) : string :=
  getSystemPrompt emptyContext +:+ "

ANÁLISIS DE PROGRESO

MÉTRICAS:
" +:+ stringify metrics +:+ "
FECHA: " +:+ date +:+ "

Proporciona insights sobre el progreso y sugerencias de mejora:".

Record MealPlan : Type := {
  mealPlan : string;
  mealPlanModel : string;
  mealPlanPrivacyCompliant : bool;
  mealPlanProcessingTime : Z
}.

(** [this.buildMealPlanPrompt({ duration, preferences, restrictions })]:
    the three values travel in one object, the first argument; the other
    three parameters of the builder are [undefined].  The context object
    [{ preferences, restrictions }] has none of the properties the system
    prompt reads. *)
Definition generateMealPlan (duration preferences restrictions : JsValue)
    (privacyContext : PrivacyContext) : Err + MealPlan :=
  let prompt :=
    buildMealPlanPrompt
      (JObj [("duration", duration); ("preferences", preferences);
             ("restrictions", restrictions)])
      JUndefined JUndefined JUndefined in
  match generateLLMResponse prompt emptyContext privacyContext with
  | inr r =>
      inr {| mealPlan := response r; mealPlanModel := model r;
             mealPlanPrivacyCompliant := privacyCompliant r;
             mealPlanProcessingTime := processingTime r |}
  | inl _ => inl "Failed to generate meal plan"
  end.

Record Insights : Type := {
  insights : string;
  insightsModel : string;
  insightsPrivacyCompliant : bool;
  insightsProcessingTime : Z
}.

(** [metrics] is an object (the route validates it), so
    [Object.keys(metrics)] in the log call does not throw. *)
Definition trackProgress (metrics : JsValue) (date : string)
    (privacyContext : PrivacyContext) : Err + Insights :=
  let prompt := buildInsightsPrompt metrics date in
  match generateLLMResponse prompt emptyContext privacyContext with
  | inr r =>
      inr {| insights := response r; insightsModel := model r;
             insightsPrivacyCompliant := privacyCompliant r;
             insightsProcessingTime := processingTime r |}
  | inl _ => inl "Failed to track progress"
  end.

(** *** getAssessment and deleteAssessment *)

Record AssessmentView : Type := {
  viewId : string;
  viewStatus : Status;
  viewProgress : Z;
  viewHealthData : option JsValue;
  viewAnswers : list Answer;
  viewRecommendations : option string;
  viewCreatedAt : string;
  viewCompletedAt : option string
}.

Definition getAssessment (uid assessmentId : string)
    (privacyContext : PrivacyContext) (st : Store) : Err + AssessmentView :=
  match findOne st assessmentId uid with
  | None => inl "Failed to retrieve assessment"
  | Some assessment =>
      inr {| viewId := id assessment;
             viewStatus := status assessment;
             viewProgress := progress assessment;
             viewHealthData :=
               if includeHealthData privacyContext
               then Some (healthData assessment) else None;
             viewAnswers := default [] (answers assessment);
             viewRecommendations := recommendations assessment;
             viewCreatedAt := createdAt assessment;
             viewCompletedAt := completedAt assessment |}
  end.

Record DeleteResult : Type := {
  deleteSuccess : bool;
  deleteMessage : string
}.

Definition deleteAssessment (uid assessmentId : string) (st : Store)
  : (Err + DeleteResult) * Store :=
  match findOne st assessmentId uid with
  | None => (inl "Failed to delete assessment", st)
  | Some assessment =>
      (inr {| deleteSuccess := true;
              deleteMessage := "Assessment permanently deleted" |},
       destroy assessment st)
  end.

(** *** The route handlers of [routes/chatbot.js] that wrap these calls:
    the HTTP status and, for an error envelope, its [code]. *)

Record HttpReply : Type := {
  httpStatus : Z;
  httpCode : option string
}.

Definition ok : HttpReply := {| httpStatus := 200; httpCode := None |}.

Definition failure (st : Z) (c : string) : HttpReply :=
  {| httpStatus := st; httpCode := Some c |}.

(** [POST /answer-question], after authentication and validation. *)
Definition answerQuestionRoute (uid assessmentId qid sanitizedAnswer : string)
    (conf : JsValue) (privacyContext : PrivacyContext) (st : Store)
  : HttpReply * Store :=
  match processAnswer uid assessmentId qid sanitizedAnswer conf privacyContext st with
  | (inr _, st') => (ok, st')
  | (inl _, st') => (failure 500 "ANSWER_PROCESSING_ERROR", st')
  end.

(** [GET /assessment/:id].  The handler answers 404 when the service
    returns a falsy value; the service returns an object or throws. *)
Definition getAssessmentRoute (uid assessmentId : string)
    (privacyContext : PrivacyContext) (st : Store) : HttpReply :=
  match getAssessment uid assessmentId privacyContext st with
  | inr view =>
      let viewIsFalsy := false in
      if viewIsFalsy then failure 404 "ASSESSMENT_NOT_FOUND" else ok
  | inl _ => failure 500 "ASSESSMENT_RETRIEVAL_ERROR"
  end.

(** [DELETE /assessment/:id] *)
Definition deleteAssessmentRoute (uid assessmentId : string) (st : Store)
  : HttpReply * Store :=
  match deleteAssessment uid assessmentId st with
  | (inr _, st') => (ok, st')
  | (inl _, st') => (failure 500 "ASSESSMENT_DELETION_ERROR", st')
  end.

(** *** healthCheck *)

(** [axios.get] of the local service and [openai.models.list()]. *)
Variable axios_get : string → Err + LocalLLM.TagsData.
Variable openai_models_list : unit → Err + unit.

Definition healthCheck : LocalLLM.Health :=
  let unhealthy (e : Err) : LocalLLM.Health :=
    {| LocalLLM.healthStatus := "unhealthy"; LocalLLM.available := false;
       LocalLLM.healthModels := None; LocalLLM.healthBaseURL := None;
       LocalLLM.healthError := Some e; LocalLLM.fallbackAvailable := None;
       LocalLLM.healthService :=
         Some (if useLocalLLM svc then "local" else "openai");
       LocalLLM.healthModel := None |} in
  if useLocalLLM svc then
    match localLLM svc with
    | Some l => LocalLLM.healthCheck axios_get l
    | None => unhealthy "TypeError: Cannot read properties of undefined"
    end
  else
    match openai_models_list tt with
    | inr _ =>
        {| LocalLLM.healthStatus := "healthy"; LocalLLM.available := true;
           LocalLLM.healthModels := None; LocalLLM.healthBaseURL := None;
           LocalLLM.healthError := None; LocalLLM.fallbackAvailable := None;
           LocalLLM.healthService := Some "openai";
           LocalLLM.healthModel := openaiModel svc |}
    | inl e => unhealthy e
    end.

End Service.

(** *** Lifecycle of the table

    The stores the service can produce from the empty table: each step is
    one call of [startHealthAssessment], [processAnswer] or
    [deleteAssessment], with whatever the collaborators answer at that
    moment. *)
Inductive reachable : Store → Prop :=
| reach_empty : reachable ∅
| reach_start stringify anonymizeData anonymizeObject anonymizeText axios_post
    openai_create now svc newId uid hd pc st :
    reachable st →
    reachable (startHealthAssessment stringify anonymizeData anonymizeText
                 anonymizeObject axios_post openai_create now svc
                 newId uid hd pc st).2
| reach_answer stringify anonymizeData anonymizeText axios_post openai_create now
    svc uid aid qid ans conf pc st :
    reachable st →
    reachable (processAnswer stringify anonymizeData anonymizeText axios_post
                 openai_create now svc uid aid qid ans conf pc st).2
| reach_delete uid aid st :
    reachable st →
    reachable (deleteAssessment uid aid st).2.

(** Submitting a list of answers one after the other; [None] as soon as a
    call fails. *)
Section Run.

Variable stringify : JsValue → string.
Variable anonymizeData : string → AnonOptions → Err + string.
Variable anonymizeText : string → string → Err + string.
Variable axios_post : string → LocalLLM.GenerateRequest → Err + option LocalLLM.GenerateData.
Variable openai_create : ChatRequest → Err + ChatReply.
Variable now : string.
Variable svc : Service.
Variable uid aid : string.
Variable pc : PrivacyContext.

Fixpoint submitAll (inputs : list (string * string * JsValue)) (st : Store)
  : option Store :=
  match inputs with
  | [] => Some st
  | (qid, ans, conf) :: rest =>
      match processAnswer stringify anonymizeData anonymizeText axios_post
              openai_create now svc uid aid qid ans conf pc st with
      | (inr _, st') => submitAll rest st'
      | (inl _, _) => None
      end
  end.

End Run.

End Chatbot.

(** ** The anonymizer of the specification *)

Module Anonymizer.

(** What the anonymizer recognises a token of the payload as. *)
Inductive TokenKind : Type := NameRef | Location | Date | PersonalId | Plain.

Record Token : Type := {
  kind : TokenKind;
  text : string
}.

(** Whether a token of kind [k] is stripped under the options [o]. *)
Definition strips (o : AnonOptions) (k : TokenKind) : bool :=
  match k with
  | NameRef => removeNames o
  | Location => removeLocations o
  | Date => removeDates o
  | PersonalId => removePersonalInfo o
  | Plain => false
  end.

(** Modelled from the spec: [anonymizeData] of [utils/dataAnonymizer.js],
    which is not among the sources.  Section 4.3: "[medium] strips direct
    name references; [high] additionally strips locations, dates, and
    recognized personal-identifier patterns".  A payload is the sequence
    of its tokens; a stripped token is removed, the others are kept in
    order.  The options are those [anonymizePrompt] passes per level. *)
Definition anonymizeData (payload : list Token) (o : AnonOptions)
  : Err + list Token :=
  inr (List.filter (λ t, negb (strips o (kind t))) payload).

(** [anonymize(payload, level)] of the specification: [anonymizePrompt] of
    the code, run on this anonymizer. *)
Definition anonymize (payload : list Token) (level : string) : list Token :=
  LocalLLM.anonymizePrompt anonymizeData payload (Some level).

End Anonymizer.

(** ** Concrete collaborators and requests used in the examples *)

Module Scenario.

Import Privacy.

Definition acceptAll : string → bool := λ _, true.
Definition keepBody : gmap string JsValue → string → Err + gmap string JsValue :=
  λ b _, inr b.
Definition brokenAnonymizer : gmap string JsValue → string → Err + gmap string JsValue :=
  λ _ _, inl "anonymizer unavailable".

Definition envMinimize : gmap string string :=
  {[ "DATA_MINIMIZATION_ENABLED" := "true" ]}.
Definition envAnonymize : gmap string string :=
  {[ "ANONYMIZATION_ENABLED" := "true" ]}.

Definition emptyResponse : Response :=
  {| resHeaders := ∅; statusCode := None; sent := None |}.

(** [POST /health-assessment] without any consent token. *)
Definition healthRequest : Request :=
  {| path := "/health-assessment"; ip := Some "10.0.0.7"; headers := ∅;
     cookies := None;
     body := Some (<["email" := JStr "ana@example.org"]> {[ "age" := JNum 30 ]});
     privacyContext := None |}.

(** The same request carrying a consent token. *)
Definition consentingRequest : Request :=
  {| path := "/health-assessment"; ip := Some "10.0.0.7";
     headers := {[ "x-consent-token" := "tok-1" ]};
     cookies := None;
     body := Some {[ "age" := JNum 30 ]};
     privacyContext := None |}.

(** A request whose token comes in the cookie, under an empty header. *)
Definition cookieRequest : Request :=
  {| path := "/health-assessment"; ip := None;
     headers := {[ "x-consent-token" := "" ]};
     cookies := Some {[ "consentToken" := "tok-2" ]};
     body := None;
     privacyContext := None |}.

(** A request to a path of the consent map, with no consent header. *)
Definition mappedRequest : Request :=
  {| path := "/api/user/export-data"; ip := None; headers := ∅;
     cookies := None; body := None; privacyContext := None |}.

Definition adviceRequest : Request :=
  {| path := "/personalized-advice"; ip := None; headers := ∅; cookies := None;
     body := Some {[ "message" := JStr "hola" ]};
     privacyContext := None |}.

Definition countingHandler : Request → Response → Response * nat :=
  λ _ res, (res, 1%nat).
Definition plainErrorHandler : Err → Request → Response → Response :=
  λ _ _ res, res.

(** A profile update whose identifier fields are present but falsy. *)
Definition blankIdentifiers : gmap string JsValue :=
  <["email" := JStr ""]> (<["phone" := JNum 0]> {[ "name" := JStr "Ana" ]}).

Definition fullProfile : gmap string JsValue :=
  <["email" := JStr "ana@example.org"]>
    (<["creditCard" := JStr "4111"]>
       (<["nickname" := JStr "ani"]> {[ "age" := JNum 30 ]})).

(** Collaborators of the services. *)
Definition noStringify : JsValue → string := λ _, "{}".
Definition keepPrompt : string → AnonOptions → Err + string := λ p _, inr p.
Definition brokenPromptAnonymizer : string → AnonOptions → Err + string :=
  λ _ _, inl "anonymizer unavailable".
Definition keepText : string → string → Err + string := λ p _, inr p.
Definition keepObject : JsValue → string → Err + JsValue := λ v _, inr v.
Definition ollamaDown
  : string → LocalLLM.GenerateRequest → Err + option LocalLLM.GenerateData :=
  λ _ _, inl "ECONNREFUSED".
Definition openaiDown : Chatbot.ChatRequest → Err + Chatbot.ChatReply :=
  λ _, inl "503 Service Unavailable".
Definition openaiUp : Chatbot.ChatRequest → Err + Chatbot.ChatReply :=
  λ _, inr {| Chatbot.content := Some "Come fruta."; Chatbot.totalTokens := Some 12 |}.

Definition clock : string := "2024-01-01T00:00:00.000Z".

Definition context0 : PrivacyContext :=
  {| timestamp := clock; ipAddress := None; userAgent := None;
     consentValid := true; dataMinimization := false; anonymization := false;
     gdprCompliance := true; lopdgddCompliance := true;
     anonymizationLevel := None; includeHealthData := false |}.

(** No OpenAI key: the local provider is used.  With a key: OpenAI. *)
Definition localService : Chatbot.Service := Chatbot.new ∅.
Definition openaiService : Chatbot.Service :=
  Chatbot.new {[ "OPENAI_API_KEY" := "sk-test" ]}.

Definition profile : JsValue := JObj [("age", JNum 30); ("goals", JArr [])].

Definition start (svc : Chatbot.Service) (st : gmap string Chatbot.Assessment) :=
  Chatbot.startHealthAssessment noStringify keepPrompt keepText keepObject
    ollamaDown openaiDown clock svc "a-1" "user-1" profile context0 st.

Definition submit (svc : Chatbot.Service) (uid qid ans : string)
    (st : gmap string Chatbot.Assessment) :=
  Chatbot.processAnswer noStringify keepPrompt keepText ollamaDown openaiDown
    clock svc uid "a-1" qid ans (JNum 1) context0 st.

(** The table after [n] answers to the assessment ["a-1"] of ["user-1"],
    served by the local provider with its HTTP endpoint down. *)
Fixpoint tableAfter (n : nat) : gmap string Chatbot.Assessment :=
  match n with
  | O => (start localService ∅).2
  | S k => (submit localService "user-1" "q" "si" (tableAfter k)).2
  end.

(** What the start of that assessment returns: with the endpoint down the
    first question is the rule-based text for [nutrición], a word of the
    system prompt. *)
Definition startResult : Chatbot.StartResult :=
  {| Chatbot.startId := "a-1";
     Chatbot.startStatus := Chatbot.in_progress;
     Chatbot.startNextQuestion :=
       "Puedo ayudarte con consejos nutricionales, planes de comidas y evaluaciones de salud. ¿Qué te interesa específicamente?";
     Chatbot.startProgress := 0;
     Chatbot.startEstimatedCompletion := 30 |}.

Definition fourteenAnswers : list (string * string * JsValue) :=
  replicate 14 ("q", "si", JNum 1).

(** An endpoint whose model repeats the prompt it was sent. *)
Definition ollamaEcho
  : string → LocalLLM.GenerateRequest → Err + option LocalLLM.GenerateData :=
  λ _ rq, inr (Some {| LocalLLM.dataResponse := Some (LocalLLM.reqPrompt rq);
                        LocalLLM.evalDuration := None |}).

(** A completed assessment whose answers and progress were written back
    by an answer that had read the row one answer earlier: fourteen
    answers and progress 93 under status completed. *)
Definition overwrittenTable : gmap string Chatbot.Assessment :=
  {[ "a-1" :=
       {| Chatbot.id := "a-1"; Chatbot.userId := "user-1";
          Chatbot.status := Chatbot.completed;
          Chatbot.healthData := profile; Chatbot.anonymizedData := profile;
          Chatbot.progress := 93; Chatbot.currentQuestion := JNum 15;
          Chatbot.totalQuestions := 15;
          Chatbot.answers :=
            Some (replicate 14
                    {| Chatbot.questionId := "q"; Chatbot.answer := "si";
                       Chatbot.confidence := JNum 1;
                       Chatbot.answeredAt := clock |});
          Chatbot.recommendations := Some "Come fruta.";
          Chatbot.nextQuestion := Some "q";
          Chatbot.createdAt := clock; Chatbot.updatedAt := clock;
          Chatbot.completedAt := Some clock |} ]}.

End Scenario.

(** * Properties *)

(** ** The privacy middleware *)

Module PrivacyFacts.

Import Privacy.

(** *** minimizeData *)

Lemma lookup_strip_identifier (m : gmap string JsValue) (ident k : string) :
  strip_identifier m ident !! k =
  match m !! k with
  | Some v => if bool_decide (k = ident) && truthy v then None else Some v
  | None => None
  end.
Proof.
  unfold strip_identifier.
  destruct (decide (k = ident)) as [->|Hne].
  - rewrite bool_decide_eq_true_2 by done. cbn.
    destruct (m !! ident) as [v|] eqn:Hm; [|by rewrite Hm].
    destruct (truthy v); [by rewrite lookup_delete_eq | by rewrite Hm].
  - rewrite (bool_decide_eq_false_2 _ Hne). cbn.
    destruct (m !! ident) as [v|]; [|by destruct (m !! k)].
    destruct (truthy v); [rewrite lookup_delete_ne by done|]; by destruct (m !! k).
Qed.

Lemma lookup_strip_all (idents : list string) :
  ∀ (m : gmap string JsValue) (k : string),
    foldl strip_identifier m idents !! k =
    match m !! k with
    | Some v => if bool_decide (k ∈ idents) && truthy v then None else Some v
    | None => None
    end.
Proof.
  induction idents as [|ident idents IH]; intros m k; cbn [foldl].
  - destruct (m !! k); [|done].
    by rewrite bool_decide_eq_false_2 by apply not_elem_of_nil.
  - rewrite IH, lookup_strip_identifier.
    destruct (m !! k) as [v|]; [|done].
    destruct (decide (k = ident)) as [->|Hne].
    + rewrite (bool_decide_eq_true_2 (ident = ident)) by done.
      rewrite (bool_decide_eq_true_2 (ident ∈ ident :: idents))
        by apply list_elem_of_here.
      cbn. destruct (truthy v) eqn:Hv; [done|].
      by rewrite Hv, andb_false_r.
    + rewrite (bool_decide_eq_false_2 (k = ident)) by done. cbn [andb].
      destruct (decide (k ∈ idents)) as [Hin|Hout].
      * rewrite (bool_decide_eq_true_2 (k ∈ idents)) by done.
        by rewrite (bool_decide_eq_true_2 (k ∈ ident :: idents))
          by (by apply list_elem_of_further).
      * rewrite (bool_decide_eq_false_2 (k ∈ idents)) by done.
        by rewrite (bool_decide_eq_false_2 (k ∈ ident :: idents))
          by (rewrite elem_of_cons; tauto).
Qed.

(** A field survives the allow-list pass of the chatbot endpoints exactly
    when its name is on the list. *)
Lemma lookup_allowed_only (data : gmap string JsValue) (k : string) :
  filter (λ kv : string * JsValue, arr_includes allowedFields kv.1 = true) data !! k =
  if arr_includes allowedFields k then data !! k else None.
Proof.
  destruct (arr_includes allowedFields k) eqn:Hk.
  - destruct (data !! k) as [v|] eqn:Hd.
    + by apply map_lookup_filter_Some.
    + apply map_lookup_filter_None. left. done.
  - apply map_lookup_filter_None. right. intros v _. cbn. by rewrite Hk.
Qed.

Lemma lookup_minimizeData (data : gmap string JsValue) (p k : string) :
  minimizeData data p !! k =
  match data !! k with
  | Some v =>
      if includes "/chatbot/" p && negb (arr_includes allowedFields k) then None
      else if bool_decide (k ∈ personalIdentifiers) && truthy v then None
      else Some v
  | None => None
  end.
Proof.
  unfold minimizeData. rewrite lookup_strip_all.
  destruct (includes "/chatbot/" p); cbn [andb].
  - rewrite lookup_allowed_only.
    destruct (arr_includes allowedFields k); cbn [negb]; [done|].
    by destruct (data !! k).
  - done.
Qed.

Lemma identifiers_not_allowed (k : string) :
  k ∈ personalIdentifiers → arr_includes allowedFields k = false.
Proof.
  intros Hk. unfold personalIdentifiers in Hk.
  repeat (apply elem_of_cons in Hk as [-> | Hk]; [by vm_compute|]).
  by apply elem_of_nil in Hk.
Qed.

(** C9, as amended.  [minimizeData] removes a deny-listed field whenever
    its value is truthy, on every path; on a chatbot path it drops every
    field that is not on the allow-list, which covers all deny-listed
    fields whatever their value; off the chatbot paths a deny-listed field
    with a falsy value is kept; and no field is ever added or altered. *)
Theorem C9_minimize_strips_truthy_identifiers
    (data : gmap string JsValue) (p k : string) :
  (k ∈ personalIdentifiers →
   ∀ v, data !! k = Some v → truthy v = true → minimizeData data p !! k = None)
  ∧ (includes "/chatbot/" p = true →
     k ∉ allowedFields → minimizeData data p !! k = None)
  ∧ (includes "/chatbot/" p = true →
     k ∈ personalIdentifiers → minimizeData data p !! k = None)
  ∧ (includes "/chatbot/" p = false →
     ∀ v, data !! k = Some v → truthy v = false → minimizeData data p !! k = Some v)
  ∧ (∀ v, minimizeData data p !! k = Some v → data !! k = Some v).
Proof.
  rewrite lookup_minimizeData. repeat split.
  - intros Hk v -> Hv.
    rewrite (bool_decide_eq_true_2 _ Hk), Hv.
    by destruct (includes "/chatbot/" p && negb (arr_includes allowedFields k)).
  - intros -> Hk. unfold arr_includes.
    rewrite (bool_decide_eq_false_2 _ Hk). by destruct (data !! k).
  - intros -> Hk. rewrite (identifiers_not_allowed _ Hk). by destruct (data !! k).
  - intros -> v -> Hv. cbn. by rewrite Hv, andb_false_r.
  - intros v. destruct (data !! k) as [w|]; [|done].
    destruct (includes "/chatbot/" p && negb (arr_includes allowedFields k)); [done|].
    by destruct (bool_decide (k ∈ personalIdentifiers) && truthy w).
Qed.

Lemma C9_minimize_witness :
  minimizeData Scenario.fullProfile "/api/user/profile" !! "creditCard" = None
  ∧ minimizeData Scenario.fullProfile "/api/chatbot/advice" !! "nickname" = None
  ∧ minimizeData Scenario.fullProfile "/api/chatbot/advice" !! "email" = None
  ∧ minimizeData Scenario.blankIdentifiers "/api/user/profile" !! "phone"
    = Some (JNum 0)
  ∧ Scenario.fullProfile !! "age" = Some (JNum 30).
Proof.
  split; [|split; [|split; [|split]]].
  - destruct (C9_minimize_strips_truthy_identifiers Scenario.fullProfile
                "/api/user/profile" "creditCard") as (H & _).
    apply (H ltac:(compute_done) (JStr "4111")); reflexivity.
  - destruct (C9_minimize_strips_truthy_identifiers Scenario.fullProfile
                "/api/chatbot/advice" "nickname") as (_ & H & _).
    apply H; [reflexivity | compute_done].
  - destruct (C9_minimize_strips_truthy_identifiers Scenario.fullProfile
                "/api/chatbot/advice" "email") as (_ & _ & H & _).
    apply H; [reflexivity | compute_done].
  - destruct (C9_minimize_strips_truthy_identifiers Scenario.blankIdentifiers
                "/api/user/profile" "phone") as (_ & _ & _ & H & _).
    apply H; reflexivity.
  - destruct (C9_minimize_strips_truthy_identifiers Scenario.fullProfile
                "/api/user/profile" "age") as (_ & _ & _ & _ & H).
    apply H. reflexivity.
Defined.

(** C9 as stated fails: off the chatbot paths a deny-listed field whose
    value is falsy (here an empty [email] and a zero [phone]) is still in
    the minimized payload. *)
Lemma C9_counterexample :
  "email" ∈ personalIdentifiers
  ∧ minimizeData Scenario.blankIdentifiers "/api/user/profile" !! "email"
    = Some (JStr "")
  ∧ minimizeData Scenario.blankIdentifiers "/api/user/profile" !! "phone"
    = Some (JNum 0).
Proof. split; [compute_done | split; reflexivity]. Qed.

(** *** The privacy context and the consent gate *)

Section Gate.

Variable validateConsent : string → bool.
Variable anonymizeData : gmap string JsValue → string → Err + gmap string JsValue.
Variable env : gmap string string.
Variable now : string.

Local Abbreviation steps := (privacySteps validateConsent anonymizeData env now).
Local Abbreviation standard := (privacyMiddleware validateConsent anonymizeData env now).
Local Abbreviation enhanced := (enhancedPrivacyMiddleware validateConsent anonymizeData env now).
Local Abbreviation context := (buildContext validateConsent env now).
Local Abbreviation processed := (processedBody anonymizeData env).

Lemma body_set_privacyContext (c : PrivacyContext) (r : Request) :
  body (set_privacyContext c r) = body r.
Proof. reflexivity. Qed.

Lemma context_flags (req : Request) :
  dataMinimization (context req) = env_flag env "DATA_MINIMIZATION_ENABLED"
  ∧ anonymization (context req) = env_flag env "ANONYMIZATION_ENABLED".
Proof.
  unfold buildContext. destruct (consentToken req) as [tok|]; [|done].
  by destruct (str_truthy tok).
Qed.

Lemma steps_ok_inv (req : Request) (res : Response) (req' : Request) (res' : Response) :
  steps req res = inr (req', res') →
  path req' = path req
  ∧ privacyContext req' = Some (context req)
  ∧ body req' = processed req
  ∧ res' = res_set securityHeaders res.
Proof.
  unfold privacySteps, processedBody.
  destruct (context_flags req) as [-> ->].
  destruct (body req) as [b|] eqn:Hb; cbn; rewrite ?Hb.
  - destruct (env_flag env "DATA_MINIMIZATION_ENABLED"),
             (env_flag env "ANONYMIZATION_ENABLED"); cbn; rewrite ?Hb;
      repeat match goal with
             | |- context [anonymizeData ?x ?y] => destruct (anonymizeData x y)
             end;
      intros ?; simplify_eq/=; done.
  - rewrite body_set_privacyContext, Hb. intros ?. by simplify_eq/=.
Qed.

Lemma steps_error_inv (req : Request) (res : Response) (e : Err)
    (req' : Request) (res' : Response) :
  steps req res = inl (e, req', res') →
  privacyContext req' = Some (context req)
  ∧ anonymization (context req) = true
  ∧ ∃ b, body req' = Some b ∧ anonymizeData b (path req) = inl e.
Proof.
  unfold privacySteps.
  destruct (body req) as [b|] eqn:Hb; cbn; rewrite ?Hb.
  - destruct (dataMinimization (context req)),
             (anonymization (context req)); cbn; rewrite ?Hb; try done;
      match goal with
      | |- context [anonymizeData ?x ?y] => destruct (anonymizeData x y) eqn:Ha
      end;
      intros ?; simplify_eq/=; eauto.
  - by rewrite body_set_privacyContext, Hb.
Qed.

Lemma middleware_context (req : Request) (res : Response) :
  privacyContext (outcomeRequest (standard req res)) = Some (context req).
Proof.
  unfold privacyMiddleware.
  destruct (steps req res) as [[[e req'] res']|[req' res']] eqn:Hs; cbn.
  - by apply steps_error_inv in Hs as (-> & _).
  - by apply steps_ok_inv in Hs as (_ & -> & _).
Qed.

(** An exception of the anonymization step is not absorbed by the
    middleware: it reaches [next(error)], with the body as minimization
    left it. *)
Lemma middleware_forwards_anonymizer_error (req : Request) (res : Response)
    (b : gmap string JsValue) (e : Err) :
  body req = Some b →
  env_flag env "ANONYMIZATION_ENABLED" = true →
  anonymizeData (if env_flag env "DATA_MINIMIZATION_ENABLED"
                 then minimizeData b (path req) else b) (path req) = inl e →
  ∃ req' res', standard req res = NextErr e req' res'.
Proof.
  intros Hb Ha He. unfold privacyMiddleware, privacySteps.
  destruct (context_flags req) as [-> ->]. rewrite Ha.
  rewrite body_set_privacyContext, Hb.
  destruct (env_flag env "DATA_MINIMIZATION_ENABLED");
    cbn [body path set_body set_privacyContext]; rewrite ?Hb, He; eauto.
Qed.

(** C10.  The context the middleware leaves on the request has
    [consentValid = false] when the request has neither the
    [x-consent-token] header nor a [consentToken] cookie, and it has
    [consentValid = true] only if a non-empty token was found and
    [validateConsent] accepted it. *)
Theorem C10_consentValid_requires_accepted_token (req : Request) (res : Response) :
  (headers req !! "x-consent-token" = None →
   (cookies req ≫= λ c, c !! "consentToken") = None →
   ctx_consentValid (outcomeRequest (standard req res)) = false)
  ∧ (ctx_consentValid (outcomeRequest (standard req res)) = true →
     ∃ tok, consentToken req = Some tok ∧ tok ≠ ""
            ∧ validateConsent tok = true).
Proof.
  unfold ctx_consentValid. rewrite middleware_context. unfold buildContext.
  split.
  - intros Hh Hc. unfold consentToken. rewrite Hh, Hc. done.
  - destruct (consentToken req) as [tok|]; [|done].
    destruct (str_truthy tok) eqn:Ht; [|done].
    cbn. intros Hv. exists tok. repeat split; [|done].
    unfold str_truthy in Ht. apply negb_true_iff in Ht.
    by apply String.eqb_neq in Ht.
Qed.

End Gate.

Lemma C10_witness :
  ctx_consentValid
    (outcomeRequest
       (privacyMiddleware Scenario.acceptAll Scenario.keepBody Scenario.envMinimize
          Scenario.clock Scenario.healthRequest Scenario.emptyResponse)) = false
  ∧ ∃ tok, consentToken Scenario.consentingRequest = Some tok ∧ tok ≠ ""
           ∧ Scenario.acceptAll tok = true.
Proof.
  split.
  - apply (C10_consentValid_requires_accepted_token Scenario.acceptAll
             Scenario.keepBody Scenario.envMinimize Scenario.clock
             Scenario.healthRequest Scenario.emptyResponse); reflexivity.
  - apply (C10_consentValid_requires_accepted_token Scenario.acceptAll
             Scenario.keepBody Scenario.envMinimize Scenario.clock
             Scenario.consentingRequest Scenario.emptyResponse). reflexivity.
Defined.

Section Router.

Variable validateConsent : string → bool.
Variable anonymizeData : gmap string JsValue → string → Err + gmap string JsValue.
Variable env : gmap string string.
Variable now : string.
Variable handler : Request → Response → Response * nat.
Variable errorHandler : Err → Request → Response → Response.

(** C1, as amended.  On a path of the health or medical category, when the
    standard middleware has run without an error and has left
    [consentValid = false], the request is answered with 403 and
    [HEALTH_CONSENT_REQUIRED], no route handler runs and so no provider is
    called; the request that is rejected already carries the body produced
    by minimization and anonymization, which ran first. *)
Theorem C1_health_gate_rejects_after_privacy_steps
    (req : Request) (res : Response) (req' : Request) (res' : Response) :
  isHealthPath (path req) = true →
  privacyMiddleware validateConsent anonymizeData env now req res = Next req' res' →
  ctx_consentValid req' = false →
  let rejection :=
    {| resHeaders := resHeaders res'; statusCode := Some 403;
       sent := Some {| error := "Explicit consent required for health data processing";
                       code := "HEALTH_CONSENT_REQUIRED";
                       missingConsents := [];
                       errTimestamp := now |} |} in
  enhancedPrivacyMiddleware validateConsent anonymizeData env now req res
    = Responded req' rejection
  ∧ chatbotRouter validateConsent anonymizeData env now handler errorHandler req res
    = (rejection, 0%nat)
  ∧ body req' = processedBody anonymizeData env req.
Proof.
  intros Hpath Hnext Hctx rejection.
  unfold privacyMiddleware in Hnext.
  destruct (privacySteps validateConsent anonymizeData env now req res)
    as [[[e r1] s1]|[r1 s1]] eqn:Hs; [done|].
  injection Hnext as -> ->.
  destruct (steps_ok_inv _ _ _ _ _ _ _ _ Hs) as (Hp & _ & Hb & _).
  assert (enhancedPrivacyMiddleware validateConsent anonymizeData env now req res
          = Responded req' rejection) as He.
  { unfold enhancedPrivacyMiddleware. by rewrite Hs, Hp, Hpath, Hctx. }
  split; [done|]. split; [|done].
  unfold chatbotRouter. by rewrite He.
Qed.

End Router.

Lemma C1_health_gate_witness :
  enhancedPrivacyMiddleware Scenario.acceptAll Scenario.keepBody ∅ Scenario.clock
    Scenario.healthRequest Scenario.emptyResponse
  = Responded
      (set_privacyContext
         (buildContext Scenario.acceptAll ∅ Scenario.clock Scenario.healthRequest)
         Scenario.healthRequest)
      {| resHeaders := resHeaders (res_set securityHeaders Scenario.emptyResponse);
         statusCode := Some 403;
         sent := Some {| error := "Explicit consent required for health data processing";
                         code := "HEALTH_CONSENT_REQUIRED";
                         missingConsents := [];
                         errTimestamp := Scenario.clock |} |}.
Proof.
  apply (C1_health_gate_rejects_after_privacy_steps Scenario.acceptAll
           Scenario.keepBody ∅ Scenario.clock Scenario.countingHandler
           Scenario.plainErrorHandler Scenario.healthRequest Scenario.emptyResponse);
    reflexivity.
Defined.

(** C1 as stated fails in its ordering: with minimization switched on, the
    request that the consent gate rejects has already lost its [email]
    field, so minimization ran before the consent check. *)
Lemma C1_counterexample :
  ∃ req' res',
    enhancedPrivacyMiddleware Scenario.acceptAll Scenario.keepBody
      Scenario.envMinimize Scenario.clock Scenario.healthRequest
      Scenario.emptyResponse = Responded req' res'
    ∧ statusCode res' = Some 403
    ∧ (body Scenario.healthRequest ≫= λ b, b !! "email")
      = Some (JStr "ana@example.org")
    ∧ (body req' ≫= λ b, b !! "email") = None.
Proof.
  eexists _, _. split; [reflexivity|]. split; [reflexivity|].
  split; reflexivity.
Qed.

End PrivacyFacts.

(** ** The local provider and the anonymization pipeline *)

Module LocalLLMFacts.

Import LocalLLM.

(** *** anonymizePrompt *)

Lemma anonymizePrompt_low {P : Type} (ad : P → AnonOptions → Err + P) (x : P) :
  anonymizePrompt ad x (Some "low") = x.
Proof. reflexivity. Qed.

(** The options [anonymizePrompt] hands to the anonymizer at a level that
    reaches it. *)
Lemma anonymizePrompt_fail_open {P : Type} (ad : P → AnonOptions → Err + P)
    (x : P) (level : option string) (e : Err) :
  ad x (if String.eqb (levelOf level) "high" then highOptions else mediumOptions)
    = inl e →
  anonymizePrompt ad x level = x.
Proof.
  unfold anonymizePrompt.
  destruct (String.eqb (levelOf level) "high").
  - by intros ->.
  - intros ->. by destruct (String.eqb (levelOf level) "medium").
Qed.

(** Whatever the anonymizer does when it throws, [anonymizePrompt] is
    idempotent as soon as the anonymizer is on its own results. *)
Lemma anonymizePrompt_idempotent {P : Type} (ad : P → AnonOptions → Err + P) :
  (∀ x o y, ad x o = inr y → ad y o = inr y) →
  ∀ x level,
    anonymizePrompt ad (anonymizePrompt ad x level) level
    = anonymizePrompt ad x level.
Proof.
  intros Hfix x level. unfold anonymizePrompt.
  destruct (String.eqb (levelOf level) "high").
  - destruct (ad x highOptions) as [e|y] eqn:Hx.
    + by rewrite Hx.
    + by rewrite (Hfix _ _ _ Hx).
  - destruct (String.eqb (levelOf level) "medium"); [|done].
    destruct (ad x mediumOptions) as [e|y] eqn:Hx.
    + by rewrite Hx.
    + by rewrite (Hfix _ _ _ Hx).
Qed.

Lemma filter_twice {A : Type} (f : A → bool) (l : list A) :
  List.filter f (List.filter f l) = List.filter f l.
Proof.
  induction l as [|a l IH]; [done|]. cbn.
  destruct (f a) eqn:Ha; cbn; rewrite ?Ha, IH; done.
Qed.

Lemma spec_anonymizer_fixes_results (x : list Anonymizer.Token) (o : AnonOptions)
    (y : list Anonymizer.Token) :
  Anonymizer.anonymizeData x o = inr y → Anonymizer.anonymizeData y o = inr y.
Proof.
  unfold Anonymizer.anonymizeData. intros [= <-]. by rewrite filter_twice.
Qed.

(** C7.  With the anonymizer of the specification, anonymizing twice at
    the same level gives what anonymizing once gives, at [low], [medium],
    [high] and any other level; and at level [low] the payload is returned
    unchanged, whatever the anonymizer is. *)
Theorem C7_anonymize_idempotent_low_passthrough :
  (∀ (payload : list Anonymizer.Token) (level : string),
     Anonymizer.anonymize (Anonymizer.anonymize payload level) level
     = Anonymizer.anonymize payload level)
  ∧ (∀ payload : list Anonymizer.Token, Anonymizer.anonymize payload "low" = payload)
  ∧ (∀ (P : Type) (ad : P → AnonOptions → Err + P) (x : P),
       anonymizePrompt ad x (Some "low") = x).
Proof.
  split; [|split].
  - intros payload level. unfold Anonymizer.anonymize.
    apply anonymizePrompt_idempotent. exact spec_anonymizer_fixes_results.
  - intros payload. apply anonymizePrompt_low.
  - intros P ad x. apply anonymizePrompt_low.
Qed.

(** *** getFallbackResponse and generateResponse *)

Lemma fallback_texts_nonempty :
  Forall (λ kv : string * string, kv.2 ≠ "") fallbackResponses.
Proof. unfold fallbackResponses. repeat constructor; discriminate. Qed.

(** The rule-based responder always succeeds, with one of two models: the
    generic acknowledgement when no key of the table occurs in the
    lower-cased prompt, otherwise the text of the first key that does. *)
Lemma getFallbackResponse_cases (prompt : string) :
  let r := getFallbackResponse prompt in
  success r = true
  ∧ response r ≠ ""
  ∧ ((model r = "fallback-default" ∧ response r = defaultResponse
      ∧ Forall (λ kv : string * string,
                  includes kv.1 (toLowerCase prompt) ≠ true) fallbackResponses)
     ∨ (model r = "fallback-rule-based"
        ∧ ∃ (i : nat) (key : string),
            fallbackResponses !! i = Some (key, response r)
            ∧ includes key (toLowerCase prompt) = true
            ∧ ∀ (j : nat) (kv : string * string),
                fallbackResponses !! j = Some kv → (j < i)%nat →
                includes kv.1 (toLowerCase prompt) ≠ true)).
Proof.
  unfold getFallbackResponse.
  destruct (list_find _ fallbackResponses) as [[i [key resp]]|] eqn:Hf; cbn.
  - apply list_find_Some in Hf as (Hi & Hkey & Hfirst).
    split; [done|]. split.
    + exact (proj1 (Forall_lookup _ _) fallback_texts_nonempty i _ Hi).
    + right. split; [done|]. exists i, key. eauto.
  - apply list_find_None in Hf. split; [done|]. split; [done|]. left. done.
Qed.

Section Generate.

Variable anonymizeData : string → AnonOptions → Err + string.
Variable axios_post : string → GenerateRequest → Err + option GenerateData.

(** [generateResponse] returns the reply of the endpoint when it carries a
    non-empty text, and the rule-based response in every other case. *)
Lemma generateResponse_cases (svc : Service) (prompt : string)
    (context : LLMContext) (pc : PrivacyContext) :
  let r := generateResponse anonymizeData axios_post svc prompt context pc in
  (r = getFallbackResponse prompt)
  ∨ (model r = modelName svc ∧ success r = true ∧ response r ≠ "").
Proof.
  unfold generateResponse.
  destruct (axios_post _ _) as [e|[d|]]; [by left| |by left].
  destruct (dataResponse d) as [text|]; [|by left].
  destruct (str_truthy text) eqn:Ht; [|by left].
  right. cbn. repeat split.
  unfold str_truthy in Ht. apply negb_true_iff in Ht. by apply String.eqb_neq in Ht.
Qed.

Lemma generateResponse_succeeds (svc : Service) (prompt : string)
    (context : LLMContext) (pc : PrivacyContext) :
  let r := generateResponse anonymizeData axios_post svc prompt context pc in
  success r = true ∧ response r ≠ "".
Proof.
  destruct (generateResponse_cases svc prompt context pc) as [->|(_ & ? & ?)];
    [|done].
  destruct (getFallbackResponse_cases prompt) as (? & ? & _). done.
Qed.

Lemma generateResponse_endpoint_down (svc : Service) (prompt : string)
    (context : LLMContext) (pc : PrivacyContext) (e : Err) :
  axios_post (baseURL svc +:+ "/api/generate")
    {| reqModel := modelName svc;
       reqPrompt := buildSystemPrompt context +:+
                    anonymizePrompt anonymizeData prompt (anonymizationLevel pc);
       reqStream := false |} = inl e →
  generateResponse anonymizeData axios_post svc prompt context pc
  = getFallbackResponse prompt.
Proof. intros Hdown. unfold generateResponse. by rewrite Hdown. Qed.

End Generate.

(** C8, as amended.  Inside [anonymizePrompt] a throwing anonymizer is
    caught: the original prompt is used and [generateResponse] still
    returns a successful response.  Inside [privacyMiddleware] it is not:
    the error goes to [next(error)].  [minimizeData] is a total function
    with no failure path of its own. *)
Theorem C8_fail_open_only_in_anonymizePrompt :
  (∀ (P : Type) (ad : P → AnonOptions → Err + P) (x : P)
     (level : option string) (e : Err),
     ad x (if String.eqb (levelOf level) "high" then highOptions else mediumOptions)
       = inl e →
     anonymizePrompt ad x level = x)
  ∧ (∀ ad axios_post svc prompt context pc,
       success (generateResponse ad axios_post svc prompt context pc) = true)
  ∧ (∀ validateConsent anonymizeBody env now req res b e,
       Privacy.body req = Some b →
       env_flag env "ANONYMIZATION_ENABLED" = true →
       anonymizeBody (if env_flag env "DATA_MINIMIZATION_ENABLED"
                      then Privacy.minimizeData b (Privacy.path req) else b)
                     (Privacy.path req) = inl e →
       ∃ req' res',
         Privacy.privacyMiddleware validateConsent anonymizeBody env now req res
         = Privacy.NextErr e req' res').
Proof.
  split; [|split].
  - intros P ad x level e. apply anonymizePrompt_fail_open.
  - intros. apply generateResponse_succeeds.
  - intros. by eapply PrivacyFacts.middleware_forwards_anonymizer_error.
Qed.

Lemma C8_witness :
  anonymizePrompt Scenario.brokenPromptAnonymizer "Me llamo Ana" (Some "high")
    = "Me llamo Ana"
  ∧ ∃ req' res',
      Privacy.privacyMiddleware Scenario.acceptAll Scenario.brokenAnonymizer
        Scenario.envAnonymize Scenario.clock Scenario.adviceRequest
        Scenario.emptyResponse
      = Privacy.NextErr "anonymizer unavailable" req' res'.
Proof.
  destruct C8_fail_open_only_in_anonymizePrompt as (Hopen & _ & Hclosed).
  split.
  - apply (Hopen string Scenario.brokenPromptAnonymizer "Me llamo Ana"
             (Some "high") "anonymizer unavailable"). reflexivity.
  - apply (Hclosed Scenario.acceptAll Scenario.brokenAnonymizer
             Scenario.envAnonymize Scenario.clock Scenario.adviceRequest
             Scenario.emptyResponse {[ "message" := JStr "hola" ]});
      reflexivity.
Defined.

(** C8 as stated fails for the request payload: with anonymization
    switched on and the anonymizer throwing, the middleware does not pass
    the original body on but hands the error to [next(error)]. *)
Lemma C8_counterexample :
  ∃ req' res',
    Privacy.privacyMiddleware Scenario.acceptAll Scenario.brokenAnonymizer
      Scenario.envAnonymize Scenario.clock Scenario.adviceRequest
      Scenario.emptyResponse
    = Privacy.NextErr "anonymizer unavailable" req' res'.
Proof. eexists _, _. reflexivity. Qed.

End LocalLLMFacts.

(** ** The chatbot service *)

Module ChatbotFacts.

Import Chatbot.

(** *** The service object *)

Lemma new_local_iff (env : gmap string string) :
  (useLocalLLM (new env) = true ∧ localLLM (new env) = Some (LocalLLM.new env))
  ∨ (useLocalLLM (new env) = false ∧ localLLM (new env) = None).
Proof. unfold new. destruct (_ || _); [left|right]; done. Qed.

Section Generation.

Variable anonymizeData : string → AnonOptions → Err + string.
Variable anonymizeText : string → string → Err + string.
Variable axios_post : string → LocalLLM.GenerateRequest → Err + option LocalLLM.GenerateData.
Variable openai_create : ChatRequest → Err + ChatReply.
Variable svc : Service.

Local Abbreviation generate :=
  (generateLLMResponse anonymizeData anonymizeText axios_post openai_create svc).
Local Abbreviation localResponse :=
  (LocalLLM.generateResponse anonymizeData axios_post).

(** The OpenAI path calls [this.buildSystemPrompt], which the class does
    not have: it throws before the request is built. *)
Lemma generateOpenAIResponse_throws (prompt : string) (context : LLMContext)
    (pc : PrivacyContext) :
  ∃ e, generateOpenAIResponse anonymizeText openai_create svc prompt context pc
       = inl e.
Proof.
  unfold generateOpenAIResponse.
  destruct (if anonymization pc then _ else _) as [e|p]; eauto.
Qed.

Lemma generate_local (l : LocalLLM.Service) (prompt : string)
    (context : LLMContext) (pc : PrivacyContext) :
  useLocalLLM svc = true → localLLM svc = Some l →
  generate prompt context pc = inr (localResponse l prompt context pc).
Proof.
  intros Hu Hl. unfold generateLLMResponse, localGenerate. by rewrite Hu, Hl.
Qed.

Lemma generate_without_local (prompt : string) (context : LLMContext)
    (pc : PrivacyContext) :
  localLLM svc = None → ∃ e, generate prompt context pc = inl e.
Proof.
  intros Hl. unfold generateLLMResponse, localGenerate. rewrite Hl.
  destruct (generateOpenAIResponse_throws prompt context pc) as [e He].
  rewrite He. destruct (useLocalLLM svc); cbn; eauto.
Qed.

(** Every response that [generateLLMResponse] returns comes from the local
    service, so it is marked successful and its text is not empty. *)
Lemma generate_ok_inv (prompt : string) (context : LLMContext)
    (pc : PrivacyContext) (r : LLMResponse) :
  generate prompt context pc = inr r →
  ∃ l, localLLM svc = Some l ∧ r = localResponse l prompt context pc
       ∧ success r = true ∧ response r ≠ "".
Proof.
  destruct (localLLM svc) as [l|] eqn:Hl.
  - intros Hr. exists l. split; [done|].
    assert (r = localResponse l prompt context pc) as ->.
    { revert Hr. unfold generateLLMResponse, localGenerate. rewrite Hl.
      destruct (generateOpenAIResponse_throws prompt context pc) as [e He].
      rewrite He. destruct (useLocalLLM svc); cbn.
      - by intros [= <-].
      - by intros [= <-]. }
    split; [done|]. apply LocalLLMFacts.generateResponse_succeeds.
  - destruct (generate_without_local prompt context pc Hl) as [e ->]. done.
Qed.

(** With a local service at hand, generation always returns what that
    service returns: directly when it is the provider in use, through the
    fallback branch when the OpenAI path has thrown. *)
Lemma generate_with_local (l : LocalLLM.Service) (prompt : string)
    (context : LLMContext) (pc : PrivacyContext) :
  localLLM svc = Some l →
  generate prompt context pc = inr (localResponse l prompt context pc).
Proof.
  intros Hl. unfold generateLLMResponse, localGenerate. rewrite Hl.
  destruct (generateOpenAIResponse_throws prompt context pc) as [e He].
  rewrite He. by destruct (useLocalLLM svc).
Qed.

(** C3, as amended.  When the local provider is the one in use and its
    request fails, generation still returns a successful response, the
    rule-based one: its model is ["fallback-default"], with the generic
    acknowledgement, when no key of the table occurs in the lower-cased
    prompt, and ["fallback-rule-based"], with the text of the first key
    of the table that occurs in it, otherwise; and the advice call whose
    prompt this is returns that response. *)
Theorem C3_local_failure_degrades_to_rule_based
    (l : LocalLLM.Service) (prompt : string) (context : LLMContext)
    (pc : PrivacyContext) (e : Err) :
  useLocalLLM svc = true →
  localLLM svc = Some l →
  axios_post (LocalLLM.baseURL l +:+ "/api/generate")
    {| LocalLLM.reqModel := LocalLLM.modelName l;
       LocalLLM.reqPrompt :=
         LocalLLM.buildSystemPrompt context +:+
         LocalLLM.anonymizePrompt anonymizeData prompt (anonymizationLevel pc);
       LocalLLM.reqStream := false |} = inl e →
  let r := LocalLLM.getFallbackResponse prompt in
  generate prompt context pc = inr r
  ∧ success r = true
  ∧ (model r = "fallback-default" ∧ response r = LocalLLM.defaultResponse
     ∧ Forall (λ kv : string * string,
                 includes kv.1 (toLowerCase prompt) ≠ true)
              LocalLLM.fallbackResponses
     ∨ model r = "fallback-rule-based"
       ∧ ∃ (i : nat) (key : string),
           LocalLLM.fallbackResponses !! i = Some (key, response r)
           ∧ includes key (toLowerCase prompt) = true
           ∧ ∀ (j : nat) (kv : string * string),
               LocalLLM.fallbackResponses !! j = Some kv → (j < i)%nat →
               includes kv.1 (toLowerCase prompt) ≠ true)
  ∧ ∀ query,
      prompt = buildAdvicePrompt query context "" →
      getPersonalizedAdvice anonymizeData anonymizeText axios_post openai_create
        svc query context pc
      = inr {| advice := response r; adviceModel := model r;
               advicePrivacyCompliant := privacyCompliant r;
               adviceProcessingTime := processingTime r |}.
Proof.
  intros Hu Hl Hdown r.
  assert (generate prompt context pc = inr r) as Hgen.
  { rewrite (generate_local l) by done.
    by rewrite (LocalLLMFacts.generateResponse_endpoint_down _ _ _ _ _ _ e). }
  split; [exact Hgen|].
  destruct (LocalLLMFacts.getFallbackResponse_cases prompt) as (Hs & _ & Hcases).
  split; [exact Hs|]. split; [exact Hcases|].
  intros query ->. unfold getPersonalizedAdvice. rewrite Hgen. reflexivity.
Qed.

End Generation.

Lemma C3_witness :
  generateLLMResponse Scenario.keepPrompt Scenario.keepText Scenario.ollamaDown
    Scenario.openaiDown Scenario.localService "xyz" emptyContext Scenario.context0
  = inr {| success := true; response := LocalLLM.defaultResponse;
           model := "fallback-default"; privacyCompliant := true;
           processingTime := 0 |}
  ∧ getPersonalizedAdvice Scenario.keepPrompt Scenario.keepText
      Scenario.ollamaDown Scenario.openaiDown Scenario.localService
      "hola" emptyContext Scenario.context0
    = inr {| advice := "¡Hola! Soy NutriBot, tu asistente de nutrición. ¿En qué puedo ayudarte hoy?";
             adviceModel := "fallback-rule-based";
             advicePrivacyCompliant := true; adviceProcessingTime := 0 |}.
Proof.
  split.
  - refine (proj1 (C3_local_failure_degrades_to_rule_based Scenario.keepPrompt
                     Scenario.keepText Scenario.ollamaDown Scenario.openaiDown
                     Scenario.localService (LocalLLM.new ∅) "xyz" emptyContext
                     Scenario.context0 "ECONNREFUSED" _ _ _)); reflexivity.
  - refine (proj2 (proj2 (proj2
              (C3_local_failure_degrades_to_rule_based Scenario.keepPrompt
                 Scenario.keepText Scenario.ollamaDown Scenario.openaiDown
                 Scenario.localService (LocalLLM.new ∅)
                 (buildAdvicePrompt "hola" emptyContext "") emptyContext
                 Scenario.context0 "ECONNREFUSED" _ _ _))) "hola" _);
      reflexivity.
Defined.

(** C3 as stated fails.  With the local provider down, a query containing
    [hola] is answered with model ["fallback-rule-based"], which is neither
    ["fallback-default"] nor a key of the response table; and with OpenAI
    as the provider in use and failing, the advice call fails. *)
Lemma C3_counterexample :
  (∃ a, getPersonalizedAdvice Scenario.keepPrompt Scenario.keepText
          Scenario.ollamaDown Scenario.openaiDown Scenario.localService
          "hola" emptyContext Scenario.context0 = inr a
        ∧ adviceModel a = "fallback-rule-based"
        ∧ adviceModel a ≠ "fallback-default"
        ∧ adviceModel a ∉ LocalLLM.fallbackResponses.*1)
  ∧ getPersonalizedAdvice Scenario.keepPrompt Scenario.keepText
      Scenario.ollamaDown Scenario.openaiDown Scenario.openaiService
      "hola" emptyContext Scenario.context0
    = inl "Failed to generate personalized advice".
Proof.
  split; [|vm_compute; reflexivity].
  eexists. split; [vm_compute; reflexivity|].
  split; [reflexivity|]. split; [discriminate|]. compute_done.
Qed.

(** *** The assessment table *)

Lemma tableAfter_reachable (n : nat) : reachable (Scenario.tableAfter n).
Proof.
  induction n as [|n IH]; cbn [Scenario.tableAfter].
  - unfold Scenario.start. apply reach_start, reach_empty.
  - unfold Scenario.submit. by apply reach_answer.
Qed.

Section Assessments.

Variable stringify : JsValue → string.
Variable anonymizeData : string → AnonOptions → Err + string.
Variable anonymizeText : string → string → Err + string.
Variable anonymizeObject : JsValue → string → Err + JsValue.
Variable axios_post : string → LocalLLM.GenerateRequest → Err + option LocalLLM.GenerateData.
Variable openai_create : ChatRequest → Err + ChatReply.
Variable now : string.
Variable svc : Service.

Local Abbreviation startStep :=
  (startHealthAssessment stringify anonymizeData anonymizeText anonymizeObject
     axios_post openai_create now svc).
Local Abbreviation answerStep :=
  (processAnswer stringify anonymizeData anonymizeText axios_post openai_create
     now svc).
Local Abbreviation question :=
  (generateAssessmentQuestion stringify anonymizeData anonymizeText axios_post
     openai_create svc).
Local Abbreviation finalRecs :=
  (generateFinalRecommendations stringify anonymizeData anonymizeText axios_post
     openai_create svc).
Local Abbreviation answerRoute :=
  (answerQuestionRoute stringify anonymizeData anonymizeText axios_post
     openai_create now svc).

Lemma finalRecs_nonempty (hd : JsValue) (ans : list Answer) (pc : PrivacyContext)
    (recs : string) :
  finalRecs hd ans pc = inr recs → recs ≠ "".
Proof.
  unfold generateFinalRecommendations.
  destruct (generateLLMResponse _ _ _ _ _ _ _ _) as [e|r] eqn:Hr; [done|].
  intros [= <-]. by apply generate_ok_inv in Hr as (_ & _ & _ & _ & ?).
Qed.

(** Lookups that miss: the three owner-scoped operations throw their
    generic error, and the table is left as it is. *)
Lemma processAnswer_unmatched (uid aid qid ans : string) (conf : JsValue)
    (pc : PrivacyContext) (st : Store) :
  findOne st aid uid = None →
  answerStep uid aid qid ans conf pc st = (inl "Failed to process answer", st)
  ∧ answerRoute uid aid qid ans conf pc st
    = (failure 500 "ANSWER_PROCESSING_ERROR", st).
Proof.
  intros Hf. unfold answerQuestionRoute, processAnswer. by rewrite Hf.
Qed.

Lemma getAssessment_unmatched (uid aid : string) (pc : PrivacyContext) (st : Store) :
  findOne st aid uid = None →
  getAssessment uid aid pc st = inl "Failed to retrieve assessment"
  ∧ getAssessmentRoute uid aid pc st = failure 500 "ASSESSMENT_RETRIEVAL_ERROR".
Proof.
  intros Hf. unfold getAssessmentRoute, getAssessment. by rewrite Hf.
Qed.

Lemma deleteAssessment_unmatched (uid aid : string) (st : Store) :
  findOne st aid uid = None →
  deleteAssessment uid aid st = (inl "Failed to delete assessment", st)
  ∧ deleteAssessmentRoute uid aid st
    = (failure 500 "ASSESSMENT_DELETION_ERROR", st).
Proof.
  intros Hf. unfold deleteAssessmentRoute, deleteAssessment. by rewrite Hf.
Qed.

Lemma findOne_after_delete (uid aid : string) (st : Store) :
  keyed st → findOne (deleteAssessment uid aid st).2 aid uid = None.
Proof.
  intros Hk. unfold deleteAssessment.
  destruct (findOne st aid uid) as [a|] eqn:Hf; cbn; [|done].
  unfold findOne in *. destruct (st !! aid) as [a'|] eqn:Ha; [|done].
  destruct (String.eqb (userId a') uid); [|done].
  injection Hf as ->. unfold destroy. rewrite (Hk _ _ Ha).
  by rewrite lookup_delete_eq.
Qed.

(** C2, as amended.  For a matched assessment, [processAnswer] writes the
    appended answer only after the provider call of its branch (final
    recommendations once the answers reach [totalQuestions], the next
    question otherwise) has returned: if that call fails, the operation
    fails and the table is exactly what it was, without the answer; if it
    returns, the row is saved with the new answer appended to the stored
    ones, whether or not an equal answer is already among them. *)
Theorem C2_answer_saved_only_after_provider_reply
    (uid aid qid ans : string) (conf : JsValue) (pc : PrivacyContext)
    (st : Store) (a : Assessment) :
  findOne st aid uid = Some a →
  let answers1 := pushAnswer now a qid ans conf in
  let n1 := Z.of_nat (length answers1) in
  let call :=
    if n1 >=? totalQuestions a
    then finalRecs (healthData a) answers1 pc
    else question (n1 + 1) (healthData a) answers1 pc in
  let out := answerStep uid aid qid ans conf pc st in
  (∀ e, call = inl e → out = (inl "Failed to process answer", st))
  ∧ (∀ text, call = inr text →
       ∃ r a', out = (inr r, save a' st)
               ∧ id a' = id a
               ∧ answers a' =
                   Some (default [] (answers a) ++
                         [{| questionId := qid; answer := ans;
                             confidence := conf; answeredAt := now |}])%list
               ∧ status a' = if n1 >=? totalQuestions a then completed
                             else status a).
Proof.
  intros Hf answers1 n1 call out. subst out call. unfold processAnswer.
  rewrite Hf. fold answers1. fold n1.
  destruct (n1 >=? totalQuestions a).
  - split.
    + by intros e ->.
    + intros text ->. eexists _, _. split; [reflexivity|]. done.
  - split.
    + by intros e ->.
    + intros text ->. eexists _, _. split; [reflexivity|]. done.
Qed.

(** *** What a successful call did *)

Lemma start_ok_inv (newId uid : string) (hd : JsValue) (pc : PrivacyContext)
    (st0 : Store) (r0 : StartResult) (st1 : Store) :
  startStep newId uid hd pc st0 = (inr r0, st1) →
  st0 !! newId = None
  ∧ startId r0 = newId ∧ startStatus r0 = in_progress ∧ startProgress r0 = 0
  ∧ ∃ a, st1 !! newId = Some a ∧ id a = newId ∧ userId a = uid
         ∧ status a = in_progress ∧ totalQuestions a = 15
         ∧ answers a = None ∧ progress a = 0.
Proof.
  unfold startHealthAssessment, create.
  destruct (if anonymization pc then _ else _) as [e|anonymized]; [done|].
  cbn [id]. destruct (st0 !! newId) eqn:Hfresh; [done|].
  destruct (generateAssessmentQuestion _ _ _ _ _ _ _ _ _ _) as [e|q]; [done|].
  intros [= <- <-]. split; [done|]. cbn. repeat split.
  eexists. split; [apply lookup_insert_eq|]. done.
Qed.

Lemma answer_ok_inv (uid aid qid ans : string) (conf : JsValue)
    (pc : PrivacyContext) (st : Store) (r : AnswerResult) (st' : Store) :
  answerStep uid aid qid ans conf pc st = (inr r, st') →
  ∃ a, findOne st aid uid = Some a
       ∧ let answers1 := pushAnswer now a qid ans conf in
         let n1 := Z.of_nat (length answers1) in
         (totalQuestions a ≤ n1
          ∧ ∃ recs, recs ≠ ""
              ∧ st' = save (updateCompleted now a answers1 recs) st
              ∧ resStatus r = completed ∧ resProgress r = 100
              ∧ resRecommendations r = Some recs)
         ∨ (n1 < totalQuestions a
            ∧ ∃ q, st' = save (updateInProgress now a answers1
                                 (roundPercent n1 (totalQuestions a)) q) st
                   ∧ resStatus r = status a
                   ∧ resProgress r = roundPercent n1 (totalQuestions a)
                   ∧ resRecommendations r = None).
Proof.
  unfold processAnswer.
  destruct (findOne st aid uid) as [a|]; [|done].
  intros Hout. exists a. split; [done|]. cbn zeta.
  destruct (Z.of_nat (length (pushAnswer now a qid ans conf))
            >=? totalQuestions a) eqn:Hcmp.
  - left. split; [lia|].
    destruct (finalRecs _ _ _) as [e|recs] eqn:Hrecs; [done|].
    injection Hout as <- <-. exists recs.
    split; [by eapply finalRecs_nonempty|]. done.
  - right. split; [lia|].
    destruct (question _ _ _ _) as [e|q]; [done|].
    injection Hout as <- <-. by exists q.
Qed.

Lemma findOne_Some (st : Store) (aid uid : string) (a : Assessment) :
  findOne st aid uid = Some a → st !! aid = Some a.
Proof.
  unfold findOne. destruct (st !! aid) as [a'|]; [|done].
  by destruct (String.eqb (userId a') uid).
Qed.

Lemma pushAnswer_length (a : Assessment) (qid ans : string) (conf : JsValue) :
  Z.of_nat (length (pushAnswer now a qid ans conf)) = answerCount a + 1.
Proof. unfold pushAnswer, answerCount. rewrite length_app. cbn. lia. Qed.

Lemma roundPercent_bounds (n : Z) : 0 ≤ n < 15 → 0 ≤ roundPercent n 15 ≤ 100.
Proof.
  intros Hn. unfold roundPercent. split.
  - apply Z.div_pos; lia.
  - apply Z.div_le_upper_bound; lia.
Qed.

(** A row that satisfies the lifecycle invariant still does after a
    successful answer, with one answer more. *)
Lemma answer_step_tracks (uid aid qid ans : string) (conf : JsValue)
    (pc : PrivacyContext) (st : Store) (r : AnswerResult) (st' : Store)
    (a : Assessment) :
  st !! aid = Some a → id a = aid → lifecycleInvariant a →
  answerStep uid aid qid ans conf pc st = (inr r, st') →
  ∃ a', st' !! aid = Some a' ∧ id a' = aid ∧ lifecycleInvariant a'
        ∧ answerCount a' = answerCount a + 1
        ∧ resStatus r = status a' ∧ resProgress r = progress a'
        ∧ (status a' = completed →
           ∃ recs, recs ≠ "" ∧ recommendations a' = Some recs
                   ∧ resRecommendations r = Some recs).
Proof.
  intros Ha Hid (Htotal & Hshape) Hout.
  apply answer_ok_inv in Hout as (a0 & Hf & Hcases).
  apply findOne_Some in Hf. rewrite Ha in Hf. injection Hf as <-.
  cbn zeta in Hcases. rewrite pushAnswer_length, Htotal in Hcases.
  destruct Hcases as [(Hn & recs & Hrecs & -> & Hs & Hp & Hr)
                     |(Hn & q & -> & Hs & Hp & Hr)].
  - eexists. split; [unfold save; cbn [id updateCompleted]; rewrite Hid;
                     apply lookup_insert_eq|].
    split; [done|]. split.
    { split; [done|]. right. unfold answerCount. cbn.
      rewrite pushAnswer_length. repeat split. lia. }
    split; [unfold answerCount; cbn; by rewrite pushAnswer_length|].
    split; [done|]. split; [done|]. intros _. by exists recs.
  - assert (status a = in_progress) as Hst
      by (destruct Hshape as [(? & _)|(_ & ? & _)]; [done|lia]).
    eexists. split; [unfold save; cbn [id updateInProgress]; rewrite Hid;
                     apply lookup_insert_eq|].
    split; [done|]. split.
    { split; [done|]. left. unfold answerCount. cbn.
      rewrite pushAnswer_length. repeat split; [done|lia]. }
    split; [unfold answerCount; cbn; by rewrite pushAnswer_length|].
    split; [done|]. split; [done|]. cbn. by rewrite Hst.
Qed.

Lemma submitAll_tracks (uid aid : string) (pc : PrivacyContext)
    (inputs : list (string * string * JsValue)) :
  ∀ (st st' : Store) (a : Assessment),
    st !! aid = Some a → id a = aid → lifecycleInvariant a →
    submitAll stringify anonymizeData anonymizeText axios_post openai_create
      now svc uid aid pc inputs st = Some st' →
    ∃ a', st' !! aid = Some a' ∧ id a' = aid ∧ lifecycleInvariant a'
          ∧ answerCount a' = answerCount a + Z.of_nat (length inputs).
Proof.
  induction inputs as [|[[qid ans] conf] rest IH]; intros st st' a Ha Hid Hinv.
  - intros [= <-]. exists a. split; [done|]. split; [done|]. split; [done|].
    cbn. lia.
  - cbn [submitAll].
    destruct (answerStep uid aid qid ans conf pc st) as [[e|r] st1] eqn:Hstep;
      [done|].
    intros Hrest.
    destruct (answer_step_tracks _ _ _ _ _ _ _ _ _ _ Ha Hid Hinv Hstep)
      as (a1 & Ha1 & Hid1 & Hinv1 & Hcount1 & _).
    destruct (IH _ _ _ Ha1 Hid1 Hinv1 Hrest) as (a' & ? & ? & ? & Hcount).
    exists a'. split; [done|]. split; [done|]. split; [done|].
    rewrite Hcount, Hcount1. cbn [length]. lia.
Qed.

(** What fifteen answers do once the calls have returned: after the
    start and fourteen answers the stored assessment is in progress with
    progress 93, and a fifteenth answer that returns has completed it. *)
Lemma fifteen_questions_when_calls_return
    (newId uid : string) (hd : JsValue) (pc : PrivacyContext) (st0 : Store)
    (r0 : StartResult) (st1 : Store)
    (inputs : list (string * string * JsValue)) (st14 : Store) :
  startStep newId uid hd pc st0 = (inr r0, st1) →
  length inputs = 14%nat →
  submitAll stringify anonymizeData anonymizeText axios_post openai_create
    now svc uid newId pc inputs st1 = Some st14 →
  (∃ a0, st1 !! newId = Some a0 ∧ totalQuestions a0 = 15 ∧ progress a0 = 0)
  ∧ (∃ a, st14 !! newId = Some a ∧ totalQuestions a = 15
          ∧ status a = in_progress ∧ progress a = 93 ∧ answerCount a = 14)
  ∧ ∀ qid ans conf r st15,
      answerStep uid newId qid ans conf pc st14 = (inr r, st15) →
      resStatus r = completed ∧ resProgress r = 100
      ∧ ∃ a recs, st15 !! newId = Some a ∧ status a = completed
                  ∧ progress a = 100 ∧ answerCount a = 15
                  ∧ recommendations a = Some recs ∧ recs ≠ ""
                  ∧ resRecommendations r = Some recs.
Proof.
  intros Hstart Hlen Hrun.
  apply start_ok_inv in Hstart
    as (_ & _ & _ & _ & a0 & Ha0 & Hid0 & _ & Hst0 & Htot0 & Hans0 & Hp0).
  assert (answerCount a0 = 0) as Hc0 by (unfold answerCount; by rewrite Hans0).
  assert (lifecycleInvariant a0) as Hinv0.
  { split; [done|]. left. rewrite Hc0, Hp0.
    split; [done|]. split; [lia|reflexivity]. }
  split; [by exists a0|].
  destruct (submitAll_tracks _ _ _ _ _ _ _ Ha0 Hid0 Hinv0 Hrun)
    as (a & Ha & Hid & Hinv & Hcount).
  rewrite Hc0, Hlen in Hcount. cbn in Hcount.
  split.
  - exists a. destruct Hinv as (Htot & [(Hs & _ & Hp)|(_ & Hn & _)]); [|lia].
    rewrite Hcount in Hp. done.
  - intros qid ans conf r st15 Hstep.
    destruct (answer_step_tracks _ _ _ _ _ _ _ _ _ _ Ha Hid Hinv Hstep)
      as (a' & Ha' & _ & (_ & Hshape) & Hcount' & Hrs & Hrp & Hrecs).
    rewrite Hcount in Hcount'.
    destruct Hshape as [(_ & Hn & _)|(Hs & _ & Hp)]; [lia|].
    destruct (Hrecs Hs) as (recs & ? & ? & ?).
    rewrite Hrs, Hrp, Hs, Hp. repeat split.
    exists a', recs. repeat split; done.
Qed.

(** *** Calls that return *)

(** With a local service at hand the two generation steps of an
    assessment return a text. *)
Lemma question_with_local (l : LocalLLM.Service) (n : Z) (hd : JsValue)
    (prev : list Answer) (pc : PrivacyContext) :
  localLLM svc = Some l → ∃ q, question n hd prev pc = inr q.
Proof.
  intros Hl. unfold generateAssessmentQuestion.
  erewrite generate_with_local; [|exact Hl]. by eexists.
Qed.

Lemma finalRecs_with_local (l : LocalLLM.Service) (hd : JsValue)
    (ans : list Answer) (pc : PrivacyContext) :
  localLLM svc = Some l → ∃ recs, finalRecs hd ans pc = inr recs.
Proof.
  intros Hl. unfold generateFinalRecommendations.
  erewrite generate_with_local; [|exact Hl]. by eexists.
Qed.

(** The start returns when the identifier is fresh and the health data
    pass the anonymizer. *)
Lemma start_returns (l : LocalLLM.Service) (newId uid : string) (hd : JsValue)
    (pc : PrivacyContext) (st0 : Store) (anonymized : JsValue) :
  localLLM svc = Some l →
  st0 !! newId = None →
  (if anonymization pc then anonymizeObject hd "health_assessment" else inr hd)
    = inr anonymized →
  ∃ r0 st1, startStep newId uid hd pc st0 = (inr r0, st1).
Proof.
  intros Hl Hfresh Hanon. unfold startHealthAssessment, create.
  rewrite Hanon. cbn [id]. rewrite Hfresh.
  destruct (question_with_local l 1 anonymized [] pc Hl) as [q ->].
  by eexists _, _.
Qed.

(** An answer by the owner of a stored assessment returns, and the
    assessment is still stored under its identifier for its owner. *)
Lemma answer_returns (l : LocalLLM.Service) (uid aid qid ans : string)
    (conf : JsValue) (pc : PrivacyContext) (st : Store) (a : Assessment) :
  localLLM svc = Some l →
  st !! aid = Some a → id a = aid → userId a = uid →
  ∃ r st', answerStep uid aid qid ans conf pc st = (inr r, st')
           ∧ ∃ a', st' !! aid = Some a' ∧ id a' = aid ∧ userId a' = uid.
Proof.
  intros Hl Ha Hid Huid. unfold processAnswer, findOne.
  rewrite Ha, Huid, String.eqb_refl. cbn zeta.
  destruct (Z.of_nat (length (pushAnswer now a qid ans conf))
            >=? totalQuestions a).
  - destruct (finalRecs_with_local l (healthData a)
                (pushAnswer now a qid ans conf) pc Hl) as [recs ->].
    eexists _, _. split; [reflexivity|].
    eexists. split; [unfold save; cbn [id updateCompleted]; rewrite Hid;
                     apply lookup_insert_eq|].
    split; [exact Hid|exact Huid].
  - destruct (question_with_local l
                (Z.of_nat (length (pushAnswer now a qid ans conf)) + 1)
                (healthData a) (pushAnswer now a qid ans conf) pc Hl) as [q ->].
    eexists _, _. split; [reflexivity|].
    eexists. split; [unfold save; cbn [id updateInProgress]; rewrite Hid;
                     apply lookup_insert_eq|].
    split; [exact Hid|exact Huid].
Qed.

Lemma submitAll_returns (l : LocalLLM.Service) (uid aid : string)
    (pc : PrivacyContext) (inputs : list (string * string * JsValue)) :
  localLLM svc = Some l →
  ∀ (st : Store) (a : Assessment),
    st !! aid = Some a → id a = aid → userId a = uid →
    ∃ st' a',
      submitAll stringify anonymizeData anonymizeText axios_post openai_create
        now svc uid aid pc inputs st = Some st'
      ∧ st' !! aid = Some a' ∧ id a' = aid ∧ userId a' = uid.
Proof.
  intros Hl.
  induction inputs as [|[[qid ans] conf] rest IH]; intros st a Ha Hid Huid.
  - exists st, a. by cbn.
  - cbn [submitAll].
    destruct (answer_returns l uid aid qid ans conf pc st a Hl Ha Hid Huid)
      as (r & st1 & -> & a1 & Ha1 & Hid1 & Huid1).
    exact (IH st1 a1 Ha1 Hid1 Huid1).
Qed.

(** C5.  An assessment is created with [totalQuestions = 15].  With a
    local service at hand, a fresh identifier and health data that pass
    the anonymizer, the start returns and stores the assessment with
    progress 0; fourteen answers by its owner all return and leave it in
    progress with progress 93; and whatever the fifteenth answer is, the
    call returns status completed with progress 100, and the stored
    assessment is completed with progress 100 and fifteen answers and
    holds the recommendations returned, a non-empty text. *)
Theorem C5_fifteen_questions
    (l : LocalLLM.Service) (newId uid : string) (hd anonymized : JsValue)
    (pc : PrivacyContext) (st0 : Store)
    (inputs : list (string * string * JsValue)) :
  localLLM svc = Some l →
  st0 !! newId = None →
  (if anonymization pc then anonymizeObject hd "health_assessment" else inr hd)
    = inr anonymized →
  length inputs = 14%nat →
  ∃ r0 st1 st14,
    startStep newId uid hd pc st0 = (inr r0, st1)
    ∧ (∃ a0, st1 !! newId = Some a0 ∧ totalQuestions a0 = 15 ∧ progress a0 = 0)
    ∧ submitAll stringify anonymizeData anonymizeText axios_post openai_create
        now svc uid newId pc inputs st1 = Some st14
    ∧ (∃ a, st14 !! newId = Some a ∧ totalQuestions a = 15
            ∧ status a = in_progress ∧ progress a = 93 ∧ answerCount a = 14)
    ∧ ∀ qid ans conf,
        ∃ r st15,
          answerStep uid newId qid ans conf pc st14 = (inr r, st15)
          ∧ resStatus r = completed ∧ resProgress r = 100
          ∧ ∃ a recs, st15 !! newId = Some a ∧ status a = completed
                      ∧ progress a = 100 ∧ answerCount a = 15
                      ∧ recommendations a = Some recs ∧ recs ≠ ""
                      ∧ resRecommendations r = Some recs.
Proof.
  intros Hl Hfresh Hanon Hlen.
  destruct (start_returns l newId uid hd pc st0 anonymized Hl Hfresh Hanon)
    as (r0 & st1 & Hstart).
  destruct (start_ok_inv _ _ _ _ _ _ _ Hstart)
    as (_ & _ & _ & _ & a0 & Ha0 & Hid0 & Huid0 & _).
  destruct (submitAll_returns l uid newId pc inputs Hl st1 a0 Ha0 Hid0 Huid0)
    as (st14 & a14 & Hrun & Ha14 & Hid14 & Huid14).
  destruct (fifteen_questions_when_calls_return _ _ _ _ _ _ _ _ _
              Hstart Hlen Hrun) as (Hfirst & Hmid & Hlast).
  exists r0, st1, st14.
  split; [exact Hstart|]. split; [exact Hfirst|].
  split; [exact Hrun|]. split; [exact Hmid|].
  intros qid ans conf.
  destruct (answer_returns l uid newId qid ans conf pc st14 a14
              Hl Ha14 Hid14 Huid14) as (r & st15 & Hstep & _).
  exists r, st15. split; [exact Hstep|].
  exact (Hlast qid ans conf r st15 Hstep).
Qed.

(** *** Preservation of the lifecycle invariant *)

Lemma updateCompleted_invariant (a : Assessment) (qid ans : string)
    (conf : JsValue) (recs : string) :
  lifecycleInvariant a → 15 ≤ answerCount a + 1 →
  lifecycleInvariant (updateCompleted now a (pushAnswer now a qid ans conf) recs).
Proof.
  intros (Htotal & _) Hn. split; [done|]. right.
  unfold answerCount. cbn. rewrite pushAnswer_length.
  split; [done|]. split; [lia|done].
Qed.

Lemma updateInProgress_invariant (a : Assessment) (qid ans : string)
    (conf : JsValue) (q : string) :
  lifecycleInvariant a → answerCount a + 1 < 15 →
  lifecycleInvariant
    (updateInProgress now a (pushAnswer now a qid ans conf)
       (roundPercent (answerCount a + 1) 15) q).
Proof.
  intros (Htotal & Hshape) Hn. split; [done|]. left.
  unfold answerCount. cbn. rewrite pushAnswer_length.
  split; [destruct Hshape as [(? & _)|(_ & ? & _)]; [done|lia]|].
  split; [lia|done].
Qed.

Lemma keyed_insert (st : Store) (a : Assessment) :
  keyed st → keyed (<[id a := a]> st).
Proof.
  intros Hk k b. destruct (decide (id a = k)) as [<-|Hne].
  - rewrite lookup_insert_eq. by intros [= <-].
  - rewrite lookup_insert_ne by done. apply Hk.
Qed.

Lemma wellFormed_save (st : Store) (a : Assessment) :
  wellFormed st → lifecycleInvariant a → wellFormed (save a st).
Proof.
  intros [Hk Hinv] Ha. split; [by apply keyed_insert|].
  by apply map_Forall_insert_2.
Qed.

Lemma start_preserves (newId uid : string) (hd : JsValue) (pc : PrivacyContext)
    (st : Store) :
  wellFormed st → wellFormed (startStep newId uid hd pc st).2.
Proof.
  intros Hwf. unfold startHealthAssessment, create.
  destruct (if anonymization pc then _ else _) as [e|anonymized]; [done|].
  cbn [id]. destruct (st !! newId) eqn:Hfresh; [done|].
  set (row := {| id := newId; userId := uid; status := in_progress;
                 healthData := hd; anonymizedData := anonymized;
                 progress := 0; currentQuestion := JNum 1; totalQuestions := 15;
                 answers := None; recommendations := None; nextQuestion := None;
                 createdAt := now; updatedAt := now; completedAt := None |}).
  assert (lifecycleInvariant row) as Hrow.
  { split; [done|]. left. split; [done|]. split; [done|reflexivity]. }
  assert (wellFormed (<[newId := row]> st)) as Hwf1
    by exact (wellFormed_save st row Hwf Hrow).
  destruct (generateAssessmentQuestion _ _ _ _ _ _ _ _ _ _) as [e|q]; [done|].
  cbn [snd]. apply wellFormed_save; [done|].
  split; [done|]. left. split; [done|]. split; [done|reflexivity].
Qed.

Lemma answer_preserves (uid aid qid ans : string) (conf : JsValue)
    (pc : PrivacyContext) (st : Store) :
  wellFormed st → wellFormed (answerStep uid aid qid ans conf pc st).2.
Proof.
  intros Hwf. unfold processAnswer.
  destruct (findOne st aid uid) as [a|] eqn:Hf; [|done].
  apply findOne_Some in Hf.
  assert (lifecycleInvariant a) as Ha by exact (proj2 Hwf _ _ Hf).
  cbn zeta. rewrite pushAnswer_length. rewrite (proj1 Ha).
  destruct (answerCount a + 1 >=? 15) eqn:Hcmp.
  - destruct (finalRecs _ _ _) as [e|recs]; [done|].
    cbn [snd]. apply wellFormed_save; [done|].
    apply updateCompleted_invariant; [done|lia].
  - destruct (question _ _ _ _) as [e|q]; [done|].
    cbn [snd]. apply wellFormed_save; [done|].
    apply updateInProgress_invariant; [done|lia].
Qed.

End Assessments.

Lemma C2_witness :
  Scenario.submit Scenario.openaiService "user-1" "q1" "si" (Scenario.tableAfter 0)
  = (inl "Failed to process answer", Scenario.tableAfter 0).
Proof.
  destruct (Scenario.tableAfter 0 !! "a-1") as [a|] eqn:Ha; [|by vm_compute in Ha].
  assert (findOne (Scenario.tableAfter 0) "a-1" "user-1" = Some a) as Hf.
  { unfold findOne. rewrite Ha. vm_compute in Ha. by injection Ha as <-. }
  destruct (C2_answer_saved_only_after_provider_reply Scenario.noStringify
              Scenario.keepPrompt Scenario.keepText Scenario.ollamaDown
              Scenario.openaiDown Scenario.clock Scenario.openaiService
              "user-1" "a-1" "q1" "si" (JNum 1) Scenario.context0
              (Scenario.tableAfter 0) a Hf) as [Hfail _].
  vm_compute in Ha. injection Ha as <-.
  apply (Hfail "TypeError: this.buildSystemPrompt is not a function").
  reflexivity.
Defined.

(** C2 as stated fails.  With the provider call failing, the answer is not
    recorded: the call fails and the row still has no answers.  And a
    second submission of the same question id and answer is not rejected:
    it succeeds and the row then holds the answer twice. *)
Lemma C2_counterexample :
  (Scenario.submit Scenario.openaiService "user-1" "q" "si" (Scenario.tableAfter 0)
   = (inl "Failed to process answer", Scenario.tableAfter 0)
   ∧ (answers <$> Scenario.tableAfter 0 !! "a-1") = Some None)
  ∧ ((λ a, (λ x, (questionId x, answer x)) <$> default [] (answers a))
       <$> Scenario.tableAfter 1 !! "a-1") = Some [("q", "si")]
  ∧ ∃ r st2,
      Scenario.submit Scenario.localService "user-1" "q" "si" (Scenario.tableAfter 1)
      = (inr r, st2)
      ∧ ((λ a, (λ x, (questionId x, answer x)) <$> default [] (answers a))
           <$> st2 !! "a-1") = Some [("q", "si"); ("q", "si")].
Proof.
  split; [split; reflexivity|]. split; [reflexivity|].
  eexists _, _. split; reflexivity.
Qed.

(** C4, evaluated on misses.  On the table holding the assessment ["a-1"]
    of ["user-1"]: an answer submitted by ["user-2"] fails with the generic
    error and HTTP 500; after the owner deleted the assessment, reading it
    and deleting it again fail with the generic errors and HTTP 500.  None
    of the three is reported as not found. *)
Theorem C4_misses_surface_as_generic_failures :
  let st := Scenario.tableAfter 2 in
  let st' := (deleteAssessment "user-1" "a-1" st).2 in
  Scenario.submit Scenario.localService "user-2" "q3" "si" st
    = (inl "Failed to process answer", st)
  ∧ answerQuestionRoute Scenario.noStringify Scenario.keepPrompt Scenario.keepText
      Scenario.ollamaDown Scenario.openaiDown Scenario.clock
      Scenario.localService "user-2" "a-1" "q3" "si" (JNum 1) Scenario.context0 st
    = (failure 500 "ANSWER_PROCESSING_ERROR", st)
  ∧ (deleteAssessment "user-1" "a-1" st).1
    = inr {| deleteSuccess := true;
             deleteMessage := "Assessment permanently deleted" |}
  ∧ getAssessment "user-1" "a-1" Scenario.context0 st'
    = inl "Failed to retrieve assessment"
  ∧ getAssessmentRoute "user-1" "a-1" Scenario.context0 st'
    = failure 500 "ASSESSMENT_RETRIEVAL_ERROR"
  ∧ deleteAssessment "user-1" "a-1" st' = (inl "Failed to delete assessment", st')
  ∧ deleteAssessmentRoute "user-1" "a-1" st'
    = (failure 500 "ASSESSMENT_DELETION_ERROR", st').
Proof.
  intros st st'.
  assert (findOne st "a-1" "user-2" = None) as Hother by reflexivity.
  assert (findOne st' "a-1" "user-1" = None) as Hgone by reflexivity.
  split; [apply processAnswer_unmatched, Hother|].
  split; [apply processAnswer_unmatched, Hother|].
  split; [reflexivity|].
  split; [apply getAssessment_unmatched, Hgone|].
  split; [apply getAssessment_unmatched, Hgone|].
  split; [apply deleteAssessment_unmatched, Hgone|].
  apply deleteAssessment_unmatched, Hgone.
Qed.

Lemma C5_witness :
  ∃ r0 st1 st14 r st15 a recs,
    Scenario.start Scenario.localService ∅ = (inr r0, st1)
    ∧ submitAll Scenario.noStringify Scenario.keepPrompt Scenario.keepText
        Scenario.ollamaDown Scenario.openaiDown Scenario.clock
        Scenario.localService "user-1" "a-1" Scenario.context0
        Scenario.fourteenAnswers st1 = Some st14
    ∧ Scenario.submit Scenario.localService "user-1" "q" "si" st14
      = (inr r, st15)
    ∧ resStatus r = completed ∧ resProgress r = 100
    ∧ st15 !! "a-1" = Some a ∧ status a = completed
    ∧ progress a = 100 ∧ answerCount a = 15
    ∧ recommendations a = Some recs ∧ recs ≠ ""
    ∧ resRecommendations r = Some recs.
Proof.
  destruct (C5_fifteen_questions Scenario.noStringify Scenario.keepPrompt
              Scenario.keepText Scenario.keepObject Scenario.ollamaDown
              Scenario.openaiDown Scenario.clock Scenario.localService
              (LocalLLM.new ∅) "a-1" "user-1" Scenario.profile Scenario.profile
              Scenario.context0 ∅ Scenario.fourteenAnswers
              eq_refl (lookup_empty _) eq_refl eq_refl)
    as (r0 & st1 & st14 & Hstart & _ & Hrun & _ & Hlast).
  destruct (Hlast "q" "si" (JNum 1)) as (r & st15 & Hstep & Hs & Hp & a & recs & Ha).
  exists r0, st1, st14, r, st15, a, recs.
  exact (conj Hstart (conj Hrun (conj Hstep (conj Hs (conj Hp Ha))))).
Defined.

(** *** The invariant over the life of the table *)

Lemma delete_preserves (uid aid : string) (st : Store) :
  wellFormed st → wellFormed (deleteAssessment uid aid st).2.
Proof.
  intros [Hk Hinv]. unfold deleteAssessment.
  destruct (findOne st aid uid) as [a|]; [|done].
  cbn [snd]. unfold destroy. split.
  - intros k b Hb. apply lookup_delete_Some in Hb as [_ Hb]. by apply Hk.
  - by apply map_Forall_delete.
Qed.

Lemma reachable_wellFormed (st : Store) : reachable st → wellFormed st.
Proof.
  induction 1.
  - split; [by intros k a|apply map_Forall_empty].
  - by apply start_preserves.
  - by apply answer_preserves.
  - by apply delete_preserves.
Qed.

(** C6, as amended.  In every table the service can reach, every
    assessment has its progress within [0, 100]; the progress is
    [round(100 * answers / totalQuestions)] as long as the answers do not
    exceed [totalQuestions]; an assessment in progress has fewer answers
    than [totalQuestions]; and one with more answers than [totalQuestions]
    is completed with progress 100. *)
Theorem C6_progress_invariant (st : Store) (k : string) (a : Assessment) :
  reachable st → st !! k = Some a →
  0 ≤ progress a ≤ 100
  ∧ (answerCount a ≤ totalQuestions a →
     progress a = roundPercent (answerCount a) (totalQuestions a))
  ∧ (status a = in_progress → answerCount a < totalQuestions a)
  ∧ (totalQuestions a < answerCount a → status a = completed ∧ progress a = 100).
Proof.
  intros Hreach Ha.
  destruct (reachable_wellFormed st Hreach) as [_ Hinv].
  destruct (Hinv _ _ Ha) as (-> & [(Hs & Hn & Hp)|(Hs & Hn & Hp)]).
  - assert (0 ≤ answerCount a) by (unfold answerCount; lia).
    rewrite Hp. split; [apply roundPercent_bounds; lia|].
    split; [done|]. split; [done|]. lia.
  - rewrite Hp. split; [lia|]. split.
    + intros Hle. by replace (answerCount a) with 15 by lia.
    + split; [by rewrite Hs|done].
Qed.

Lemma C6_witness :
  ∃ a, Scenario.tableAfter 14 !! "a-1" = Some a
       ∧ 0 ≤ progress a ≤ 100
       ∧ (answerCount a ≤ totalQuestions a →
          progress a = roundPercent (answerCount a) (totalQuestions a)).
Proof.
  destruct (Scenario.tableAfter 14 !! "a-1") as [a|] eqn:Ha;
    [|by vm_compute in Ha].
  exists a. split; [reflexivity|].
  destruct (C6_progress_invariant (Scenario.tableAfter 14) "a-1" a
              (tableAfter_reachable 14) Ha) as (Hb & Hr & _).
  exact (conj Hb Hr).
Defined.

(** C6 as stated fails.  [processAnswer] accepts answers for a completed
    assessment: after sixteen answers the reachable table holds sixteen
    answers against [totalQuestions = 15], and the stored progress, 100, is
    not the rounded percentage, 107. *)
Lemma C6_counterexample :
  reachable (Scenario.tableAfter 16)
  ∧ ∃ a, Scenario.tableAfter 16 !! "a-1" = Some a
         ∧ totalQuestions a = 15 ∧ answerCount a = 16
         ∧ progress a = 100
         ∧ roundPercent (answerCount a) (totalQuestions a) = 107.
Proof.
  split; [apply tableAfter_reachable|].
  eexists. split; [vm_compute; reflexivity|]. by vm_compute.
Qed.

End ChatbotFacts.

(** ** Further properties of the privacy middleware *)

Module PrivacyMore.

Import Privacy.

(** *** minimizeData *)

(** Minimizing an already minimized payload changes nothing. *)
Theorem minimizeData_idempotent (data : gmap string JsValue) (p : string) :
  minimizeData (minimizeData data p) p = minimizeData data p.
Proof.
  apply map_eq. intros k.
  rewrite (PrivacyFacts.lookup_minimizeData (minimizeData data p)).
  rewrite PrivacyFacts.lookup_minimizeData.
  destruct (data !! k) as [v|]; [|done].
  destruct (includes "/chatbot/" p && negb (arr_includes allowedFields k)) eqn:Ha;
    [done|].
  destruct (bool_decide (k ∈ personalIdentifiers) && truthy v) eqn:Hb; [done|].
  cbn. rewrite ?Ha, ?Hb. done.
Qed.

(** A field that is not a personal identifier is kept with its value on
    every path outside the chatbot endpoints, and on the chatbot endpoints
    when it is on the allow-list. *)
Theorem minimizeData_keeps_other_fields
    (data : gmap string JsValue) (p k : string) :
  k ∉ personalIdentifiers →
  includes "/chatbot/" p = false ∨ k ∈ allowedFields →
  minimizeData data p !! k = data !! k.
Proof.
  intros Hk Hp. rewrite PrivacyFacts.lookup_minimizeData.
  destruct (data !! k) as [v|]; [|done].
  rewrite (bool_decide_eq_false_2 _ Hk). cbn [andb].
  destruct Hp as [->|Hin]; [done|].
  unfold arr_includes. rewrite (bool_decide_eq_true_2 _ Hin).
  by rewrite andb_false_r.
Qed.

Lemma minimizeData_keeps_other_fields_witness :
  minimizeData Scenario.fullProfile "/api/chatbot/advice" !! "age" = Some (JNum 30)
  ∧ minimizeData Scenario.fullProfile "/api/user/profile" !! "nickname"
    = Some (JStr "ani").
Proof.
  split.
  - rewrite (minimizeData_keeps_other_fields Scenario.fullProfile
               "/api/chatbot/advice" "age");
      [reflexivity | compute_done | right; compute_done].
  - rewrite (minimizeData_keeps_other_fields Scenario.fullProfile
               "/api/user/profile" "nickname");
      [reflexivity | compute_done | left; reflexivity].
Defined.

(** On a chatbot endpoint the minimized payload has allow-listed fields
    only, and never more than nine of them. *)
Theorem minimizeData_chatbot_domain (data : gmap string JsValue) (p : string) :
  includes "/chatbot/" p = true →
  dom (minimizeData data p) ⊆ list_to_set allowedFields
  ∧ (size (minimizeData data p) ≤ 9)%nat.
Proof.
  intros Hp.
  assert (dom (minimizeData data p) ⊆ (list_to_set allowedFields : gset string))
    as Hsub.
  { intros k Hk. apply elem_of_dom in Hk as [v Hv].
    rewrite PrivacyFacts.lookup_minimizeData, Hp in Hv.
    destruct (data !! k) as [w|]; [|done].
    destruct (arr_includes allowedFields k) eqn:Ha; [|done].
    apply elem_of_list_to_set. unfold arr_includes in Ha.
    by apply bool_decide_eq_true_1 in Ha. }
  split; [done|].
  rewrite <- size_dom.
  etrans; [apply (subseteq_size _ _ Hsub)|]. by vm_compute.
Qed.

Lemma minimizeData_chatbot_domain_witness :
  dom (minimizeData Scenario.fullProfile "/api/chatbot/advice")
    ⊆ list_to_set allowedFields
  ∧ (size (minimizeData Scenario.fullProfile "/api/chatbot/advice") ≤ 9)%nat.
Proof.
  apply (minimizeData_chatbot_domain Scenario.fullProfile "/api/chatbot/advice").
  reflexivity.
Defined.

Section Middleware.

Variable validateConsent : string → bool.
Variable anonymizeData : gmap string JsValue → string → Err + gmap string JsValue.
Variable env : gmap string string.
Variable now : string.

Local Abbreviation standard := (privacyMiddleware validateConsent anonymizeData env now).
Local Abbreviation enhanced := (enhancedPrivacyMiddleware validateConsent anonymizeData env now).
Local Abbreviation context := (buildContext validateConsent env now).

(** *** The consent token *)

(** A non-empty [x-consent-token] header decides alone, whatever the
    cookie holds; a missing or empty header leaves the decision to a
    non-empty [consentToken] cookie. *)
Theorem consent_header_before_cookie (req : Request) :
  (∀ h, headers req !! "x-consent-token" = Some h → h ≠ "" →
        consentValid (context req) = validateConsent h)
  ∧ (∀ c, str_or (headers req !! "x-consent-token") None = None →
          (cookies req ≫= λ m, m !! "consentToken") = Some c → c ≠ "" →
          consentValid (context req) = validateConsent c).
Proof.
  assert (∀ x, x ≠ "" → str_truthy x = true) as Htruthy.
  { intros x Hx. apply String.eqb_neq in Hx. unfold str_truthy. by rewrite Hx. }
  unfold buildContext, consentToken. split.
  - intros h -> Hh. cbn. rewrite (Htruthy h Hh). by rewrite (Htruthy h Hh).
  - intros c Hh -> Hc.
    destruct (headers req !! "x-consent-token") as [h|]; cbn in *.
    + destruct (str_truthy h); [done|]. by rewrite (Htruthy c Hc).
    + by rewrite (Htruthy c Hc).
Qed.

(** *** privacyMiddleware *)

(** Whatever the outcome, the response carries the five security headers
    with their fixed values, every other header is as it was, and the
    middleware has not set a status or sent a body. *)
Theorem privacyMiddleware_security_headers (req : Request) (res : Response) :
  let res' := outcomeResponse (standard req res) in
  (∀ h v, (h, v) ∈ securityHeaders → resHeaders res' !! h = Some v)
  ∧ (∀ h, h ∉ securityHeaders.*1 → resHeaders res' !! h = resHeaders res !! h)
  ∧ statusCode res' = statusCode res ∧ sent res' = sent res.
Proof.
  assert (outcomeResponse (standard req res) = res_set securityHeaders res) as ->.
  { unfold privacyMiddleware.
    destruct (privacySteps _ _ _ _ req res) as [[[e r1] s1]|[r1 s1]] eqn:Hs; cbn.
    - revert Hs. unfold privacySteps.
      repeat (match goal with
              | |- context [match ?x with _ => _ end] => destruct x
              end; try done); intros ?; by simplify_eq.
    - by destruct (PrivacyFacts.steps_ok_inv _ _ _ _ _ _ _ _ Hs) as (_ & _ & _ & ->). }
  cbn. split; [|split; [|done]].
  - intros h v Hin. unfold securityHeaders in Hin.
    repeat (apply elem_of_cons in Hin as [[= -> ->]|Hin];
            [by simplify_map_eq|]).
    by apply elem_of_nil in Hin.
  - intros h Hh. cbn in Hh.
    repeat (apply not_elem_of_cons in Hh as [? Hh]).
    by simplify_map_eq.
Qed.

(** Without a body, or with both toggles off, the middleware calls
    [next()] with the body as it came, and the anonymizer plays no part. *)
Theorem privacyMiddleware_untouched_body (req : Request) (res : Response) :
  body req = None
  ∨ (env_flag env "DATA_MINIMIZATION_ENABLED" = false
     ∧ env_flag env "ANONYMIZATION_ENABLED" = false) →
  standard req res
  = Next (set_privacyContext (context req) req) (res_set securityHeaders res).
Proof.
  intros Hcase. unfold privacyMiddleware, privacySteps.
  destruct (PrivacyFacts.context_flags validateConsent env now req) as [-> ->].
  rewrite PrivacyFacts.body_set_privacyContext.
  destruct Hcase as [Hb|[-> ->]].
  - rewrite Hb. by rewrite PrivacyFacts.body_set_privacyContext, Hb.
  - destruct (body req) eqn:Hb;
      by rewrite PrivacyFacts.body_set_privacyContext, Hb.
Qed.

(** *** enhancedPrivacyMiddleware *)

(** The enhanced middleware answers a request itself only on a health or
    medical path whose context lacks valid consent, and then with 403;
    on every other path it does exactly what the standard one does. *)
Theorem enhanced_rejects_only_unconsented_health (req : Request) (res : Response) :
  (∀ req' res', enhanced req res = Responded req' res' →
     isHealthPath (path req) = true ∧ consentValid (context req) = false
     ∧ statusCode res' = Some 403
     ∧ (code <$> sent res') = Some "HEALTH_CONSENT_REQUIRED")
  ∧ (isHealthPath (path req) = false → enhanced req res = standard req res).
Proof.
  unfold enhancedPrivacyMiddleware, privacyMiddleware.
  destruct (privacySteps _ _ _ _ req res) as [[[e r1] s1]|[r1 s1]] eqn:Hs.
  - split; [done|done].
  - destruct (PrivacyFacts.steps_ok_inv _ _ _ _ _ _ _ _ Hs) as (Hp & Hc & _).
    rewrite Hp. unfold ctx_consentValid. rewrite Hc.
    destruct (isHealthPath (path req)); [|done].
    destruct (consentValid (context req)); cbn; [done|].
    split; [|done]. by intros req' res' [= <- <-].
Qed.

(** On a health or medical path with an accepted token and no error, the
    request goes on with the two health headers added. *)
Theorem enhanced_passes_consented_health (req : Request) (res : Response)
    (req' : Request) (res' : Response) :
  isHealthPath (path req) = true →
  standard req res = Next req' res' →
  consentValid (context req) = true →
  ∃ res'', enhanced req res = Next req' res''
           ∧ resHeaders res'' !! "X-Health-Data-Protected" = Some "true"
           ∧ resHeaders res'' !! "X-Data-Category" = Some "health"
           ∧ statusCode res'' = statusCode res ∧ sent res'' = sent res.
Proof.
  intros Hpath Hnext Hvalid.
  unfold privacyMiddleware in Hnext. unfold enhancedPrivacyMiddleware.
  destruct (privacySteps _ _ _ _ req res) as [[[e r1] s1]|[r1 s1]] eqn:Hs; [done|].
  injection Hnext as -> ->.
  destruct (PrivacyFacts.steps_ok_inv _ _ _ _ _ _ _ _ Hs) as (Hp & Hc & _ & ->).
  rewrite Hp, Hpath. unfold ctx_consentValid. rewrite Hc, Hvalid. cbn.
  eexists. split; [reflexivity|]. cbn. by simplify_map_eq.
Qed.

End Middleware.

Lemma enhanced_rejects_witness :
  (isHealthPath (path Scenario.healthRequest) = true
   ∧ consentValid (buildContext Scenario.acceptAll ∅ Scenario.clock
                     Scenario.healthRequest) = false
   ∧ statusCode (res_status_json 403 (healthConsentRequired Scenario.clock)
                   (res_set securityHeaders Scenario.emptyResponse)) = Some 403
   ∧ (code <$> sent (res_status_json 403 (healthConsentRequired Scenario.clock)
                       (res_set securityHeaders Scenario.emptyResponse)))
     = Some "HEALTH_CONSENT_REQUIRED")
  ∧ enhancedPrivacyMiddleware Scenario.acceptAll Scenario.keepBody ∅ Scenario.clock
      Scenario.adviceRequest Scenario.emptyResponse
    = privacyMiddleware Scenario.acceptAll Scenario.keepBody ∅ Scenario.clock
        Scenario.adviceRequest Scenario.emptyResponse.
Proof.
  split.
  - apply (proj1 (enhanced_rejects_only_unconsented_health Scenario.acceptAll
                    Scenario.keepBody ∅ Scenario.clock Scenario.healthRequest
                    Scenario.emptyResponse)
             (set_privacyContext
                (buildContext Scenario.acceptAll ∅ Scenario.clock
                   Scenario.healthRequest) Scenario.healthRequest)).
    reflexivity.
  - apply (proj2 (enhanced_rejects_only_unconsented_health Scenario.acceptAll
                    Scenario.keepBody ∅ Scenario.clock Scenario.adviceRequest
                    Scenario.emptyResponse)). reflexivity.
Defined.

Lemma privacyMiddleware_untouched_body_witness :
  privacyMiddleware Scenario.acceptAll Scenario.brokenAnonymizer ∅ Scenario.clock
    Scenario.adviceRequest Scenario.emptyResponse
  = Next (set_privacyContext
            (buildContext Scenario.acceptAll ∅ Scenario.clock Scenario.adviceRequest)
            Scenario.adviceRequest)
         (res_set securityHeaders Scenario.emptyResponse).
Proof.
  apply (privacyMiddleware_untouched_body Scenario.acceptAll
           Scenario.brokenAnonymizer ∅ Scenario.clock). right. split; reflexivity.
Defined.

Lemma consent_header_before_cookie_witness :
  consentValid (buildContext Scenario.acceptAll ∅ Scenario.clock
                  Scenario.consentingRequest) = Scenario.acceptAll "tok-1"
  ∧ consentValid (buildContext Scenario.acceptAll ∅ Scenario.clock
                    Scenario.cookieRequest) = Scenario.acceptAll "tok-2".
Proof.
  split.
  - apply (proj1 (consent_header_before_cookie Scenario.acceptAll ∅
                    Scenario.clock Scenario.consentingRequest));
      [reflexivity | discriminate].
  - apply (proj2 (consent_header_before_cookie Scenario.acceptAll ∅
                    Scenario.clock Scenario.cookieRequest));
      [reflexivity | reflexivity | discriminate].
Defined.

Lemma enhanced_passes_witness :
  ∃ res'',
    enhancedPrivacyMiddleware Scenario.acceptAll Scenario.keepBody ∅ Scenario.clock
      Scenario.consentingRequest Scenario.emptyResponse
    = Next (set_privacyContext
              (buildContext Scenario.acceptAll ∅ Scenario.clock
                 Scenario.consentingRequest)
              Scenario.consentingRequest) res''
    ∧ resHeaders res'' !! "X-Health-Data-Protected" = Some "true"
    ∧ resHeaders res'' !! "X-Data-Category" = Some "health"
    ∧ statusCode res'' = statusCode Scenario.emptyResponse
    ∧ sent res'' = sent Scenario.emptyResponse.
Proof.
  apply (enhanced_passes_consented_health Scenario.acceptAll Scenario.keepBody ∅
           Scenario.clock Scenario.consentingRequest Scenario.emptyResponse
           _ (res_set securityHeaders Scenario.emptyResponse)); reflexivity.
Defined.

(** *** consentValidationMiddleware and the router *)

Lemma filter_nil_iff {A : Type} (f : A → bool) (l : list A) :
  List.filter f l = [] ↔ ∀ x, x ∈ l → f x = false.
Proof.
  induction l as [|a l IH]; cbn.
  - split; [|done]. intros _ x Hx. by apply elem_of_nil in Hx.
  - destruct (f a) eqn:Ha.
    + split; [done|]. intros H. specialize (H a (list_elem_of_here _ _)).
      congruence.
    + rewrite IH. split.
      * intros H x Hx. apply elem_of_cons in Hx as [->|Hx]; auto.
      * intros H x Hx. apply H. by apply list_elem_of_further.
Qed.

Lemma getRequiredConsents_unmapped (p : string) :
  p ∉ consentMap.*1 → getRequiredConsents p = [].
Proof.
  intros Hp. unfold getRequiredConsents.
  destruct (list_find _ consentMap) as [[i [k cs]]|] eqn:Hf; [|done].
  apply list_find_Some in Hf as (Hi & Hk & _). cbn in Hk. subst k.
  exfalso. apply Hp. apply list_elem_of_fmap. exists (p, cs).
  split; [done|]. by eapply list_elem_of_lookup_2.
Qed.

Section Router.

Variable validateConsent : string → bool.
Variable anonymizeData : gmap string JsValue → string → Err + gmap string JsValue.
Variable env : gmap string string.
Variable now : string.
Variable handler : Request → Response → Response * nat.
Variable errorHandler : Err → Request → Response → Response.

Lemma consent_check_passes_iff (req : Request) (res : Response) :
  (∀ c, c ∈ getRequiredConsents (path req) → userConsentsInclude req c = true)
  ↔ consentValidationMiddleware now req res = Next req res.
Proof.
  assert (∀ l : list string, bool_decide (0 < length l)%nat = false ↔ l = []) as Hlen.
  { intros [|x l]; cbn; [done|]. split; [|done].
    intros H. apply bool_decide_eq_false_1 in H. lia. }
  unfold consentValidationMiddleware.
  set (required := getRequiredConsents (path req)).
  set (missing := List.filter (λ c, negb (userConsentsInclude req c)) required).
  assert (missing = [] ↔ ∀ c, c ∈ required → userConsentsInclude req c = true)
    as Hmissing.
  { unfold missing. rewrite filter_nil_iff. split; intros H c Hc.
    - specialize (H c Hc). by apply negb_false_iff in H.
    - apply negb_false_iff. by apply H. }
  rewrite <- Hmissing. split.
  - intros ->. by rewrite andb_false_r.
  - destruct (bool_decide (0 < length required)%nat) eqn:Hr;
      destruct (bool_decide (0 < length missing)%nat) eqn:Hm; cbn; try done.
    + intros _. by apply Hlen.
    + intros _. apply Hlen in Hr. unfold missing. by rewrite Hr.
    + intros _. by apply Hlen.
Qed.

(** The consent check lets a request through exactly when every consent
    its path requires occurs in the [x-user-consents] header; a path
    outside the consent map always passes; and a mapped path without the
    header is answered 403 [MISSING_CONSENTS] with all its required
    consents listed. *)
Theorem consentValidation_cases (req : Request) (res : Response) :
  ((∀ c, c ∈ getRequiredConsents (path req) → userConsentsInclude req c = true)
   ↔ consentValidationMiddleware now req res = Next req res)
  ∧ (path req ∉ consentMap.*1 → consentValidationMiddleware now req res = Next req res)
  ∧ (headers req !! "x-user-consents" = None →
     getRequiredConsents (path req) ≠ [] →
     consentValidationMiddleware now req res
     = Responded req
         (res_status_json 403
            {| error := "Missing required consents"; code := "MISSING_CONSENTS";
               missingConsents := getRequiredConsents (path req);
               errTimestamp := now |} res)).
Proof.
  split; [apply consent_check_passes_iff|].
  unfold consentValidationMiddleware.
  set (required := getRequiredConsents (path req)).
  set (missing := List.filter (λ c, negb (userConsentsInclude req c)) required).
  split.
  - intros Hp. unfold required. by rewrite (getRequiredConsents_unmapped _ Hp).
  - intros Hh Hreq.
    assert (∀ l, List.filter (λ c, negb (userConsentsInclude req c)) l = l)
      as Hall.
    { induction l as [|c l IH]; [done|]. cbn.
      unfold userConsentsInclude at 1. rewrite Hh. cbn. by rewrite IH. }
    unfold missing. rewrite Hall.
    destruct required as [|c l]; [done|]. done.
Qed.

(** The route handler of the chatbot router runs only on a request that
    passed both checks: it carries the context built for this request and
    the processed body; on a health or medical path its context has valid
    consent; and every consent its path requires is in the header.  In
    every other case the router makes no provider call. *)
Theorem chatbotRouter_guards_handler (req : Request) (res : Response) :
  (∃ req2 res2,
      chatbotRouter validateConsent anonymizeData env now handler errorHandler
        req res = handler req2 res2
      ∧ path req2 = path req
      ∧ privacyContext req2 = Some (buildContext validateConsent env now req)
      ∧ body req2 = processedBody anonymizeData env req
      ∧ (isHealthPath (path req) = true →
         consentValid (buildContext validateConsent env now req) = true)
      ∧ (∀ c, c ∈ getRequiredConsents (path req2) →
              userConsentsInclude req2 c = true))
  ∨ (chatbotRouter validateConsent anonymizeData env now handler errorHandler
       req res).2 = 0%nat.
Proof.
  unfold chatbotRouter, enhancedPrivacyMiddleware.
  destruct (privacySteps _ _ _ _ req res) as [[[e r1] s1]|[r1 s1]] eqn:Hs;
    [by right|].
  destruct (PrivacyFacts.steps_ok_inv _ _ _ _ _ _ _ _ Hs) as (Hp & Hc & Hb & _).
  assert (∀ s, (match consentValidationMiddleware now r1 s with
                | Next req2 res2 => handler req2 res2
                | NextErr e req2 res2 => (errorHandler e req2 res2, 0%nat)
                | Responded _ res2 => (res2, 0%nat)
                end).2 = 0%nat
               ∨ consentValidationMiddleware now r1 s = Next r1 s) as Hcv.
  { intros s. unfold consentValidationMiddleware.
    destruct (_ && _); [by left|by right]. }
  rewrite Hp. unfold ctx_consentValid. rewrite Hc.
  destruct (isHealthPath (path req)) eqn:Hhealth.
  - destruct (consentValid (buildContext validateConsent env now req)) eqn:Hv;
      cbn; [|by right].
    destruct (Hcv (res_set [("X-Health-Data-Protected", "true");
                            ("X-Data-Category", "health")] s1)) as [H0|Hn];
      [by right|].
    left. rewrite Hn. eexists _, _. split; [reflexivity|].
    repeat (split; [done|]).
    exact (proj2 (consent_check_passes_iff r1 _) Hn).
  - destruct (Hcv s1) as [H0|Hn]; [by right|].
    left. rewrite Hn. eexists _, _. split; [reflexivity|].
    repeat (split; [done|]).
    exact (proj2 (consent_check_passes_iff r1 _) Hn).
Qed.

End Router.

Lemma consentValidation_cases_witness :
  consentValidationMiddleware Scenario.clock Scenario.adviceRequest
    Scenario.emptyResponse
  = Next Scenario.adviceRequest Scenario.emptyResponse
  ∧ consentValidationMiddleware Scenario.clock Scenario.mappedRequest
      Scenario.emptyResponse
    = Responded Scenario.mappedRequest
        (res_status_json 403
           {| error := "Missing required consents"; code := "MISSING_CONSENTS";
              missingConsents := ["data_portability"];
              errTimestamp := Scenario.clock |} Scenario.emptyResponse).
Proof.
  split.
  - apply (proj1 (proj2 (consentValidation_cases Scenario.clock
                           Scenario.adviceRequest Scenario.emptyResponse))).
    compute_done.
  - apply (proj2 (proj2 (consentValidation_cases Scenario.clock
                           Scenario.mappedRequest Scenario.emptyResponse)));
      [reflexivity | discriminate].
Defined.

Lemma privacyMiddleware_security_headers_witness :
  resHeaders
    (outcomeResponse
       (privacyMiddleware Scenario.acceptAll Scenario.brokenAnonymizer
          Scenario.envAnonymize Scenario.clock Scenario.adviceRequest
          Scenario.emptyResponse)) !! "X-Frame-Options" = Some "DENY".
Proof.
  apply (proj1 (privacyMiddleware_security_headers Scenario.acceptAll
                  Scenario.brokenAnonymizer Scenario.envAnonymize Scenario.clock
                  Scenario.adviceRequest Scenario.emptyResponse)).
  compute_done.
Defined.

End PrivacyMore.

(** ** Further properties of the services *)

Module ServiceMore.

Import Chatbot.

(** *** Anonymization levels *)

(** A missing or empty level is treated as [medium]; any level other than
    [high] and [medium] returns the prompt as it is, without consulting
    the anonymizer. *)
Theorem anonymizePrompt_levels {P : Type} (ad : P → AnonOptions → Err + P) (x : P) :
  LocalLLM.anonymizePrompt ad x None = LocalLLM.anonymizePrompt ad x (Some "medium")
  ∧ LocalLLM.anonymizePrompt ad x (Some "")
    = LocalLLM.anonymizePrompt ad x (Some "medium")
  ∧ (∀ level, level ≠ "" → level ≠ "high" → level ≠ "medium" →
       LocalLLM.anonymizePrompt ad x (Some level) = x).
Proof.
  split; [reflexivity|]. split; [reflexivity|].
  intros level Hempty Hhigh Hmedium. unfold LocalLLM.anonymizePrompt.
  assert (LocalLLM.levelOf (Some level) = level) as ->.
  { unfold LocalLLM.levelOf, str_or, str_truthy.
    apply String.eqb_neq in Hempty. by rewrite Hempty. }
  apply String.eqb_neq in Hhigh, Hmedium. by rewrite Hhigh, Hmedium.
Qed.

Lemma anonymizePrompt_levels_witness :
  LocalLLM.anonymizePrompt Scenario.brokenPromptAnonymizer "Me llamo Ana"
    (Some "HIGH") = "Me llamo Ana".
Proof.
  apply (anonymizePrompt_levels Scenario.brokenPromptAnonymizer "Me llamo Ana");
    discriminate.
Defined.

(** The context the privacy middleware builds sets neither
    [anonymizationLevel] nor [includeHealthData]: with it, prompts are
    always anonymized at [medium], and [getAssessment] never returns the
    raw health data. *)
Theorem middleware_context_defaults
    (validateConsent : string → bool) (env : gmap string string) (now : string)
    (req : Privacy.Request) :
  let pc := Privacy.buildContext validateConsent env now req in
  (∀ (ad : string → AnonOptions → Err + string) (x : string),
     LocalLLM.anonymizePrompt ad x (anonymizationLevel pc)
     = match ad x LocalLLM.mediumOptions with inr y => y | inl _ => x end)
  ∧ (∀ uid aid st v, getAssessment uid aid pc st = inr v → viewHealthData v = None).
Proof.
  intros pc.
  assert (anonymizationLevel pc = None ∧ includeHealthData pc = false) as [Hl Hh].
  { unfold pc, Privacy.buildContext.
    destruct (Privacy.consentToken req) as [tok|]; [|done].
    by destruct (str_truthy tok). }
  split.
  - intros ad x. by rewrite Hl.
  - intros uid aid st v. unfold getAssessment.
    destruct (findOne st aid uid); [|done]. rewrite Hh. by intros [= <-].
Qed.

Lemma middleware_context_defaults_witness :
  ∃ v, getAssessment "user-1" "a-1"
         (Privacy.buildContext Scenario.acceptAll ∅ Scenario.clock
            Scenario.consentingRequest) (Scenario.tableAfter 0) = inr v
       ∧ viewHealthData v = None.
Proof.
  eexists. split; [vm_compute; reflexivity|].
  eapply (proj2 (middleware_context_defaults Scenario.acceptAll ∅ Scenario.clock
                   Scenario.consentingRequest) "user-1" "a-1"
            (Scenario.tableAfter 0)).
  vm_compute. reflexivity.
Defined.

(** *** The rule-based responder behind the service *)

Lemma system_prompt_has_keyword (context : LLMContext) (tail : string) :
  includes "nutrición" (toLowerCase (getSystemPrompt context +:+ tail)) = true.
Proof. vm_compute. reflexivity. Qed.

(** Every prompt that starts with the service's system prompt contains
    the keyword [nutrición]: the rule-based responder never falls to its
    generic acknowledgement and answers with the text of one of the first
    two entries of its table, the greeting or the nutrition text, whatever
    the rest of the prompt asks. *)
Lemma service_prompt_fallback (context : LLMContext) (tail : string) :
  let r := LocalLLM.getFallbackResponse (getSystemPrompt context +:+ tail) in
  model r = "fallback-rule-based"
  ∧ (LocalLLM.fallbackResponses !! 0%nat = Some ("hola", response r)
     ∨ LocalLLM.fallbackResponses !! 1%nat = Some ("nutrición", response r)).
Proof.
  pose proof (system_prompt_has_keyword context tail) as Hkw.
  pose proof (LocalLLMFacts.getFallbackResponse_cases
                (getSystemPrompt context +:+ tail)) as Hcases.
  cbn zeta in *.
  remember (LocalLLM.getFallbackResponse (getSystemPrompt context +:+ tail)) as r
    eqn:Hr.
  clear Hr.
  destruct Hcases as (_ & _ & [(_ & _ & Hnone)|(Hm & i & key & Hi & _ & Hfirst)]).
  - exfalso.
    exact (proj1 (Forall_lookup _ _) Hnone 1%nat _ eq_refl Hkw).
  - split; [exact Hm|].
    destruct i as [|[|i]].
    + left. rewrite Hi. f_equal. f_equal. cbn in Hi. congruence.
    + right. rewrite Hi. f_equal. f_equal. cbn in Hi. congruence.
    + exfalso. apply (Hfirst 1%nat _ eq_refl); [lia|exact Hkw].
Qed.

(** *** Which configurations can generate *)

Section Generation.

Variable stringify : JsValue → string.
Variable anonymizeData : string → AnonOptions → Err + string.
Variable anonymizeText : string → string → Err + string.
Variable anonymizeObject : JsValue → string → Err + JsValue.
Variable axios_post : string → LocalLLM.GenerateRequest → Err + option LocalLLM.GenerateData.
Variable openai_create : ChatRequest → Err + ChatReply.
Variable now : string.

Local Abbreviation generate :=
  (generateLLMResponse anonymizeData anonymizeText axios_post openai_create).

(** A service built by the constructor uses the local provider exactly
    when [USE_LOCAL_LLM] is ['true'] or no OpenAI key is set, and it is
    exactly then that generation returns a response: with OpenAI in use
    every call of [generateLLMResponse] throws, whatever the OpenAI client
    would answer. *)
Theorem generation_iff_local (env : gmap string string) (prompt : string)
    (context : LLMContext) (pc : PrivacyContext) :
  (useLocalLLM (new env) = true
   ↔ env !! "USE_LOCAL_LLM" = Some "true" ∨ env !! "OPENAI_API_KEY" = None
     ∨ env !! "OPENAI_API_KEY" = Some "")
  ∧ ((∃ r, generate (new env) prompt context pc = inr r)
     ↔ useLocalLLM (new env) = true).
Proof.
  split.
  - unfold new, env_flag.
    destruct (decide (env !! "USE_LOCAL_LLM" = Some "true")) as [Hflag|Hflag].
    + rewrite (bool_decide_eq_true_2 _ Hflag). cbn. split; auto.
    + rewrite (bool_decide_eq_false_2 _ Hflag). cbn.
      destruct (env !! "OPENAI_API_KEY") as [k|] eqn:Hk; cbn; [|split; auto].
      unfold str_truthy. destruct (String.eqb k "") eqn:Hempty; cbn.
      * apply String.eqb_eq in Hempty as ->. split; auto.
      * apply String.eqb_neq in Hempty. split; [done|].
        intros [?|[?|[= ?]]]; done.
  - destruct (ChatbotFacts.new_local_iff env) as [[Hu Hl]|[Hu Hl]].
    + split; [done|]. intros _. eexists.
      by apply ChatbotFacts.generate_local.
    + rewrite Hu. split; [|done]. intros [r Hr].
      destruct (ChatbotFacts.generate_without_local anonymizeData anonymizeText
                  axios_post openai_create (new env) prompt context pc Hl)
        as [e He].
      congruence.
Qed.

(** With OpenAI in use, every operation of the service that generates
    text fails with its own generic error. *)
Theorem openai_service_operations_fail (env : gmap string string)
    (pc : PrivacyContext) :
  useLocalLLM (new env) = false →
  (∀ query context,
     getPersonalizedAdvice anonymizeData anonymizeText axios_post openai_create
       (new env) query context pc = inl "Failed to generate personalized advice")
  ∧ (∀ duration preferences restrictions,
       generateMealPlan anonymizeData anonymizeText axios_post openai_create
         (new env) duration preferences restrictions pc
       = inl "Failed to generate meal plan")
  ∧ (∀ metrics date,
       trackProgress stringify anonymizeData anonymizeText axios_post openai_create
         (new env) metrics date pc = inl "Failed to track progress")
  ∧ (∀ newId uid hd st,
       (startHealthAssessment stringify anonymizeData anonymizeText anonymizeObject
          axios_post openai_create now (new env) newId uid hd pc st).1
       = inl "Failed to start health assessment")
  ∧ (∀ uid aid qid ans conf st,
       processAnswer stringify anonymizeData anonymizeText axios_post
         openai_create now (new env) uid aid qid ans conf pc st
       = (inl "Failed to process answer", st)).
Proof.
  intros Hu.
  assert (localLLM (new env) = None) as Hl.
  { destruct (ChatbotFacts.new_local_iff env) as [[? _]|[_ ?]]; [congruence|done]. }
  pose proof (ChatbotFacts.generate_without_local anonymizeData anonymizeText
                axios_post openai_create (new env)) as Hfail.
  split; [|split; [|split; [|split]]].
  - intros query context. unfold getPersonalizedAdvice.
    by destruct (Hfail (buildAdvicePrompt query context "") context pc Hl) as [e ->].
  - intros d p r. unfold generateMealPlan.
    by destruct (Hfail (buildMealPlanPrompt
                          (JObj [("duration", d); ("preferences", p);
                                 ("restrictions", r)])
                          JUndefined JUndefined JUndefined)
                   emptyContext pc Hl) as [e ->].
  - intros metrics date. unfold trackProgress.
    by destruct (Hfail (buildInsightsPrompt stringify metrics date)
                   emptyContext pc Hl) as [e ->].
  - intros newId uid hd st. unfold startHealthAssessment.
    destruct (if anonymization pc then _ else _) as [e|an]; [done|].
    destruct (create _ st) as [e|st1]; [done|].
    unfold generateAssessmentQuestion.
    by destruct (Hfail (buildQuestionPrompt stringify 1 an [])
                   emptyContext pc Hl) as [e ->].
  - intros uid aid qid ans conf st. unfold processAnswer.
    destruct (findOne st aid uid) as [a|]; [|done].
    destruct (_ >=? _).
    + unfold generateFinalRecommendations.
      by destruct (Hfail (buildRecommendationsPrompt stringify (healthData a)
                            (pushAnswer now a qid ans conf))
                     emptyContext pc Hl) as [e ->].
    + unfold generateAssessmentQuestion.
      by destruct (Hfail (buildQuestionPrompt stringify
                            (Z.of_nat (length (pushAnswer now a qid ans conf)) + 1)
                            (healthData a) (pushAnswer now a qid ans conf))
                     emptyContext pc Hl) as [e ->].
Qed.

Variable svc : Service.
Variable l : LocalLLM.Service.
Hypothesis local_in_use : useLocalLLM svc = true.
Hypothesis local_service : localLLM svc = Some l.
Hypothesis endpoint_down : ∀ url rq, ∃ e, axios_post url rq = inl e.

Lemma generate_during_outage (prompt : string) (context : LLMContext)
    (pc : PrivacyContext) :
  generate svc prompt context pc = inr (LocalLLM.getFallbackResponse prompt).
Proof.
  rewrite (ChatbotFacts.generate_local _ _ _ _ _ l) by done.
  unfold LocalLLM.generateResponse.
  by destruct (endpoint_down (LocalLLM.baseURL l +:+ "/api/generate")
                 {| LocalLLM.reqModel := LocalLLM.modelName l;
                    LocalLLM.reqPrompt :=
                      LocalLLM.buildSystemPrompt context +:+
                      LocalLLM.anonymizePrompt anonymizeData prompt
                        (anonymizationLevel pc);
                    LocalLLM.reqStream := false |}) as [e ->].
Qed.

(** While the local endpoint is down, what the service hands out as
    advice, as the next assessment question and as the final
    recommendations is always the canned greeting or the canned nutrition
    text: the keyword match is made on the whole prompt, which begins with
    the system prompt. *)
Theorem outage_replies_are_canned (pc : PrivacyContext) :
  let canned (text : string) :=
    LocalLLM.fallbackResponses !! 0%nat = Some ("hola", text)
    ∨ LocalLLM.fallbackResponses !! 1%nat = Some ("nutrición", text) in
  (∀ query context,
     ∃ a, getPersonalizedAdvice anonymizeData anonymizeText axios_post
            openai_create svc query context pc = inr a
          ∧ adviceModel a = "fallback-rule-based" ∧ canned (advice a))
  ∧ (∀ n hd previous,
       ∃ q, generateAssessmentQuestion stringify anonymizeData anonymizeText
              axios_post openai_create svc n hd previous pc = inr q
            ∧ canned q)
  ∧ (∀ hd ans,
       ∃ recs, generateFinalRecommendations stringify anonymizeData anonymizeText
                 axios_post openai_create svc hd ans pc = inr recs
               ∧ canned recs).
Proof.
  intros canned. split; [|split].
  - intros query context. unfold getPersonalizedAdvice.
    rewrite generate_during_outage. eexists. split; [reflexivity|].
    exact (service_prompt_fallback context _).
  - intros n hd previous. unfold generateAssessmentQuestion.
    rewrite generate_during_outage. eexists. split; [reflexivity|].
    exact (proj2 (service_prompt_fallback emptyContext _)).
  - intros hd ans. unfold generateFinalRecommendations.
    rewrite generate_during_outage. eexists. split; [reflexivity|].
    exact (proj2 (service_prompt_fallback emptyContext _)).
Qed.

End Generation.

(** [generateMealPlan] hands its three inputs to the prompt builder in one
    object, which the builder does not read: whatever the provider and
    whatever it answers, the result is the same for every request, and the
    prompt asks for [undefined] days with nothing specified.  While the
    local provider is in use with its endpoint down, the meal plan is
    therefore always the canned nutrition text. *)
Theorem mealPlan_ignores_request
    (anonymizeData : string → AnonOptions → Err + string)
    (anonymizeText : string → string → Err + string)
    (axios_post : string → LocalLLM.GenerateRequest → Err + option LocalLLM.GenerateData)
    (openai_create : ChatRequest → Err + ChatReply)
    (svc : Service)
    (duration preferences restrictions : JsValue) (pc : PrivacyContext) :
  (∀ duration' preferences' restrictions' : JsValue,
     generateMealPlan anonymizeData anonymizeText axios_post openai_create svc
       duration preferences restrictions pc
     = generateMealPlan anonymizeData anonymizeText axios_post openai_create svc
         duration' preferences' restrictions' pc)
  ∧ includes "DURACIÓN: undefined días
PREFERENCIAS: Ninguna especificada
RESTRICCIONES: Ninguna especificada"
      (buildMealPlanPrompt
         (JObj [("duration", duration); ("preferences", preferences);
                ("restrictions", restrictions)])
         JUndefined JUndefined JUndefined) = true
  ∧ ∀ l : LocalLLM.Service,
      useLocalLLM svc = true →
      localLLM svc = Some l →
      (∀ url rq, ∃ e, axios_post url rq = inl e) →
      generateMealPlan anonymizeData anonymizeText axios_post openai_create svc
        duration preferences restrictions pc
      = inr {| mealPlan := "Puedo ayudarte con consejos nutricionales, planes de comidas y evaluaciones de salud. ¿Qué te interesa específicamente?";
               mealPlanModel := "fallback-rule-based";
               mealPlanPrivacyCompliant := true;
               mealPlanProcessingTime := 0 |}.
Proof.
  split; [intros d p r; reflexivity|]. split; [by vm_compute|].
  intros l Hu Hl Hdown. unfold generateMealPlan.
  rewrite (generate_during_outage anonymizeData anonymizeText axios_post
             openai_create svc l Hu Hl Hdown).
  vm_compute. reflexivity.
Qed.

Lemma openai_service_operations_fail_witness :
  getPersonalizedAdvice Scenario.keepPrompt Scenario.keepText Scenario.ollamaDown
    Scenario.openaiUp Scenario.openaiService "hola" emptyContext Scenario.context0
  = inl "Failed to generate personalized advice".
Proof.
  apply (openai_service_operations_fail Scenario.noStringify Scenario.keepPrompt
           Scenario.keepText Scenario.keepObject Scenario.ollamaDown
           Scenario.openaiUp Scenario.clock {[ "OPENAI_API_KEY" := "sk-test" ]}
           Scenario.context0).
  reflexivity.
Defined.

Lemma outage_replies_are_canned_witness :
  ∃ q, generateAssessmentQuestion Scenario.noStringify Scenario.keepPrompt
         Scenario.keepText Scenario.ollamaDown Scenario.openaiDown
         Scenario.localService 1 Scenario.profile [] Scenario.context0 = inr q
       ∧ (LocalLLM.fallbackResponses !! 0%nat = Some ("hola", q)
          ∨ LocalLLM.fallbackResponses !! 1%nat = Some ("nutrición", q)).
Proof.
  apply (outage_replies_are_canned Scenario.noStringify Scenario.keepPrompt
           Scenario.keepText Scenario.ollamaDown Scenario.openaiDown
           Scenario.localService (LocalLLM.new ∅)).
  - reflexivity.
  - reflexivity.
  - intros url rq. exists "ECONNREFUSED". reflexivity.
Defined.

Lemma mealPlan_ignores_request_witness :
  generateMealPlan Scenario.keepPrompt Scenario.keepText Scenario.ollamaEcho
    Scenario.openaiDown Scenario.localService (JStr "7_days") JNull (JArr [])
    Scenario.context0
  = generateMealPlan Scenario.keepPrompt Scenario.keepText Scenario.ollamaEcho
      Scenario.openaiDown Scenario.localService (JStr "30_days") (JStr "vegano")
      (JArr [JStr "gluten"]) Scenario.context0
  ∧ generateMealPlan Scenario.keepPrompt Scenario.keepText Scenario.ollamaDown
      Scenario.openaiDown Scenario.localService (JStr "7_days") JNull (JArr [])
      Scenario.context0
    = inr {| mealPlan := "Puedo ayudarte con consejos nutricionales, planes de comidas y evaluaciones de salud. ¿Qué te interesa específicamente?";
             mealPlanModel := "fallback-rule-based";
             mealPlanPrivacyCompliant := true;
             mealPlanProcessingTime := 0 |}.
Proof.
  split.
  - exact (proj1 (mealPlan_ignores_request Scenario.keepPrompt Scenario.keepText
                    Scenario.ollamaEcho Scenario.openaiDown Scenario.localService
                    (JStr "7_days") JNull (JArr []) Scenario.context0)
             (JStr "30_days") (JStr "vegano") (JArr [JStr "gluten"])).
  - refine (proj2 (proj2 (mealPlan_ignores_request Scenario.keepPrompt
                            Scenario.keepText Scenario.ollamaDown
                            Scenario.openaiDown Scenario.localService
                            (JStr "7_days") JNull (JArr []) Scenario.context0))
              (LocalLLM.new ∅) eq_refl eq_refl _).
    intros url rq. exists "ECONNREFUSED". reflexivity.
Defined.

(** *** The health check *)

(** The health check and the ability to answer are independent of each
    other.  With OpenAI in use and its model listing reachable, the check
    reports [healthy] although every generation fails; with the local
    provider in use and its endpoint unreachable, the check reports
    [unavailable] (with [fallbackAvailable]) although every generation
    succeeds through the rule-based responder. *)
Theorem health_check_vs_generation
    (anonymizeData : string → AnonOptions → Err + string)
    (anonymizeText : string → string → Err + string)
    (axios_post : string → LocalLLM.GenerateRequest → Err + option LocalLLM.GenerateData)
    (openai_create : ChatRequest → Err + ChatReply)
    (axios_get : string → Err + LocalLLM.TagsData)
    (openai_models_list : unit → Err + unit)
    (env : gmap string string) :
  let health := healthCheck (new env) axios_get openai_models_list in
  let generate :=
    generateLLMResponse anonymizeData anonymizeText axios_post openai_create
      (new env) in
  (useLocalLLM (new env) = false → openai_models_list tt = inr tt →
   LocalLLM.healthStatus health = "healthy" ∧ LocalLLM.available health = true
   ∧ ∀ prompt context pc, ∃ e, generate prompt context pc = inl e)
  ∧ (useLocalLLM (new env) = true → (∀ url, ∃ e, axios_get url = inl e) →
     LocalLLM.healthStatus health = "unavailable"
     ∧ LocalLLM.available health = false
     ∧ LocalLLM.fallbackAvailable health = Some true
     ∧ ∀ prompt context pc,
         ∃ r, generate prompt context pc = inr r ∧ success r = true).
Proof.
  intros health generate. subst health generate. unfold healthCheck.
  destruct (ChatbotFacts.new_local_iff env) as [[Hu Hl]|[Hu Hl]]; rewrite Hu, ?Hl.
  - split; [done|]. intros _ Hdown. unfold LocalLLM.healthCheck.
    destruct (Hdown (LocalLLM.baseURL (LocalLLM.new env) +:+ "/api/tags"))
      as [e ->].
    repeat (split; [done|]). intros prompt context pc. eexists.
    split; [by apply ChatbotFacts.generate_local|].
    apply LocalLLMFacts.generateResponse_succeeds.
  - split; [|done]. intros _ ->. repeat (split; [done|]).
    intros prompt context pc. by apply ChatbotFacts.generate_without_local.
Qed.

Lemma health_check_vs_generation_witness :
  LocalLLM.healthStatus
    (healthCheck Scenario.openaiService (λ _, inl "ECONNREFUSED") (λ _, inr tt))
  = "healthy"
  ∧ LocalLLM.healthStatus
      (healthCheck Scenario.localService (λ _, inl "ECONNREFUSED") (λ _, inr tt))
    = "unavailable".
Proof.
  split.
  - apply (proj1 (health_check_vs_generation Scenario.keepPrompt Scenario.keepText
                    Scenario.ollamaDown Scenario.openaiDown
                    (λ _, inl "ECONNREFUSED") (λ _, inr tt)
                    {[ "OPENAI_API_KEY" := "sk-test" ]})); reflexivity.
  - apply (proj2 (health_check_vs_generation Scenario.keepPrompt Scenario.keepText
                    Scenario.ollamaDown Scenario.openaiDown
                    (λ _, inl "ECONNREFUSED") (λ _, inr tt) ∅));
      [reflexivity|]. intros url. by exists "ECONNREFUSED".
Defined.

(** *** The assessment table *)

Lemma roundPercent_monotone (n m : Z) :
  n ≤ m → roundPercent n 15 ≤ roundPercent m 15.
Proof. intros H. unfold roundPercent. apply Z.div_le_mono; lia. Qed.

Section Assessments.

Variable stringify : JsValue → string.
Variable anonymizeData : string → AnonOptions → Err + string.
Variable anonymizeText : string → string → Err + string.
Variable anonymizeObject : JsValue → string → Err + JsValue.
Variable axios_post : string → LocalLLM.GenerateRequest → Err + option LocalLLM.GenerateData.
Variable openai_create : ChatRequest → Err + ChatReply.
Variable now : string.
Variable svc : Service.

Local Abbreviation startStep :=
  (startHealthAssessment stringify anonymizeData anonymizeText anonymizeObject
     axios_post openai_create now svc).
Local Abbreviation answerStep :=
  (processAnswer stringify anonymizeData anonymizeText axios_post openai_create
     now svc).
Local Abbreviation question :=
  (generateAssessmentQuestion stringify anonymizeData anonymizeText axios_post
     openai_create svc).

Lemma answer_err_inv (uid aid qid ans : string) (conf : JsValue)
    (pc : PrivacyContext) (st : Store) (e : Err) (st' : Store) :
  answerStep uid aid qid ans conf pc st = (inl e, st') →
  e = "Failed to process answer" ∧ st' = st.
Proof.
  unfold processAnswer.
  destruct (findOne st aid uid) as [a|]; [|by intros [= <- <-]].
  destruct (_ >=? _).
  - destruct (generateFinalRecommendations _ _ _ _ _ _ _ _ _);
      [by intros [= <- <-]|done].
  - destruct (generateAssessmentQuestion _ _ _ _ _ _ _ _ _ _);
      [by intros [= <- <-]|done].
Qed.

(** **** startHealthAssessment *)

(** The row is created before the first question is generated and is not
    removed when that generation fails: the call reports a failure, yet
    the table now holds a new assessment in progress, without a question. *)
Theorem start_failure_leaves_row (newId uid : string) (hd anonymized : JsValue)
    (pc : PrivacyContext) (st : Store) (e : Err) :
  (if anonymization pc then anonymizeObject hd "health_assessment" else inr hd)
    = inr anonymized →
  st !! newId = None →
  question 1 anonymized [] pc = inl e →
  startStep newId uid hd pc st
  = (inl "Failed to start health assessment",
     <[newId :=
         {| id := newId; userId := uid; status := in_progress;
            healthData := hd; anonymizedData := anonymized;
            progress := 0; currentQuestion := JNum 1; totalQuestions := 15;
            answers := None; recommendations := None; nextQuestion := None;
            createdAt := now; updatedAt := now; completedAt := None |}]> st).
Proof.
  intros Han Hfresh Hq. unfold startHealthAssessment, create.
  rewrite Han. cbn [id]. by rewrite Hfresh, Hq.
Qed.

Lemma start_frame (newId uid : string) (hd : JsValue) (pc : PrivacyContext)
    (st : Store) (k : string) :
  is_Some (st !! k) → (startStep newId uid hd pc st).2 !! k = st !! k.
Proof.
  unfold startHealthAssessment, create.
  destruct (if anonymization pc then _ else _) as [e|an]; [done|].
  cbn [id]. destruct (st !! newId) as [a|] eqn:Hfresh; [done|].
  intros Hk.
  assert (k ≠ newId) as Hne by (intros ->; rewrite Hfresh in Hk; by destruct Hk).
  destruct (generateAssessmentQuestion _ _ _ _ _ _ _ _ _ _) as [e|q]; cbn.
  - by rewrite lookup_insert_ne.
  - unfold save. cbn. by rewrite !lookup_insert_ne.
Qed.

(** Starting an assessment never alters a row that is already there; in
    particular, with an id that is taken the call fails and the table is
    unchanged. *)
Theorem start_keeps_existing_rows (newId uid : string) (hd : JsValue)
    (pc : PrivacyContext) (st : Store) :
  (∀ k, is_Some (st !! k) → (startStep newId uid hd pc st).2 !! k = st !! k)
  ∧ (is_Some (st !! newId) →
     startStep newId uid hd pc st = (inl "Failed to start health assessment", st)).
Proof.
  split; [intros k; apply start_frame|].
  unfold startHealthAssessment, create.
  destruct (if anonymization pc then _ else _) as [e|an]; [done|].
  cbn [id]. destruct (st !! newId) as [a|] eqn:Hfresh; [done|].
  by intros [? ?].
Qed.

(** **** processAnswer *)

Lemma answer_frame (uid aid qid ans : string) (conf : JsValue)
    (pc : PrivacyContext) (st : Store) (k : string) :
  keyed st → k ≠ aid →
  (answerStep uid aid qid ans conf pc st).2 !! k = st !! k.
Proof.
  intros Hkeyed Hne.
  destruct (answerStep uid aid qid ans conf pc st) as [[e|r] st'] eqn:Hstep.
  - by apply answer_err_inv in Hstep as [_ ->].
  - apply ChatbotFacts.answer_ok_inv in Hstep as (a & Hf & Hcases).
    apply ChatbotFacts.findOne_Some in Hf. pose proof (Hkeyed _ _ Hf) as Hid.
    cbn zeta in Hcases.
    destruct Hcases as [(_ & recs & _ & -> & _)|(_ & q & -> & _)];
      unfold save; cbn [id updateCompleted updateInProgress snd];
      rewrite Hid; by rewrite lookup_insert_ne.
Qed.

(** An answer touches the row of its own assessment only. *)
Theorem processAnswer_frame (uid aid qid ans : string) (conf : JsValue)
    (pc : PrivacyContext) (st : Store) (k : string) :
  keyed st → k ≠ aid →
  (answerStep uid aid qid ans conf pc st).2 !! k = st !! k.
Proof. exact (answer_frame uid aid qid ans conf pc st k). Qed.

(** A caller who is not the owner of an assessment can neither answer,
    read nor delete it: each call fails and the table stays as it is. *)
Theorem other_users_are_locked_out (uid aid qid ans : string) (conf : JsValue)
    (pc : PrivacyContext) (st : Store) (a : Assessment) :
  st !! aid = Some a → userId a ≠ uid →
  answerStep uid aid qid ans conf pc st = (inl "Failed to process answer", st)
  ∧ getAssessment uid aid pc st = inl "Failed to retrieve assessment"
  ∧ deleteAssessment uid aid st = (inl "Failed to delete assessment", st).
Proof.
  intros Ha Hother.
  assert (findOne st aid uid = None) as Hf.
  { unfold findOne. rewrite Ha. apply String.eqb_neq in Hother. by rewrite Hother. }
  split; [|split].
  - by apply ChatbotFacts.processAnswer_unmatched.
  - by apply ChatbotFacts.getAssessment_unmatched.
  - by apply ChatbotFacts.deleteAssessment_unmatched.
Qed.

(** What a successful answer returns is what a read of the assessment
    then shows: same status and progress, the recommendations when the
    answer returned some, and the answers as they were with the new one
    at the end. *)
Theorem answer_then_read (uid aid qid ans : string) (conf : JsValue)
    (pc pc' : PrivacyContext) (st : Store) (a : Assessment)
    (r : AnswerResult) (st' : Store) :
  keyed st → st !! aid = Some a →
  answerStep uid aid qid ans conf pc st = (inr r, st') →
  ∃ v, getAssessment uid aid pc' st' = inr v
       ∧ viewStatus v = resStatus r
       ∧ viewProgress v = resProgress r
       ∧ (resRecommendations r ≠ None →
          viewRecommendations v = resRecommendations r)
       ∧ viewAnswers v
         = (default [] (answers a) ++
            [{| questionId := qid; answer := ans; confidence := conf;
                answeredAt := now |}])%list.
Proof.
  intros Hkeyed Ha Hstep.
  apply ChatbotFacts.answer_ok_inv in Hstep as (a0 & Hf & Hcases).
  assert (String.eqb (userId a0) uid = true) as Hu.
  { revert Hf. unfold findOne. destruct (st !! aid) as [b|]; [|done].
    destruct (String.eqb (userId b) uid) eqn:Hb; [|done]. by intros [= <-]. }
  apply ChatbotFacts.findOne_Some in Hf. rewrite Ha in Hf. injection Hf as <-.
  pose proof (Hkeyed _ _ Ha) as Hid. cbn zeta in Hcases.
  destruct Hcases as [(_ & recs & _ & -> & Hs & Hp & Hr)|(_ & q & -> & Hs & Hp & Hr)];
    unfold getAssessment, findOne, save;
    cbn [id updateCompleted updateInProgress]; rewrite Hid, lookup_insert_eq;
    cbn [userId updateCompleted updateInProgress]; rewrite Hu;
    eexists; (split; [reflexivity|]); cbn; by rewrite Hs, Hp, ?Hr.
Qed.

(** **** deleteAssessment *)

(** A successful delete removes exactly the row asked for; the owner can
    then no longer read it, and every other row is as before. *)
Theorem delete_removes_exactly (uid aid : string) (pc : PrivacyContext)
    (st : Store) (a : Assessment) :
  keyed st → findOne st aid uid = Some a →
  deleteAssessment uid aid st
  = (inr {| deleteSuccess := true;
            deleteMessage := "Assessment permanently deleted" |}, delete aid st)
  ∧ getAssessment uid aid pc (delete aid st) = inl "Failed to retrieve assessment"
  ∧ (∀ k, k ≠ aid → delete aid st !! k = st !! k)
  ∧ size st = S (size (delete aid st)).
Proof.
  intros Hkeyed Hf. pose proof (ChatbotFacts.findOne_Some _ _ _ _ Hf) as Ha.
  pose proof (Hkeyed _ _ Ha) as Hid.
  split; [|split; [|split]].
  - unfold deleteAssessment, destroy. by rewrite Hf, Hid.
  - unfold getAssessment, findOne. by rewrite lookup_delete_eq.
  - intros k Hk. by rewrite lookup_delete_ne.
  - rewrite <- (insert_delete_id st aid a Ha) at 1.
    rewrite map_size_insert_None; [done|]. by rewrite lookup_delete_eq.
Qed.

(** **** Preservation of the outcome invariant *)

Lemma start_preserves_outcome (newId uid : string) (hd : JsValue)
    (pc : PrivacyContext) (st : Store) :
  map_Forall (λ _ a, outcomeInvariant a) st →
  map_Forall (λ _ a, outcomeInvariant a) (startStep newId uid hd pc st).2.
Proof.
  intros Hinv. unfold startHealthAssessment, create.
  destruct (if anonymization pc then _ else _) as [e|an]; [done|].
  cbn [id]. destruct (st !! newId); [done|].
  destruct (generateAssessmentQuestion _ _ _ _ _ _ _ _ _ _) as [e|q]; cbn [snd].
  - apply map_Forall_insert_2; [|done]. by left.
  - unfold save. apply map_Forall_insert_2; [by left|].
    apply map_Forall_insert_2; [by left|done].
Qed.

Lemma answer_preserves_outcome (uid aid qid ans : string) (conf : JsValue)
    (pc : PrivacyContext) (st : Store) :
  map_Forall (λ _ a, outcomeInvariant a) st →
  map_Forall (λ _ a, outcomeInvariant a) (answerStep uid aid qid ans conf pc st).2.
Proof.
  intros Hinv.
  destruct (answerStep uid aid qid ans conf pc st) as [[e|r] st'] eqn:Hstep.
  - by apply answer_err_inv in Hstep as [_ ->].
  - apply ChatbotFacts.answer_ok_inv in Hstep as (a & Hf & Hcases).
    apply ChatbotFacts.findOne_Some in Hf. pose proof (Hinv _ _ Hf) as Ha.
    cbn in Ha. cbn zeta in Hcases.
    destruct Hcases as [(_ & recs & Hrecs & -> & _)|(_ & q & -> & _)];
      cbn [snd]; unfold save; (apply map_Forall_insert_2; [|done]).
    + right. cbn. split; [done|]. split; [by exists recs|]. split; by eexists.
    + destruct Ha as [(? & ? & ?)|(? & ? & ? & _)]; [by left|].
      right. cbn. split; [done|]. split; [done|]. split; [done|by eexists].
Qed.

(** Each call, run on its own, keeps status, recommendations and
    completion date in step.  From a table in which every row is either in
    progress with neither recommendations nor completion date, or
    completed with both, one call of [startHealthAssessment],
    [processAnswer] or [deleteAssessment], returning or throwing, leaves
    such a table again: every row has recommendations exactly when it is
    completed, a completion date exactly when it is completed, and never
    the empty text as recommendations. *)
Theorem recommendations_iff_completed (st st' : Store) :
  map_Forall (λ _ a, outcomeInvariant a) st →
  (∃ newId uid hd pc, st' = (startStep newId uid hd pc st).2)
  ∨ (∃ uid aid qid ans conf pc, st' = (answerStep uid aid qid ans conf pc st).2)
  ∨ (∃ uid aid, st' = (deleteAssessment uid aid st).2) →
  map_Forall (λ _ a, outcomeInvariant a) st'
  ∧ ∀ k a, st' !! k = Some a →
      (status a = completed ↔ is_Some (recommendations a))
      ∧ (status a = completed ↔ is_Some (completedAt a))
      ∧ (∀ recs, recommendations a = Some recs → recs ≠ "").
Proof.
  intros Hinv Hcall.
  assert (map_Forall (λ _ a, outcomeInvariant a) st') as Hinv'.
  { destruct Hcall as [(newId & uid & hd & pc & ->)
                      |[(uid & aid & qid & ans & conf & pc & ->)
                       |(uid & aid & ->)]].
    - by apply start_preserves_outcome.
    - by apply answer_preserves_outcome.
    - unfold deleteAssessment. destruct (findOne st aid uid); [|done].
      cbn [snd]. unfold destroy. by apply map_Forall_delete. }
  split; [exact Hinv'|].
  intros k a Ha. pose proof (Hinv' _ _ Ha) as Hout. cbn in Hout.
  split; [|split].
  - destruct Hout as [(Hs & Hr & _)|(Hs & (recs & Hr & _) & _)]; rewrite Hs, Hr.
    + split; [done|]. by intros [? ?].
    + split; [by eexists|done].
  - destruct Hout as [(Hs & _ & Hc)|(Hs & _ & Hc & _)]; rewrite Hs.
    + rewrite Hc. split; [done|]. by intros [? ?].
    + done.
  - intros recs Hr.
    destruct Hout as [(_ & Hn & _)|(_ & (recs' & Hr' & Hne) & _)]; congruence.
Qed.

(** A completed assessment stays completed under each further call run on
    its own.  In a table that stores every row under its own id, after
    any call of [processAnswer], returning or throwing, for this or for
    another assessment, the row is still stored and completed, with its
    recommendations still present and no fewer answers; its progress is
    100 afterwards if it was before and its answers were at most one
    short of [totalQuestions].  [startHealthAssessment] leaves the row as
    it is. *)
Theorem completed_is_final (st : Store) (k : string) (a : Assessment) :
  keyed st → st !! k = Some a → status a = completed →
  (∀ uid aid qid ans conf pc,
     ∃ a', (answerStep uid aid qid ans conf pc st).2 !! k = Some a'
           ∧ status a' = completed
           ∧ (is_Some (recommendations a) → is_Some (recommendations a'))
           ∧ answerCount a ≤ answerCount a'
           ∧ (progress a = 100 → totalQuestions a ≤ answerCount a + 1 →
              progress a' = 100))
  ∧ (∀ newId uid hd pc, (startStep newId uid hd pc st).2 !! k = Some a).
Proof.
  intros Hkeyed Ha Hcompleted. split.
  - intros uid aid qid ans conf pc.
    destruct (decide (k = aid)) as [->|Hne].
    + destruct (answerStep uid aid qid ans conf pc st) as [[e|r] st'] eqn:Hstep.
      * apply answer_err_inv in Hstep as [_ ->]. cbn [snd]. exists a.
        split; [exact Ha|]. split; [exact Hcompleted|]. split; [tauto|].
        split; [lia|tauto].
      * apply ChatbotFacts.answer_ok_inv in Hstep as (a0 & Hf & Hcases).
        apply ChatbotFacts.findOne_Some in Hf. rewrite Ha in Hf.
        injection Hf as <-. cbn zeta in Hcases.
        rewrite ChatbotFacts.pushAnswer_length in Hcases.
        destruct Hcases as [(_ & recs & _ & -> & _)|(Hlt & q & -> & _)];
          cbn [snd]; unfold save; cbn [id updateCompleted updateInProgress];
          rewrite (Hkeyed _ _ Ha), lookup_insert_eq;
          (eexists; split; [reflexivity|]); cbn.
        -- split; [reflexivity|]. split; [by eexists|].
           unfold answerCount. cbn. rewrite ChatbotFacts.pushAnswer_length.
           fold (answerCount a). split; [lia|reflexivity].
        -- split; [exact Hcompleted|]. split; [tauto|].
           unfold answerCount. cbn. rewrite ChatbotFacts.pushAnswer_length.
           fold (answerCount a). split; [lia|]. intros _ Hn. lia.
    + rewrite answer_frame by done. exists a.
      split; [exact Ha|]. split; [exact Hcompleted|]. split; [tauto|].
      split; [lia|tauto].
  - intros newId uid hd pc. rewrite <- Ha.
    apply start_frame. by eexists.
Qed.

End Assessments.

Section Reachable.

Variable stringify : JsValue → string.
Variable anonymizeData : string → AnonOptions → Err + string.
Variable anonymizeText : string → string → Err + string.
Variable anonymizeObject : JsValue → string → Err + JsValue.
Variable axios_post : string → LocalLLM.GenerateRequest → Err + option LocalLLM.GenerateData.
Variable openai_create : ChatRequest → Err + ChatReply.
Variable now : string.
Variable svc : Service.

Local Abbreviation startStep :=
  (startHealthAssessment stringify anonymizeData anonymizeText anonymizeObject
     axios_post openai_create now svc).
Local Abbreviation answerStep :=
  (processAnswer stringify anonymizeData anonymizeText axios_post openai_create
     now svc).

(** Each successful answer adds exactly one answer, and the progress it
    returns and stores is never below the progress stored before. *)
Theorem progress_never_decreases (uid aid qid ans : string) (conf : JsValue)
    (pc : PrivacyContext) (st : Store) (a : Assessment)
    (r : AnswerResult) (st' : Store) :
  reachable st → st !! aid = Some a →
  answerStep uid aid qid ans conf pc st = (inr r, st') →
  ∃ a', st' !! aid = Some a'
        ∧ answerCount a' = answerCount a + 1
        ∧ progress a ≤ progress a'
        ∧ resProgress r = progress a'.
Proof.
  intros Hreach Ha Hstep.
  destruct (ChatbotFacts.reachable_wellFormed st Hreach) as [Hkeyed Hinv].
  pose proof (Hinv _ _ Ha) as Hinva. cbn in Hinva.
  destruct (ChatbotFacts.answer_step_tracks _ _ _ _ _ _ _ _ _ _ _ _ _ _ _ _ _
              Ha (Hkeyed _ _ Ha) Hinva Hstep)
    as (a' & Ha' & _ & (_ & Hshape') & Hcount & _ & Hp & _).
  exists a'. split; [done|]. split; [done|]. split; [|done].
  assert (0 ≤ answerCount a) by (unfold answerCount; lia).
  destruct Hinva as (_ & [(_ & Hn & ->)|(_ & Hn & ->)]);
    destruct Hshape' as [(_ & Hn' & ->)|(_ & Hn' & ->)].
  - apply roundPercent_monotone. lia.
  - apply ChatbotFacts.roundPercent_bounds. lia.
  - lia.
  - lia.
Qed.

End Reachable.

(** **** Instances *)

Lemma start_failure_leaves_row_witness :
  Scenario.start Scenario.openaiService ∅
  = (inl "Failed to start health assessment",
     <["a-1" :=
         {| id := "a-1"; userId := "user-1"; status := in_progress;
            healthData := Scenario.profile; anonymizedData := Scenario.profile;
            progress := 0; currentQuestion := JNum 1; totalQuestions := 15;
            answers := None; recommendations := None; nextQuestion := None;
            createdAt := Scenario.clock; updatedAt := Scenario.clock;
            completedAt := None |}]> ∅).
Proof.
  apply (start_failure_leaves_row Scenario.noStringify Scenario.keepPrompt
           Scenario.keepText Scenario.keepObject Scenario.ollamaDown
           Scenario.openaiDown Scenario.clock Scenario.openaiService
           "a-1" "user-1" Scenario.profile Scenario.profile Scenario.context0 ∅
           "TypeError: this.buildSystemPrompt is not a function");
    vm_compute; reflexivity.
Defined.

Lemma start_keeps_existing_rows_witness :
  Scenario.start Scenario.localService (Scenario.tableAfter 0)
  = (inl "Failed to start health assessment", Scenario.tableAfter 0).
Proof.
  apply (proj2 (start_keeps_existing_rows Scenario.noStringify Scenario.keepPrompt
                  Scenario.keepText Scenario.keepObject Scenario.ollamaDown
                  Scenario.openaiDown Scenario.clock Scenario.localService
                  "a-1" "user-1" Scenario.profile Scenario.context0
                  (Scenario.tableAfter 0))).
  eexists. vm_compute. reflexivity.
Defined.

Lemma processAnswer_frame_witness :
  (Scenario.submit Scenario.localService "user-1" "q" "si"
     (Scenario.tableAfter 1)).2 !! "a-2"
  = Scenario.tableAfter 1 !! "a-2".
Proof.
  apply (processAnswer_frame Scenario.noStringify Scenario.keepPrompt
           Scenario.keepText Scenario.ollamaDown Scenario.openaiDown
           Scenario.clock Scenario.localService).
  - exact (proj1 (ChatbotFacts.reachable_wellFormed _
                    (ChatbotFacts.tableAfter_reachable 1))).
  - discriminate.
Defined.

Lemma other_users_are_locked_out_witness :
  Scenario.submit Scenario.localService "user-2" "q" "si" (Scenario.tableAfter 1)
  = (inl "Failed to process answer", Scenario.tableAfter 1).
Proof.
  destruct (Scenario.tableAfter 1 !! "a-1") as [a|] eqn:Ha;
    [|by vm_compute in Ha].
  refine (proj1 (other_users_are_locked_out Scenario.noStringify
                   Scenario.keepPrompt Scenario.keepText Scenario.ollamaDown
                   Scenario.openaiDown Scenario.clock Scenario.localService
                   "user-2" "a-1" "q" "si" (JNum 1) Scenario.context0
                   (Scenario.tableAfter 1) a Ha _)).
  vm_compute in Ha. injection Ha as <-. discriminate.
Defined.

Lemma answer_then_read_witness :
  ∃ r v,
    Scenario.submit Scenario.localService "user-1" "q" "si" (Scenario.tableAfter 1)
    = (inr r, Scenario.tableAfter 2)
    ∧ getAssessment "user-1" "a-1" Scenario.context0 (Scenario.tableAfter 2) = inr v
    ∧ viewProgress v = resProgress r.
Proof.
  assert (∃ r, Scenario.submit Scenario.localService "user-1" "q" "si"
                 (Scenario.tableAfter 1) = (inr r, Scenario.tableAfter 2))
    as [r Hs] by (eexists; vm_compute; reflexivity).
  destruct (Scenario.tableAfter 1 !! "a-1") as [a|] eqn:Ha;
    [|by vm_compute in Ha].
  destruct (answer_then_read Scenario.noStringify Scenario.keepPrompt
              Scenario.keepText Scenario.ollamaDown Scenario.openaiDown
              Scenario.clock Scenario.localService "user-1" "a-1" "q" "si"
              (JNum 1) Scenario.context0 Scenario.context0
              (Scenario.tableAfter 1) a r (Scenario.tableAfter 2)
              (proj1 (ChatbotFacts.reachable_wellFormed _
                        (ChatbotFacts.tableAfter_reachable 1))) Ha Hs)
    as (v & Hv & _ & Hp & _).
  exists r, v. exact (conj Hs (conj Hv Hp)).
Defined.

Lemma delete_removes_exactly_witness :
  deleteAssessment "user-1" "a-1" (Scenario.tableAfter 1)
  = (inr {| deleteSuccess := true;
            deleteMessage := "Assessment permanently deleted" |},
     delete "a-1" (Scenario.tableAfter 1)).
Proof.
  destruct (findOne (Scenario.tableAfter 1) "a-1" "user-1") as [a|] eqn:Ha;
    [|by vm_compute in Ha].
  exact (proj1 (delete_removes_exactly "user-1" "a-1" Scenario.context0
                  (Scenario.tableAfter 1) a
                  (proj1 (ChatbotFacts.reachable_wellFormed _
                            (ChatbotFacts.tableAfter_reachable 1))) Ha)).
Defined.

Lemma progress_never_decreases_witness :
  ∃ a a', Scenario.tableAfter 1 !! "a-1" = Some a
          ∧ Scenario.tableAfter 2 !! "a-1" = Some a'
          ∧ progress a ≤ progress a'.
Proof.
  assert (∃ r, Scenario.submit Scenario.localService "user-1" "q" "si"
                 (Scenario.tableAfter 1) = (inr r, Scenario.tableAfter 2))
    as [r Hs] by (eexists; vm_compute; reflexivity).
  destruct (Scenario.tableAfter 1 !! "a-1") as [a|] eqn:Ha;
    [|by vm_compute in Ha].
  destruct (progress_never_decreases Scenario.noStringify Scenario.keepPrompt
              Scenario.keepText Scenario.ollamaDown Scenario.openaiDown
              Scenario.clock Scenario.localService "user-1" "a-1" "q" "si"
              (JNum 1) Scenario.context0 (Scenario.tableAfter 1) a r
              (Scenario.tableAfter 2) (ChatbotFacts.tableAfter_reachable 1) Ha Hs)
    as (a' & Ha' & _ & Hle & _).
  exists a, a'. exact (conj eq_refl (conj Ha' Hle)).
Defined.

Lemma recommendations_iff_completed_witness :
  ∃ a, (Scenario.submit Scenario.localService "user-1" "q" "si"
          Scenario.overwrittenTable).2 !! "a-1" = Some a
       ∧ (status a = completed ↔ is_Some (recommendations a))
       ∧ (status a = completed ↔ is_Some (completedAt a)).
Proof.
  destruct ((Scenario.submit Scenario.localService "user-1" "q" "si"
               Scenario.overwrittenTable).2 !! "a-1") as [a|] eqn:Ha;
    [|by vm_compute in Ha].
  exists a. split; [reflexivity|].
  destruct (proj2 (recommendations_iff_completed Scenario.noStringify
                     Scenario.keepPrompt Scenario.keepText Scenario.keepObject
                     Scenario.ollamaDown Scenario.openaiDown Scenario.clock
                     Scenario.localService Scenario.overwrittenTable
                     (Scenario.submit Scenario.localService "user-1" "q" "si"
                        Scenario.overwrittenTable).2
                     ltac:(apply map_Forall_singleton; right;
                           split; [reflexivity|];
                           split; [by eexists|];
                           split; eexists; reflexivity)
                     ltac:(right; left;
                           by exists "user-1", "a-1", "q", "si", (JNum 1),
                                     Scenario.context0))
              "a-1" a Ha) as (Hrecs & Hdate & _).
  exact (conj Hrecs Hdate).
Defined.

Lemma completed_is_final_witness :
  (∃ a', (Scenario.submit Scenario.localService "user-1" "q" "si"
            Scenario.overwrittenTable).2 !! "a-1" = Some a'
         ∧ status a' = completed
         ∧ is_Some (recommendations a')
         ∧ 14 ≤ answerCount a')
  ∧ (∃ a', (Scenario.submit Scenario.localService "user-1" "q" "si"
              (Scenario.tableAfter 15)).2 !! "a-1" = Some a'
           ∧ status a' = completed ∧ progress a' = 100).
Proof.
  split.
  - destruct (Scenario.overwrittenTable !! "a-1") as [a|] eqn:Ha;
      [|by vm_compute in Ha].
    assert (a = {| id := "a-1"; userId := "user-1"; status := completed;
                   healthData := Scenario.profile;
                   anonymizedData := Scenario.profile;
                   progress := 93; currentQuestion := JNum 15;
                   totalQuestions := 15;
                   answers :=
                     Some (replicate 14
                             {| questionId := "q"; answer := "si";
                                confidence := JNum 1;
                                answeredAt := Scenario.clock |});
                   recommendations := Some "Come fruta.";
                   nextQuestion := Some "q";
                   createdAt := Scenario.clock; updatedAt := Scenario.clock;
                   completedAt := Some Scenario.clock |}) as Heq.
    { unfold Scenario.overwrittenTable in Ha.
      rewrite lookup_singleton_eq in Ha. by injection Ha as <-. }
    destruct (proj1 (completed_is_final Scenario.noStringify Scenario.keepPrompt
                       Scenario.keepText Scenario.keepObject Scenario.ollamaDown
                       Scenario.openaiDown Scenario.clock Scenario.localService
                       Scenario.overwrittenTable "a-1" a
                       ltac:(intros k b Hb;
                             unfold Scenario.overwrittenTable in Hb;
                             apply lookup_singleton_Some in Hb as [<- <-];
                             reflexivity)
                       Ha ltac:(by rewrite Heq))
                "user-1" "a-1" "q" "si" (JNum 1) Scenario.context0)
      as (a' & Ha' & Hs' & Hr' & Hn' & _).
    exists a'. split; [exact Ha'|]. split; [exact Hs'|].
    split; [apply Hr'; rewrite Heq; by eexists|].
    rewrite Heq in Hn'. exact Hn'.
  - destruct (Scenario.tableAfter 15 !! "a-1") as [a|] eqn:Ha;
      [|by vm_compute in Ha].
    assert (status a = completed) as Hs
      by (vm_compute in Ha; injection Ha as <-; reflexivity).
    assert (progress a = 100) as Hp
      by (vm_compute in Ha; injection Ha as <-; reflexivity).
    assert (totalQuestions a ≤ answerCount a + 1) as Hn
      by (vm_compute in Ha; injection Ha as <-; vm_compute; discriminate).
    destruct (proj1 (completed_is_final Scenario.noStringify Scenario.keepPrompt
                       Scenario.keepText Scenario.keepObject Scenario.ollamaDown
                       Scenario.openaiDown Scenario.clock Scenario.localService
                       (Scenario.tableAfter 15) "a-1" a
                       (proj1 (ChatbotFacts.reachable_wellFormed _
                                 (ChatbotFacts.tableAfter_reachable 15)))
                       Ha Hs)
                "user-1" "a-1" "q" "si" (JNum 1) Scenario.context0)
      as (a' & Ha' & Hs' & _ & _ & Hp').
    exists a'. exact (conj Ha' (conj Hs' (Hp' Hp Hn))).
Defined.

End ServiceMore.
